(** * tiup-cluster: the display command and the InitConfig task

    A shallow embedding of [cmd/cluster/command/display.go] and of the
    [InitConfig] task of package [task].  Go strings are byte strings
    ([string], one [ascii] per byte), Go slices are lists, the string set of
    [tiup/pkg/set] is a [gset string], the executor registry of the task
    [Context] is a [gmap string Executor].  Calls that leave the process
    (metadata store, SSH, PD, systemd, console) are effects of a small
    program monad which is run against an arbitrary handler and records the
    calls it makes. *)

From Stdlib Require Import ZArith Ascii String DecimalString List Bool
  Sorting.Sorted Sorting.Permutation Lia.
From stdpp Require Import base gmap strings list.

Local Open Scope string_scope.
Local Open Scope list_scope.
Local Open Scope nat_scope.

(** ** Go's [strings] package, as far as the program uses it *)

Module GoStrings.

Definition byte (c : ascii) : nat := nat_of_ascii c.

(** [asciiSpace] of package [strings]: tab, newline, vertical tab, form
    feed, carriage return, space. *)
Definition asciiSpace (c : ascii) : bool :=
  let n := byte c in
  ((9 <=? n) && (n <=? 13)) || (n =? 32).

(** The two-byte UTF-8 encodings of the runes [unicode.IsSpace] accepts:
    U+0085 (C2 85) and U+00A0 (C2 A0). *)
Definition space2 (c1 c2 : ascii) : bool :=
  (byte c1 =? 194) && ((byte c2 =? 133) || (byte c2 =? 160)).

(** The three-byte ones: U+1680 (E1 9A 80), U+2000..U+200A (E2 80 80..8A),
    U+2028, U+2029 (E2 80 A8, A9), U+202F (E2 80 AF), U+205F (E2 81 9F),
    U+3000 (E3 80 80). *)
Definition space3 (c1 c2 c3 : ascii) : bool :=
  let '(a, b, c) := (byte c1, byte c2, byte c3) in
  ((a =? 225) && (b =? 154) && (c =? 128))
  || ((a =? 226) && (b =? 128)
      && (((128 <=? c) && (c <=? 138)) || (c =? 168) || (c =? 169) || (c =? 175)))
  || ((a =? 226) && (b =? 129) && (c =? 159))
  || ((a =? 227) && (b =? 128) && (c =? 128)).

(** [strings.TrimLeftFunc(s, unicode.IsSpace)]: the leading rune is white
    space exactly when the string starts with the encoding of one. *)
Fixpoint TrimLeftSpace (s : string) : string :=
  match s with
  | String c1 r1 =>
      if asciiSpace c1 then TrimLeftSpace r1
      else match r1 with
           | String c2 r2 =>
               if space2 c1 c2 then TrimLeftSpace r2
               else match r2 with
                    | String c3 r3 =>
                        if space3 c1 c2 c3 then TrimLeftSpace r3 else s
                    | EmptyString => s
                    end
           | EmptyString => s
           end
  | EmptyString => s
  end.

(** The same scan over the reversed bytes: [c1] is the last byte, [c2] the
    one before it.  [utf8.DecodeLastRuneInString] walks back to the nearest
    start byte, so the last rune is white space exactly when the string
    ends with the encoding of one. *)
Fixpoint trimRevSpace (s : string) : string :=
  match s with
  | String c1 r1 =>
      if asciiSpace c1 then trimRevSpace r1
      else match r1 with
           | String c2 r2 =>
               if space2 c2 c1 then trimRevSpace r2
               else match r2 with
                    | String c3 r3 =>
                        if space3 c3 c2 c1 then trimRevSpace r3 else s
                    | EmptyString => s
                    end
           | EmptyString => s
           end
  | EmptyString => s
  end.

Definition TrimRightSpace (s : string) : string :=
  String.rev (trimRevSpace (String.rev s)).

(** [strings.TrimSpace]: leading white space goes first, then trailing. *)
Definition TrimSpace (s : string) : string :=
  TrimRightSpace (TrimLeftSpace s).

(** [strings.Split(s, sep)] for a one-byte separator, as at the call site
    ([sep = " "]): one piece more than there are separator bytes; the empty
    string gives one empty piece. *)
Fixpoint Split (s : string) (sep : ascii) : list string :=
  match s with
  | EmptyString => [EmptyString]
  | String c r =>
      if Ascii.eqb c sep then EmptyString :: Split r sep
      else match Split r sep with
           | p :: ps => String c p :: ps
           | [] => [String c EmptyString]
           end
  end.

(** The ASCII fast path of [strings.ToLower]. *)
Definition isASCII (s : string) : bool :=
  forallb (fun c => byte c <? 128) (list_ascii_of_string s).

Definition lowerByte (c : ascii) : ascii :=
  let n := byte c in
  if (65 <=? n) && (n <=? 90) then ascii_of_nat (n + 32) else c.

Definition lowerASCII (s : string) : string :=
  string_of_list_ascii (map lowerByte (list_ascii_of_string s)).

End GoStrings.

(** ** Errors *)

(** Modelled from the spec: the error values are declared outside the two
    files.  [ErrNoExecutor] and [ErrUnsupportedRollback] are the two error
    kinds of package [task] the specification names ([NoExecutor],
    [UnsupportedRollback]); [AddStack] is [errors.AddStack] applied to a
    non-nil error; [Errorf] stands for every other error a collaborator may
    hand back. *)
Inductive error : Type :=
| ErrNoExecutor
| ErrUnsupportedRollback
| Errorf (msg : string)
| AddStack (e : error).

(** A Go [(value, error)] pair of which the caller reads the value only
    when the error is nil. *)
Inductive result (A : Type) : Type :=
| Ok (a : A)
| Err (e : error).
Arguments Ok {A} a.
Arguments Err {A} e.

(** A runtime panic of the Go program. *)
Inductive panic : Type :=
| IndexOutOfRange (index len : nat)
| SliceBoundsOutOfRange (low len : nat).

(** ** Package [meta]: instances, topology, cluster metadata *)

Module meta.

(** Modelled from the spec: the [Instance] interface is declared outside
    the two files; the specification lists its attributes (identifier,
    role, host, ports, ordered directory list, service name).  Its status
    is not a field: it is queried, see [InstanceStatus] below. *)
Record Instance : Type := {
  ID : string;
  Role : string;
  GetHost : string;
  UsedPorts : list Z;
  UsedDirs : list string;
  ServiceName : string
}.

(** Modelled from the spec: a component is a role owning an ordered set of
    instances. *)
Record Component : Type := {
  Name : string;
  Instances : list Instance
}.

(** Modelled from the spec: the topology exposes its components in start
    order and the list of PD endpoints. *)
Record TopologySpecification : Type := {
  ComponentsByStartOrder : list Component;
  GetPDList : list string
}.

(** Modelled from the spec: cluster metadata holds the deploy user, the
    version and the topology. *)
Record ClusterMeta : Type := {
  User : string;
  Version : string;
  Topology : TopologySpecification
}.

(** Modelled from the spec: the path set of a task; [InitConfig] reads
    [Cache] only. *)
Record DirPaths : Type := {
  Deploy : string;
  Data : string;
  Cache : string
}.

End meta.

(** ** Package [task]: the context that routes to per-host executors *)

(** A remote executor is an opaque handle. *)
Inductive Executor : Type :=
| TiOpsExecutor (addr : string).

(** Modelled from the spec: the context maps a host to its executor and
    holds the SSH key paths. *)
Record Context : Type := {
  exec : gmap string Executor;
  PrivateKeyPath : string;
  PublicKeyPath : string
}.

(** Modelled from the spec: [task.NewContext()], a context without any
    executor. *)
Definition NewContext : Context :=
  {| exec := ∅; PrivateKeyPath := ""; PublicKeyPath := "" |}.

(** Modelled from the spec: [ctx.GetExecutor(host)] hands back the executor
    registered for the host and a found flag; the pair is an option here. *)
Definition GetExecutor (ctx : Context) (host : string) : option Executor :=
  exec ctx !! host.

(** ** The calls that leave the process *)

(** Each constructor is one call to a collaborator and is indexed by what
    the call hands back.  A call that mutates an object it got by pointer
    (the context, the topology) hands back the object as it is afterwards. *)
Inductive Eff : Type -> Type :=
| ClusterMetadata (clusterName : string) : Eff (result meta.ClusterMeta)
| SaveClusterMeta (clusterName : string) (m : meta.ClusterMeta) : Eff (option error)
| NeedCheckTomebsome (topo : meta.TopologySpecification) : Eff bool
| SetSSHKeySet (ctx : Context) (privateKeyPath publicKeyPath : string)
    : Eff (Context * option error)
| SetClusterSSH (ctx : Context) (topo : meta.TopologySpecification)
    (deployUser : string) (sshTimeout : Z) : Eff (Context * option error)
| DestroyTombstone (ctx : Context) (topo : meta.TopologySpecification)
    (returnNodesOnly : bool)
    : Eff (meta.TopologySpecification * (list string * option error))
| InstanceStatus (ins : meta.Instance) (pdList : list string) : Eff string
| GetServiceStatus (e : Executor) (name : string) : Eff (string * option error)
| PrintTable (rows : list (list string)) (header : bool) : Eff unit
| Infof (format : string) (args : list (list string)) : Eff unit
| MkdirAll (path : string) (perm : Z) : Eff (option error)
| InstanceInitConfig (ins : meta.Instance) (e : Executor)
    (clusterName clusterVersion deployUser : string) (paths : meta.DirPaths)
    : Eff (option error).

(** Programs: return, panic, or call a collaborator and go on with what it
    hands back. *)
Inductive Prog (R : Type) : Type :=
| Ret (r : R)
| Panic (p : panic)
| Call {X : Type} (e : Eff X) (k : X -> Prog R).
Arguments Ret {R} r.
Arguments Panic {R} p.
Arguments Call {R X} e k.

Fixpoint bind {A B : Type} (p : Prog A) (f : A -> Prog B) : Prog B :=
  match p with
  | Ret a => f a
  | Panic q => Panic q
  | Call e k => Call e (fun x => bind (k x) f)
  end.

Definition call {X : Type} (e : Eff X) : Prog X := Call e Ret.

Declare Scope prog_scope.
Delimit Scope prog_scope with prog.
Notation "'let*' x ':=' c1 'in' c2" := (bind c1 (fun x => c2))
  (at level 10, x pattern, c1 at level 100, c2 at level 200) : prog_scope.
Notation "c1 ;;; c2" := (bind c1 (fun _ => c2))
  (at level 100, right associativity) : prog_scope.

(** [for _, a := range l { s = body(s, a) }] *)
Fixpoint forRange {A S : Type} (l : list A) (s : S) (body : S -> A -> Prog S)
  : Prog S :=
  match l with
  | [] => Ret s
  | a :: l' => bind (body s a) (fun s' => forRange l' s' body)
  end.

(** [l[i]] on a slice: a panic when [i] is out of range. *)
Definition index {A : Type} (l : list A) (i : nat) : Prog A :=
  match l !! i with
  | Some a => Ret a
  | None => Panic (IndexOutOfRange i (length l))
  end.

(** *** Running a program *)

Inductive Outcome (R : Type) : Type :=
| Returned (r : R)
| Panicked (p : panic).
Arguments Returned {R} r.
Arguments Panicked {R} p.

(** One call together with what it handed back. *)
Inductive Event : Type :=
| Ev {X : Type} (e : Eff X) (x : X).

(** The world outside the process answers every call and moves on. *)
Definition Handler (W : Type) : Type := forall X : Type, Eff X -> W -> X * W.

(** The outcome, the world afterwards and the calls made, oldest first. *)
Fixpoint run {W R : Type} (h : Handler W) (p : Prog R) (w : W)
  : Outcome R * W * list Event :=
  match p with
  | Ret r => (Returned r, w, [])
  | Panic q => (Panicked q, w, [])
  | Call e k =>
      let '(x, w1) := h _ e w in
      let '(o, w2, tr) := run h (k x) w1 in
      (o, w2, Ev e x :: tr)
  end.

Definition outcome {W R : Type} (r : Outcome R * W * list Event) : Outcome R :=
  fst (fst r).
Definition world {W R : Type} (r : Outcome R * W * list Event) : W :=
  snd (fst r).
Definition trace {W R : Type} (r : Outcome R * W * list Event) : list Event :=
  snd r.

(** ** What the programs take from libraries *)

(** The colours of [fatih/color] the display uses. *)
Inductive Attribute : Type :=
| FgRed | FgGreen | FgYellow | FgCyan | FgHiGreen.

(** Library and package-level values the two files use and do not define:
    [sort.Slice] (on the elements, with the comparison it is given),
    the [color.*String] helpers, the Unicode part of [strings.ToLower],
    [utils.JoinInt], [meta.ClusterPath] and the package variable
    [sshTimeout]. *)
Record Lib : Type := {
  sort_Slice : (list string -> list string -> bool) ->
               list (list string) -> list (list string);
  colorString : Attribute -> string -> string;
  unicodeToLower : string -> string;
  JoinInt : list Z -> string -> string;
  ClusterPath : string -> list string -> string;
  sshTimeout : Z
}.

(** What [sort.Slice] asks of its comparison. *)
Record StrictWeak {A : Type} (less : A -> A -> bool) : Prop := {
  sw_asym : forall a b, less a b = true -> less b a = false;
  sw_negtrans : forall a b c,
      less a b = false -> less b c = false -> less a c = false
}.

(** What [sort.Slice] promises: it rearranges the slice, and under such a
    comparison no later element is less than an earlier one.  Nothing is
    promised about the order of elements that compare equal. *)
Record SortContract {A : Type}
  (sort : (A -> A -> bool) -> list A -> list A) : Prop := {
  sort_perm : forall less l, Permutation (sort less l) l;
  sort_sorted : forall less l,
      StrictWeak less ->
      StronglySorted (fun a b => less b a = false) (sort less l)
}.

(** ** Package [command]: display.go *)

Module command.
Section WithLib.

Variable L : Lib.

Local Open Scope prog_scope.

Record displayOption : Type := {
  clusterName : string;
  filterRole : list string;
  filterNode : list string
}.

(** [strings.ToLower]: bytewise on ASCII-only strings, the Unicode mapping
    otherwise. *)
Definition ToLower (s : string) : string :=
  if GoStrings.isASCII s then GoStrings.lowerASCII s else unicodeToLower L s.

Definition formatInstanceStatus (status : string) : string :=
  let l := ToLower status in
  if String.eqb l "up" || String.eqb l "healthy" then
    colorString L FgGreen status
  else if String.eqb l "healthy|l" then
    colorString L FgHiGreen status
  else if String.eqb l "offline" || String.eqb l "tombstone"
          || String.eqb l "disconnected" then
    colorString L FgYellow status
  else if String.eqb l "down" || String.eqb l "unhealthy"
          || String.eqb l "err" then
    colorString L FgRed status
  else status.

(** Lines 91-129. *)
Definition destroyTombstoneIfNeed (clusterName : string)
  (metadata : meta.ClusterMeta) : Prog (option error) :=
  let topo := meta.Topology metadata in
  let* need := call (NeedCheckTomebsome topo) in
  if negb need then Ret None else
  let ctx := NewContext in
  let* (ctx, err) :=
    call (SetSSHKeySet ctx (ClusterPath L clusterName ["ssh"; "id_rsa"])
            (ClusterPath L clusterName ["ssh"; "id_rsa.pub"])) in
  match err with Some e => Ret (Some (AddStack e)) | None =>
  let* (ctx, err) :=
    call (SetClusterSSH ctx topo (meta.User metadata) (sshTimeout L)) in
  match err with Some e => Ret (Some (AddStack e)) | None =>
  let* (topo, (nodes, err)) := call (DestroyTombstone ctx topo true) in
  match err with Some e => Ret (Some (AddStack e)) | None =>
  if length nodes =? 0 then Ret None else
  call (Infof "Start destroy Tombstone nodes: %v ..." [nodes]) ;;;
  let* (topo, (_, err)) := call (DestroyTombstone ctx topo false) in
  match err with Some e => Ret (Some (AddStack e)) | None =>
  call (Infof "Destroy success" []) ;;;
  (* [metadata.Topology] is the pointer [topo]: the save sees the
     topology as the calls above left it *)
  let metadata := {| meta.User := meta.User metadata;
                     meta.Version := meta.Version metadata;
                     meta.Topology := topo |} in
  call (SaveClusterMeta clusterName metadata)
  end end end end.

(** The header row, line 141. *)
Definition header : list string :=
  ["ID"; "Role"; "Host"; "Ports"; "Status"; "Data Dir"; "Deploy Dir"].

(** Lines 183-189: the state word of a service-status answer, or the
    status as it was. *)
Definition serviceState (status active : string) : string :=
  let parts := GoStrings.Split (GoStrings.TrimSpace active) " " in
  if 2 <? length parts then
    if String.eqb (nth 1 parts "") "active" then "Up" else nth 1 parts ""
  else status.

(** Lines 192-200: the row of an instance. *)
Definition tableRow (ins : meta.Instance)
  (status dataDir deployDir : string) : list string :=
  [ colorString L FgCyan (meta.ID ins);
    meta.Role ins;
    meta.GetHost ins;
    JoinInt L (meta.UsedPorts ins) "/";
    formatInstanceStatus status;
    dataDir;
    deployDir ].

(** Lines 161-200: the body of the inner loop; [continue] hands the table
    back as it is. *)
Definition displayInstance (ctx : Context) (pdList : list string)
  (filterRoles filterNodes : gset string)
  (clusterTable : list (list string)) (ins : meta.Instance)
  : Prog (list (list string)) :=
  (* apply role filter *)
  if (0 <? size filterRoles) && negb (bool_decide (meta.Role ins ∈ filterRoles))
  then Ret clusterTable else
  (* apply node filter *)
  if (0 <? size filterNodes) && negb (bool_decide (meta.ID ins ∈ filterNodes))
  then Ret clusterTable else
  let dataDir := "-" in
  let insDirs := meta.UsedDirs ins in
  let* deployDir := index insDirs 0 in
  let* dataDir :=
    if 1 <? length insDirs then index insDirs 1 else Ret dataDir in
  let* status := call (InstanceStatus ins pdList) in
  (* Query the service status *)
  let* status :=
    if String.eqb status "-" then
      match GetExecutor ctx (meta.GetHost ins) with
      | Some e =>
          let* (active, _) :=
            call (GetServiceStatus e (meta.ServiceName ins)) in
          Ret (serviceState status active)
      | None => Ret status
      end
    else Ret status in
  Ret (clusterTable ++ [tableRow ins status dataDir deployDir]).

(** Lines 206-215: the comparison handed to [sort.Slice].  The rows it
    meets have seven columns, so no index is out of range. *)
Definition col (row : list string) (i : nat) : string := nth i row "".

Fixpoint lessCols (cols : list nat) (lhs rhs : list string) : bool :=
  match cols with
  | c :: cols' =>
      if negb (String.eqb (col lhs c) (col rhs c))
      then String.ltb (col lhs c) (col rhs c)
      else lessCols cols' lhs rhs
  | [] => String.ltb (col lhs 3) (col rhs 3)
  end.

Definition less (lhs rhs : list string) : bool := lessCols [1; 2] lhs rhs.

(** [sort.Slice(clusterTable[1:], ...)] sorts in place behind the first
    row; [clusterTable[1:]] of an empty slice is out of bounds. *)
Definition sortBody (clusterTable : list (list string))
  : Prog (list (list string)) :=
  match clusterTable with
  | h :: rows => Ret (h :: sort_Slice L less rows)
  | [] => Panic (SliceBoundsOutOfRange 1 0)
  end.

(** Lines 131-220. *)
Definition displayClusterTopology (opt : displayOption)
  : Prog (option error) :=
  let* r := call (ClusterMetadata (clusterName opt)) in
  match r with Err e => Ret (Some e) | Ok metadata =>
  let topo := meta.Topology metadata in
  let clusterTable := [header] in
  let ctx := NewContext in
  let* (ctx, err) :=
    call (SetSSHKeySet ctx
            (ClusterPath L (clusterName opt) ["ssh"; "id_rsa"])
            (ClusterPath L (clusterName opt) ["ssh"; "id_rsa.pub"])) in
  match err with Some e => Ret (Some (AddStack e)) | None =>
  let* (ctx, err) :=
    call (SetClusterSSH ctx topo (meta.User metadata) (sshTimeout L)) in
  match err with Some e => Ret (Some (AddStack e)) | None =>
  let filterRoles : gset string := list_to_set (filterRole opt) in
  let filterNodes : gset string := list_to_set (filterNode opt) in
  let pdList := meta.GetPDList topo in
  let* clusterTable :=
    forRange (meta.ComponentsByStartOrder topo) clusterTable
      (fun clusterTable comp =>
         forRange (meta.Instances comp) clusterTable
           (displayInstance ctx pdList filterRoles filterNodes)) in
  (* Sort by role,host,ports *)
  let* clusterTable := sortBody clusterTable in
  call (PrintTable clusterTable true) ;;;
  Ret None
  end end end.

End WithLib.
End command.

(** ** Package [task]: the InitConfig task *)

Module InitConfig.

Local Open Scope prog_scope.

Record t : Type := {
  clusterName : string;
  clusterVersion : string;
  instance : meta.Instance;
  deployUser : string;
  paths : meta.DirPaths
}.

(** [Execute] implements the Task interface. *)
Definition Execute (c : t) (ctx : Context) : Prog (option error) :=
  (* Copy to remote server *)
  match GetExecutor ctx (meta.GetHost (instance c)) with
  | None => Ret (Some ErrNoExecutor)
  | Some exec =>
      let* err := call (MkdirAll (meta.Cache (paths c)) 493%Z) in
      match err with
      | Some e => Ret (Some e)
      | None =>
          call (InstanceInitConfig (instance c) exec (clusterName c)
                  (clusterVersion c) (deployUser c) (paths c))
      end
  end.

(** [Rollback] implements the Task interface. *)
Definition Rollback (c : t) (ctx : Context) : Prog (option error) :=
  Ret (Some ErrUnsupportedRollback).

End InitConfig.

(** ** Reading a trace *)

(** A call of [meta.SaveClusterMeta]. *)
Definition isSave (ev : Event) : bool :=
  match ev with
  | Ev e _ => match e with SaveClusterMeta _ _ => true | _ => false end
  end.

(** A call of [operator.DestroyTombstone] with the given [returnNodesOnly]. *)
Definition isDestroy (returnNodesOnly : bool) (ev : Event) : bool :=
  match ev with
  | Ev e _ =>
      match e with
      | DestroyTombstone _ _ b => Bool.eqb b returnNodesOnly
      | _ => false
      end
  end.

(** What such a call handed back: the node list and the error. *)
Definition destroyed (returnNodesOnly : bool) (ev : Event)
  : option (list string * option error) :=
  match ev with
  | Ev e x =>
      match e in Eff X return X -> option (list string * option error) with
      | DestroyTombstone _ _ b =>
          fun x => if Bool.eqb b returnNodesOnly then Some (snd x) else None
      | _ => fun _ => None
      end x
  end.

(** The table handed to [cliutil.PrintTable]. *)
Definition printed (ev : Event) : option (list (list string)) :=
  match ev with
  | Ev e _ => match e with PrintTable rows _ => Some rows | _ => None end
  end.

(** The sequences of calls a run of [destroyTombstoneIfNeed] can make,
    with the outcome of each; the last one is the only one with a save. *)
Inductive TombstoneRun (r : Outcome (option error)) (tr : list Event)
  : Prop :=
| tr_no_need topo :
    r = Returned None ->
    tr = [Ev (NeedCheckTomebsome topo) false] -> TombstoneRun r tr
| tr_keys_failed topo c p q c1 e :
    r = Returned (Some (AddStack e)) ->
    tr = [Ev (NeedCheckTomebsome topo) true;
          Ev (SetSSHKeySet c p q) (c1, Some e)] -> TombstoneRun r tr
| tr_ssh_failed topo c p q c1 u t c2 e :
    r = Returned (Some (AddStack e)) ->
    tr = [Ev (NeedCheckTomebsome topo) true;
          Ev (SetSSHKeySet c p q) (c1, None);
          Ev (SetClusterSSH c1 topo u t) (c2, Some e)] -> TombstoneRun r tr
| tr_discovery_failed pre c topo topo1 nodes e :
    r = Returned (Some (AddStack e)) ->
    length pre = 3 ->
    Forall (fun ev => isSave ev = false /\ isDestroy false ev = false
                      /\ isDestroy true ev = false) pre ->
    tr = pre ++ [Ev (DestroyTombstone c topo true) (topo1, (nodes, Some e))] ->
    TombstoneRun r tr
| tr_nothing_found pre c topo topo1 :
    r = Returned None ->
    length pre = 3 ->
    Forall (fun ev => isSave ev = false /\ isDestroy false ev = false
                      /\ isDestroy true ev = false) pre ->
    tr = pre ++ [Ev (DestroyTombstone c topo true) (topo1, ([], None))] ->
    TombstoneRun r tr
| tr_destroy_failed pre c topo topo1 n nodes f a topo2 nodes2 e :
    r = Returned (Some (AddStack e)) ->
    length pre = 3 ->
    Forall (fun ev => isSave ev = false /\ isDestroy false ev = false
                      /\ isDestroy true ev = false) pre ->
    tr = pre ++ [Ev (DestroyTombstone c topo true) (topo1, (n :: nodes, None));
                 Ev (Infof f a) tt;
                 Ev (DestroyTombstone c topo1 false) (topo2, (nodes2, Some e))] ->
    TombstoneRun r tr
| tr_saved pre c topo topo1 n nodes f a topo2 nodes2 f' a' name m res :
    r = Returned res ->
    length pre = 3 ->
    Forall (fun ev => isSave ev = false /\ isDestroy false ev = false
                      /\ isDestroy true ev = false) pre ->
    tr = pre ++ [Ev (DestroyTombstone c topo true) (topo1, (n :: nodes, None));
                 Ev (Infof f a) tt;
                 Ev (DestroyTombstone c topo1 false) (topo2, (nodes2, None));
                 Ev (Infof f' a') tt;
                 Ev (SaveClusterMeta name m) res] ->
    meta.Topology m = topo2 ->
    TombstoneRun r tr.


(** ** Reading the display loop *)

(** The instances in the order the two loops visit them. *)
Definition instances (topo : meta.TopologySpecification)
  : list meta.Instance :=
  flat_map meta.Instances (meta.ComponentsByStartOrder topo).

(** An instance that neither filter of lines 161-168 skips. *)
Definition shown (filterRoles filterNodes : gset string)
  (ins : meta.Instance) : bool :=
  negb ((0 <? size filterRoles)
        && negb (bool_decide (meta.Role ins ∈ filterRoles)))
  && negb ((0 <? size filterNodes)
           && negb (bool_decide (meta.ID ins ∈ filterNodes))).

(** The ways lines 177-191 arrive at the status of an instance against a
    handler: PD's answer when it is not ["-"]; ["-"] when the host has no
    executor; otherwise what lines 183-189 make of systemd's answer. *)
Inductive Reconciles {W : Type} (h : Handler W) (ctx : Context)
  (pdList : list string) (ins : meta.Instance) : string -> Prop :=
| rec_authoritative w status w1 :
    h _ (InstanceStatus ins pdList) w = (status, w1) ->
    status <> "-" ->
    Reconciles h ctx pdList ins status
| rec_no_executor w w1 :
    h _ (InstanceStatus ins pdList) w = ("-", w1) ->
    GetExecutor ctx (meta.GetHost ins) = None ->
    Reconciles h ctx pdList ins "-"
| rec_live w w1 e active err w2 :
    h _ (InstanceStatus ins pdList) w = ("-", w1) ->
    GetExecutor ctx (meta.GetHost ins) = Some e ->
    h _ (GetServiceStatus e (meta.ServiceName ins)) w1 = (active, err, w2) ->
    Reconciles h ctx pdList ins (command.serviceState "-" active).

(** What the display loop appends for an instance it shows. *)
Definition RowOf {W : Type} (L : Lib) (h : Handler W) (ctx : Context)
  (pdList : list string) (ins : meta.Instance) (row : list string) : Prop :=
  exists status deployDir,
    meta.UsedDirs ins !! 0 = Some deployDir
    /\ Reconciles h ctx pdList ins status
    /\ row = command.tableRow L ins status
               (default "-" (meta.UsedDirs ins !! 1)) deployDir.

(** Ascending by role, then host, then port string: the order the
    specification states for the rows, bytewise on each column. *)
Definition byRoleHostPorts (a b : list string) : Prop :=
  let lt x y := String.ltb x y = true in
  lt (command.col a 1) (command.col b 1)
  \/ (command.col a 1 = command.col b 1
      /\ (lt (command.col a 2) (command.col b 2)
          \/ (command.col a 2 = command.col b 2
              /\ (lt (command.col a 3) (command.col b 3)
                  \/ command.col a 3 = command.col b 3)))).

(** ** Comparisons *)

(** A three-way comparison of a total order. *)
Record TotalCompare {A : Type} (cmp : A -> A -> comparison) : Prop := {
  cmp_refl : forall a, cmp a a = Eq;
  cmp_eq : forall a b, cmp a b = Eq -> a = b;
  cmp_antisym : forall a b, cmp b a = CompOpp (cmp a b);
  cmp_lt_trans : forall a b c, cmp a b = Lt -> cmp b c = Lt -> cmp a c = Lt
}.

(** First components first. *)
Definition lexCompare {A B : Type} (cmpA : A -> A -> comparison)
  (cmpB : B -> B -> comparison) (x y : A * B) : comparison :=
  match cmpA (fst x) (fst y) with
  | Eq => cmpB (snd x) (snd y)
  | c => c
  end.

Definition isLt (c : comparison) : bool :=
  match c with Lt => true | _ => false end.

(** The columns lines 206-215 look at: role, host, ports. *)
Definition key (row : list string) : string * (string * string) :=
  (command.col row 1, (command.col row 2, command.col row 3)).

Definition keyCompare : string * (string * string) ->
                        string * (string * string) -> comparison :=
  lexCompare String.compare (lexCompare String.compare String.compare).

(** The white-space-separated tokens of a string, in the words of the
    specification: the maximal runs of bytes that are not ASCII white
    space.  The program does not compute them; they are here to compare
    against. *)
Fixpoint whitespaceTokens_go (cur : option string) (s : string)
  : list string :=
  match s with
  | EmptyString => match cur with Some w => [String.rev w] | None => [] end
  | String c r =>
      if GoStrings.asciiSpace c
      then match cur with
           | Some w => String.rev w :: whitespaceTokens_go None r
           | None => whitespaceTokens_go None r
           end
      else whitespaceTokens_go (Some (String c (default EmptyString cur))) r
  end.

Definition whitespaceTokens (s : string) : list string :=
  whitespaceTokens_go None s.

(** The Status column of the table the last call printed. *)
Definition statusColumn (tr : list Event) : list (option string) :=
  match last tr with
  | Some ev =>
      match printed ev with
      | Some (_ :: rows) => map (fun row => row !! 4) rows
      | _ => []
      end
  | None => []
  end.

(** ** A world with a metadata store *)

Section Store.

(** Everything outside the process but the metadata files. *)
Variable E : Type.

Record World : Type := {
  disk : gmap string meta.ClusterMeta;
  rest : E
}.

(** [save] is [meta.SaveClusterMeta]: it may fail and it is the one call
    that writes the metadata files.  Every other call is answered by
    [others], which may read the files. *)
Variable save : string -> meta.ClusterMeta -> World ->
                option error * World.
Variable others : gmap string meta.ClusterMeta -> Handler E.

Definition storeHandler : Handler World :=
  fun X e w =>
    match e in Eff X0 return X0 * World with
    | SaveClusterMeta n m => save n m w
    | e0 =>
        let '(x, r) := others (disk w) _ e0 (rest w) in
        (x, {| disk := disk w; rest := r |})
    end.

End Store.
Arguments disk {E} w.
Arguments rest {E} w.
Arguments storeHandler {E} save others X e w.

(** ** A small cluster to run the programs on *)

Module Demo.

(** A [sort.Slice]: insertion sort. *)
Fixpoint insert {A : Type} (less : A -> A -> bool) (x : A) (l : list A)
  : list A :=
  match l with
  | [] => [x]
  | y :: l' => if less y x then y :: insert less x l' else x :: l
  end.

Fixpoint insertionSort {A : Type} (less : A -> A -> bool) (l : list A)
  : list A :=
  match l with
  | [] => []
  | x :: l' => insert less x (insertionSort less l')
  end.

(** A [utils.JoinInt]: decimal numbers with the separator between them. *)
Definition itoa (z : Z) : string := NilZero.string_of_int (Z.to_int z).

Fixpoint joinInt (l : list Z) (sep : string) : string :=
  match l with
  | [] => ""
  | [z] => itoa z
  | z :: l' => itoa z ++ sep ++ joinInt l' sep
  end.

(** Colours are off ([color.NoColor], as when the output is not a
    terminal); every status below is ASCII. *)
Definition lib : Lib := {|
  sort_Slice := insertionSort;
  colorString := fun _ s => s;
  unicodeToLower := fun s => s;
  JoinInt := joinInt;
  ClusterPath := fun name parts =>
    String.concat "/" ("/home/tidb/.tiup/storage/cluster/clusters" :: name :: parts);
  sshTimeout := 5%Z
|}.

Definition pd1 : meta.Instance := {|
  meta.ID := "10.0.1.4:2379"; meta.Role := "pd"; meta.GetHost := "10.0.1.4";
  meta.UsedPorts := [2379%Z; 2380%Z];
  meta.UsedDirs := ["/deploy/pd-2379"; "/data/pd-2379"];
  meta.ServiceName := "pd-2379.service" |}.

Definition tikv1 : meta.Instance := {|
  meta.ID := "10.0.1.5:20160"; meta.Role := "tikv"; meta.GetHost := "10.0.1.5";
  meta.UsedPorts := [20160%Z; 20180%Z];
  meta.UsedDirs := ["/deploy/tikv-20160"; "/data/tikv-20160"];
  meta.ServiceName := "tikv-20160.service" |}.

Definition tikv2 : meta.Instance := {|
  meta.ID := "10.0.1.6:20160"; meta.Role := "tikv"; meta.GetHost := "10.0.1.6";
  meta.UsedPorts := [20160%Z; 20180%Z];
  meta.UsedDirs := ["/deploy/tikv-20160"; "/data/tikv-20160"];
  meta.ServiceName := "tikv-20160.service" |}.

(** A TiDB server has a deploy directory only. *)
Definition tidb1 : meta.Instance := {|
  meta.ID := "10.0.1.4:4000"; meta.Role := "tidb"; meta.GetHost := "10.0.1.4";
  meta.UsedPorts := [4000%Z; 10080%Z];
  meta.UsedDirs := ["/deploy/tidb-4000"];
  meta.ServiceName := "tidb-4000.service" |}.

(** An instance that reports no directory at all. *)
Definition bare : meta.Instance := {|
  meta.ID := "10.0.1.7:9090"; meta.Role := "prometheus";
  meta.GetHost := "10.0.1.7";
  meta.UsedPorts := [9090%Z];
  meta.UsedDirs := [];
  meta.ServiceName := "prometheus-9090.service" |}.

Definition topo (extra : list meta.Instance) : meta.TopologySpecification := {|
  meta.ComponentsByStartOrder :=
    [ {| meta.Name := "pd"; meta.Instances := [pd1] |};
      {| meta.Name := "tikv"; meta.Instances := [tikv2; tikv1] |};
      {| meta.Name := "tidb"; meta.Instances := [tidb1] |};
      {| meta.Name := "prometheus"; meta.Instances := extra |} ];
  meta.GetPDList := ["10.0.1.4:2379"] |}.

Definition clusterMeta (extra : list meta.Instance) : meta.ClusterMeta := {|
  meta.User := "tidb"; meta.Version := "v4.0.0-beta";
  meta.Topology := topo extra |}.

(** How the world answers. *)
Record Script : Type := {
  need : bool;
  keysErr : option error;
  hosts : list string;
  sshErr : option error;
  tombstones : list string;
  discoverErr : option error;
  destroyErr : option error;
  status : meta.Instance -> string;
  service : string -> string * option error
}.

Definition dropNodes (nodes : list string) (t : meta.TopologySpecification)
  : meta.TopologySpecification := {|
  meta.ComponentsByStartOrder :=
    map (fun c => {| meta.Name := meta.Name c;
                     meta.Instances :=
                       List.filter
                         (fun i => negb (bool_decide (meta.ID i ∈ nodes)))
                         (meta.Instances c) |})
        (meta.ComponentsByStartOrder t);
  meta.GetPDList := meta.GetPDList t |}.

(** [SetClusterSSH] registers an executor for each of the hosts. *)
Definition connect (hosts : list string) (ctx : Context) : Context :=
  {| exec := list_to_map (map (fun h => (h, TiOpsExecutor h)) hosts);
     PrivateKeyPath := PrivateKeyPath ctx;
     PublicKeyPath := PublicKeyPath ctx |}.

Definition answers (s : Script) (files : gmap string meta.ClusterMeta)
  : Handler unit :=
  fun X e u =>
    match e in Eff X0 return X0 * unit with
    | ClusterMetadata n =>
        (match files !! n with
         | Some m => Ok m
         | None => Err (Errorf "open meta.yaml: no such file or directory")
         end, u)
    | SaveClusterMeta _ _ => (None, u)
    | NeedCheckTomebsome _ => (need s, u)
    | SetSSHKeySet ctx p q =>
        ({| exec := exec ctx; PrivateKeyPath := p; PublicKeyPath := q |},
         keysErr s, u)
    | SetClusterSSH ctx _ _ _ => (connect (hosts s) ctx, sshErr s, u)
    | DestroyTombstone _ t returnNodesOnly =>
        if returnNodesOnly then (t, (tombstones s, discoverErr s), u)
        else match destroyErr s with
             | Some err => (t, ([], Some err), u)
             | None => (dropNodes (tombstones s) t, (tombstones s, None), u)
             end
    | InstanceStatus ins _ => (status s ins, u)
    | GetServiceStatus _ name => (service s name, u)
    | PrintTable _ _ => (tt, u)
    | Infof _ _ => (tt, u)
    | MkdirAll _ _ => (None, u)
    | InstanceInitConfig _ _ _ _ _ _ => (None, u)
    end.

(** [meta.SaveClusterMeta] that writes the file. *)
Definition saveFile (n : string) (m : meta.ClusterMeta) (w : World unit)
  : option error * World unit :=
  (None, {| disk := <[n := m]> (disk w); rest := rest w |}).

Definition handler (s : Script) : Handler (World unit) :=
  storeHandler saveFile (answers s).

Definition start (extra : list meta.Instance) : World unit :=
  {| disk := {["prod" := clusterMeta extra]}; rest := tt |}.

Definition allHosts : list string :=
  ["10.0.1.4"; "10.0.1.5"; "10.0.1.6"; "10.0.1.7"].

(** Everything is up, nothing is tombstoned. *)
Definition quiet : Script := {|
  need := true; keysErr := None;
  hosts := allHosts; sshErr := None;
  tombstones := []; discoverErr := None; destroyErr := None;
  status := fun _ => "Up";
  service := fun _ => ("", None)
|}.

(** One TiKV store is a tombstone; removing it fails or not. *)
Definition retiring (destroyErr : option error) : Script := {|
  need := true; keysErr := None;
  hosts := allHosts; sshErr := None;
  tombstones := ["10.0.1.6:20160"]; discoverErr := None;
  destroyErr := destroyErr;
  status := fun _ => "Up";
  service := fun _ => ("", None)
|}.

(** PD has nothing to say about any instance; systemd answers [active]. *)
Definition unresolved (hosts : list string)
  (active : string * option error) : Script := {|
  need := false; keysErr := None; hosts := hosts; sshErr := None;
  tombstones := []; discoverErr := None; destroyErr := None;
  status := fun _ => "-";
  service := fun _ => active
|}.

(** The context after the set-up of the display of cluster [prod]. *)
Definition keyedCtx : Context :=
  {| exec := ∅;
     PrivateKeyPath := ClusterPath lib "prod" ["ssh"; "id_rsa"];
     PublicKeyPath := ClusterPath lib "prod" ["ssh"; "id_rsa.pub"] |}.

(** U+25CF, the bullet systemctl prints, in UTF-8: E2 97 8F. *)
Definition bullet : string :=
  String (ascii_of_nat 226)
    (String (ascii_of_nat 151) (String (ascii_of_nat 143) EmptyString)).

(** The text of the specification's example. *)
Definition bulletLine : string :=
  bullet ++ " foo.service - ... Active: active (running)".

(** The third line of systemctl's output, as [GetServiceStatus] hands it
    back. *)
Definition activeLine : string :=
  "   Active: active (running) since Mon 2020-03-09 13:56:19 CST; 1 weeks 3 days ago".

Definition opt : command.displayOption := {|
  command.clusterName := "prod";
  command.filterRole := [];
  command.filterNode := [] |}.

End Demo.

(** ** Reading the calls of the display loop *)

(** The instance a PD status call asks about. *)
Definition queried (ev : Event) : option meta.Instance :=
  match ev with
  | Ev e _ => match e with InstanceStatus ins _ => Some ins | _ => None end
  end.

(** A systemd call: the executor and the service name it is made with. *)
Definition serviceQueried (ev : Event) : option (Executor * string) :=
  match ev with
  | Ev e _ =>
      match e with GetServiceStatus x name => Some (x, name) | _ => None end
  end.

(** A call of [operator.NeedCheckTomebsome]. *)
Definition isNeedCheck (ev : Event) : bool :=
  match ev with
  | Ev e _ => match e with NeedCheckTomebsome _ => true | _ => false end
  end.

(** A call that changes the cluster or its metadata: a save or a
    [DestroyTombstone] in either mode. *)
Definition isMutation (ev : Event) : bool :=
  isSave ev || isDestroy false ev || isDestroy true ev.

(** A PD status call: the instance, the PD list and the answer. *)
Definition pdAnswered (ev : Event)
  : option (meta.Instance * list string * string) :=
  match ev with
  | Ev e x =>
      match e in Eff X
            return X -> option (meta.Instance * list string * string) with
      | InstanceStatus ins pdl => fun x => Some (ins, pdl, x)
      | _ => fun _ => None
      end x
  end.

(** The cluster a [ClusterMetadata] call loads. *)
Definition loadedName (ev : Event) : option string :=
  match ev with
  | Ev e _ => match e with ClusterMetadata n => Some n | _ => None end
  end.

(** The error of a failed [ClusterMetadata] call. *)
Definition loadError (ev : Event) : option error :=
  match ev with
  | Ev e x =>
      match e in Eff X return X -> option error with
      | ClusterMetadata _ =>
          fun x => match x with Err err => Some err | Ok _ => None end
      | _ => fun _ => None
      end x
  end.

(** A status call: PD's or systemd's. *)
Definition isStatusCall (ev : Event) : bool :=
  match ev with
  | Ev e _ =>
      match e with
      | InstanceStatus _ _ => true
      | GetServiceStatus _ _ => true
      | _ => false
      end
  end.

(** Every systemd call of a trace comes right after a PD call that
    answered ["-"] for an instance, and is made with the executor of that
    instance's host and with its service name. *)
Definition ServiceAfterDash (ctx : Context) (tr : list Event) : Prop :=
  forall i ev e n,
    tr !! i = Some ev -> serviceQueried ev = Some (e, n) ->
    exists i' evp ins pdl,
      i = S i' /\ tr !! i' = Some evp
      /\ pdAnswered evp = Some (ins, pdl, "-")
      /\ GetExecutor ctx (meta.GetHost ins) = Some e
      /\ n = meta.ServiceName ins.

(** The calls of one pass of lines 161-200 for an instance it shows: PD's
    status, followed by systemd's when PD says ["-"] and the host has an
    executor. *)
Inductive PassCalls (ctx : Context) (pdList : list string)
  (ins : meta.Instance) : list Event -> Prop :=
| pass_authoritative status :
    status <> "-" ->
    PassCalls ctx pdList ins [Ev (InstanceStatus ins pdList) status]
| pass_no_executor :
    GetExecutor ctx (meta.GetHost ins) = None ->
    PassCalls ctx pdList ins [Ev (InstanceStatus ins pdList) "-"]
| pass_live e active err :
    GetExecutor ctx (meta.GetHost ins) = Some e ->
    PassCalls ctx pdList ins
      [Ev (InstanceStatus ins pdList) "-";
       Ev (GetServiceStatus e (meta.ServiceName ins)) (active, err)].

(** The two filters of lines 161-168 in terms of the option's lists. *)
Definition passesFilters (opt : command.displayOption)
  (ins : meta.Instance) : bool :=
  (match command.filterRole opt with
   | [] => true
   | _ => existsb (String.eqb (meta.Role ins)) (command.filterRole opt)
   end)
  && (match command.filterNode opt with
      | [] => true
      | _ => existsb (String.eqb (meta.ID ins)) (command.filterNode opt)
      end).

(** ** Reading the calls of the tombstone step *)

(** A [DestroyTombstone] call in full: the context and topology it is made
    with, its mode, and the topology, nodes and error it hands back. *)
Definition destroyCall (ev : Event)
  : option (Context * meta.TopologySpecification * bool
            * (meta.TopologySpecification * (list string * option error))) :=
  match ev with
  | Ev e x =>
      match e in Eff X
            return X -> option (Context * meta.TopologySpecification * bool
                                * (meta.TopologySpecification
                                   * (list string * option error))) with
      | DestroyTombstone c t b => fun x => Some (c, t, b, x)
      | _ => fun _ => None
      end x
  end.

(** A [SaveClusterMeta] call: the name, the metadata and the error. *)
Definition saved (ev : Event)
  : option (string * meta.ClusterMeta * option error) :=
  match ev with
  | Ev e x =>
      match e in Eff X
            return X -> option (string * meta.ClusterMeta * option error) with
      | SaveClusterMeta n m => fun x => Some (n, m, x)
      | _ => fun _ => None
      end x
  end.

(** The error of a failed step before the destructive call: the key set,
    the SSH set-up or the discovery. *)
Definition setupError (ev : Event) : option error :=
  match ev with
  | Ev e x =>
      match e in Eff X return X -> option error with
      | SetSSHKeySet _ _ _ => fun x => snd x
      | SetClusterSSH _ _ _ _ => fun x => snd x
      | DestroyTombstone _ _ true => fun x => snd (snd x)
      | _ => fun _ => None
      end x
  end.

(** The context a successful [SetClusterSSH] hands back. *)
Definition connectedContext (ev : Event) : option Context :=
  match ev with
  | Ev e x =>
      match e in Eff X return X -> option Context with
      | SetClusterSSH _ _ _ _ =>
          fun x => match snd x with None => Some (fst x) | Some _ => None end
      | _ => fun _ => None
      end x
  end.

(** The answer of a [NeedCheckTomebsome] call. *)
Definition needChecked (ev : Event) : option bool :=
  match ev with
  | Ev e x =>
      match e in Eff X return X -> option bool with
      | NeedCheckTomebsome _ => fun x => Some x
      | _ => fun _ => None
      end x
  end.

(** The runs of [destroyTombstoneIfNeed] call by call: the outcome and the
    trace of each way through lines 91-129. *)
Inductive TombstoneTrace (L : Lib) (name : string)
  (metadata : meta.ClusterMeta)
  : Outcome (option error) -> list Event -> Prop :=
| tt_no_need :
    TombstoneTrace L name metadata (Returned None)
      [Ev (NeedCheckTomebsome (meta.Topology metadata)) false]
| tt_keys_failed c1 e :
    TombstoneTrace L name metadata (Returned (Some (AddStack e)))
      [Ev (NeedCheckTomebsome (meta.Topology metadata)) true;
       Ev (SetSSHKeySet NewContext (ClusterPath L name ["ssh"; "id_rsa"])
             (ClusterPath L name ["ssh"; "id_rsa.pub"])) (c1, Some e)]
| tt_ssh_failed c1 c2 e :
    TombstoneTrace L name metadata (Returned (Some (AddStack e)))
      [Ev (NeedCheckTomebsome (meta.Topology metadata)) true;
       Ev (SetSSHKeySet NewContext (ClusterPath L name ["ssh"; "id_rsa"])
             (ClusterPath L name ["ssh"; "id_rsa.pub"])) (c1, None);
       Ev (SetClusterSSH c1 (meta.Topology metadata) (meta.User metadata)
             (sshTimeout L)) (c2, Some e)]
| tt_discovery_failed c1 c2 topo1 nodes e :
    TombstoneTrace L name metadata (Returned (Some (AddStack e)))
      [Ev (NeedCheckTomebsome (meta.Topology metadata)) true;
       Ev (SetSSHKeySet NewContext (ClusterPath L name ["ssh"; "id_rsa"])
             (ClusterPath L name ["ssh"; "id_rsa.pub"])) (c1, None);
       Ev (SetClusterSSH c1 (meta.Topology metadata) (meta.User metadata)
             (sshTimeout L)) (c2, None);
       Ev (DestroyTombstone c2 (meta.Topology metadata) true)
         (topo1, (nodes, Some e))]
| tt_nothing_found c1 c2 topo1 :
    TombstoneTrace L name metadata (Returned None)
      [Ev (NeedCheckTomebsome (meta.Topology metadata)) true;
       Ev (SetSSHKeySet NewContext (ClusterPath L name ["ssh"; "id_rsa"])
             (ClusterPath L name ["ssh"; "id_rsa.pub"])) (c1, None);
       Ev (SetClusterSSH c1 (meta.Topology metadata) (meta.User metadata)
             (sshTimeout L)) (c2, None);
       Ev (DestroyTombstone c2 (meta.Topology metadata) true)
         (topo1, ([], None))]
| tt_destroy_failed c1 c2 topo1 n nodes topo2 nodes2 e :
    TombstoneTrace L name metadata (Returned (Some (AddStack e)))
      [Ev (NeedCheckTomebsome (meta.Topology metadata)) true;
       Ev (SetSSHKeySet NewContext (ClusterPath L name ["ssh"; "id_rsa"])
             (ClusterPath L name ["ssh"; "id_rsa.pub"])) (c1, None);
       Ev (SetClusterSSH c1 (meta.Topology metadata) (meta.User metadata)
             (sshTimeout L)) (c2, None);
       Ev (DestroyTombstone c2 (meta.Topology metadata) true)
         (topo1, (n :: nodes, None));
       Ev (Infof "Start destroy Tombstone nodes: %v ..." [n :: nodes]) tt;
       Ev (DestroyTombstone c2 topo1 false) (topo2, (nodes2, Some e))]
| tt_saved c1 c2 topo1 n nodes topo2 nodes2 res :
    TombstoneTrace L name metadata (Returned res)
      [Ev (NeedCheckTomebsome (meta.Topology metadata)) true;
       Ev (SetSSHKeySet NewContext (ClusterPath L name ["ssh"; "id_rsa"])
             (ClusterPath L name ["ssh"; "id_rsa.pub"])) (c1, None);
       Ev (SetClusterSSH c1 (meta.Topology metadata) (meta.User metadata)
             (sshTimeout L)) (c2, None);
       Ev (DestroyTombstone c2 (meta.Topology metadata) true)
         (topo1, (n :: nodes, None));
       Ev (Infof "Start destroy Tombstone nodes: %v ..." [n :: nodes]) tt;
       Ev (DestroyTombstone c2 topo1 false) (topo2, (nodes2, None));
       Ev (Infof "Destroy success" []) tt;
       Ev (SaveClusterMeta name
             {| meta.User := meta.User metadata;
                meta.Version := meta.Version metadata;
                meta.Topology := topo2 |}) res].

(** ** Reading the calls of the InitConfig task *)

(** An [os.MkdirAll] call: path, mode and error. *)
Definition mkdirCall (ev : Event) : option (string * Z * option error) :=
  match ev with
  | Ev e x =>
      match e in Eff X return X -> option (string * Z * option error) with
      | MkdirAll path perm => fun x => Some (path, perm, x)
      | _ => fun _ => None
      end x
  end.

(** An [instance.InitConfig] call: what it is made with and its error. *)
Definition initConfigCall (ev : Event)
  : option (meta.Instance * Executor * (string * string * string)
            * meta.DirPaths * option error) :=
  match ev with
  | Ev e x =>
      match e in Eff X
            return X -> option (meta.Instance * Executor
                                * (string * string * string)
                                * meta.DirPaths * option error) with
      | InstanceInitConfig ins ex n v u p => fun x => Some (ins, ex, (n, v, u), p, x)
      | _ => fun _ => None
      end x
  end.

(** ** The command: [newDisplayCmd] and [displayClusterMeta] *)

(** The calls of the command that the display and the tombstone step do
    not make: cobra's help, the file check and the console. *)
Inductive CmdEff : Type -> Type :=
| Core {X : Type} (e : Eff X) : CmdEff X
| Help : CmdEff (option error)
| IsNotExist (path : string) : CmdEff bool
| Printf (format : string) (args : list string) : CmdEff unit.

Inductive Cmd (R : Type) : Type :=
| CRet (r : R)
| CPanic (p : panic)
| CCall {X : Type} (e : CmdEff X) (k : X -> Cmd R).
Arguments CRet {R} r.
Arguments CPanic {R} p.
Arguments CCall {R X} e k.

Fixpoint cbind {A B : Type} (p : Cmd A) (f : A -> Cmd B) : Cmd B :=
  match p with
  | CRet a => f a
  | CPanic q => CPanic q
  | CCall e k => CCall e (fun x => cbind (k x) f)
  end.

Definition ccall {X : Type} (e : CmdEff X) : Cmd X := CCall e CRet.

(** A program of the display file run as part of the command. *)
Fixpoint lift {R : Type} (p : Prog R) : Cmd R :=
  match p with
  | Ret r => CRet r
  | Panic q => CPanic q
  | Call e k => CCall (Core e) (fun x => lift (k x))
  end.

Declare Scope cmd_scope.
Delimit Scope cmd_scope with cmd.
Notation "'let*' x ':=' c1 'in' c2" := (cbind c1 (fun x => c2))
  (at level 10, x pattern, c1 at level 100, c2 at level 200) : cmd_scope.
Notation "c1 ;;; c2" := (cbind c1 (fun _ => c2))
  (at level 100, right associativity) : cmd_scope.

Inductive CmdEvent : Type :=
| CEv {X : Type} (e : CmdEff X) (x : X).

Definition CmdHandler (W : Type) : Type :=
  forall X : Type, CmdEff X -> W -> X * W.

Fixpoint runCmd {W R : Type} (h : CmdHandler W) (p : Cmd R) (w : W)
  : Outcome R * W * list CmdEvent :=
  match p with
  | CRet r => (Returned r, w, [])
  | CPanic q => (Panicked q, w, [])
  | CCall e k =>
      let '(x, w1) := h _ e w in
      let '(o, w2, tr) := runCmd h (k x) w1 in
      (o, w2, CEv e x :: tr)
  end.

Definition cmdOutcome {W R : Type} (r : Outcome R * W * list CmdEvent)
  : Outcome R := fst (fst r).

Definition cmdTrace {W R : Type} (r : Outcome R * W * list CmdEvent)
  : list CmdEvent := snd r.

(** The handler the programs of the display file see. *)
Definition coreHandler {W : Type} (h : CmdHandler W) : Handler W :=
  fun X e w => h X (Core e) w.

Definition liftEvent (ev : Event) : CmdEvent :=
  match ev with Ev e x => CEv (Core e) x end.

(** The call of the display file behind a call of the command, if any. *)
Definition coreEvent (ev : CmdEvent) : option Event :=
  match ev with
  | CEv e x =>
      match e in CmdEff X return X -> option Event with
      | Core e0 => fun x => Some (Ev e0 x)
      | _ => fun _ => None
      end x
  end.

(** What the command file takes from elsewhere besides [Lib]: the name of
    the metadata file and [color.New(color.FgCyan, color.Bold).Sprint]. *)
Record CmdLib : Type := {
  MetaFileName : string;
  cyanBold : string -> string
}.

Module cmd.
Section WithLibs.

Variable L : Lib.
Variable C : CmdLib.

Local Open Scope cmd_scope.

Definition newline : string := String (ascii_of_nat 10) EmptyString.

(** Lines 73-89. *)
Definition displayClusterMeta (opt : command.displayOption)
  : Cmd (option error) :=
  let* missing :=
    ccall (IsNotExist
             (ClusterPath L (command.clusterName opt) [MetaFileName C])) in
  if (missing : bool) then
    CRet (Some (Errorf ("cannot display non-exists cluster "
                        ++ command.clusterName opt)%string))
  else
  let* r := ccall (Core (ClusterMetadata (command.clusterName opt))) in
  match r with Err e => CRet (Some e) | Ok clsMeta =>
  ccall (Printf ("TiDB Cluster: %s" ++ newline)%string
           [cyanBold C (command.clusterName opt)]) ;;;
  ccall (Printf ("TiDB Version: %s" ++ newline)%string
           [cyanBold C (meta.Version clsMeta)]) ;;;
  CRet None
  end.

(** Lines 46-64: the [RunE] of the command; [opt] holds the two filter
    flags and gets the cluster name from the argument. *)
Definition RunE (opt : command.displayOption) (args : list string)
  : Cmd (option error) :=
  if negb (length args =? 1) then ccall Help else
  let* arg0 := lift (index args 0) in
  let opt := {| command.clusterName := arg0;
                command.filterRole := command.filterRole opt;
                command.filterNode := command.filterNode opt |} in
  let* err := displayClusterMeta opt in
  match err with Some e => CRet (Some e) | None =>
  let* err := lift (command.displayClusterTopology L opt) in
  match err with Some e => CRet (Some e) | None =>
  let* r := ccall (Core (ClusterMetadata (command.clusterName opt))) in
  match r with Err e => CRet (Some (AddStack e)) | Ok metadata =>
  lift (command.destroyTombstoneIfNeed L (command.clusterName opt) metadata)
  end end end.

End WithLibs.
End cmd.

(** ** Reading the calls of the command *)

(** A file check: the path and the answer. *)
Definition fileChecked (ev : CmdEvent) : option (string * bool) :=
  match ev with
  | CEv e x =>
      match e in CmdEff X return X -> option (string * bool) with
      | IsNotExist path => fun x => Some (path, x)
      | _ => fun _ => None
      end x
  end.

(** A line printed: the format and its arguments. *)
Definition printfCall (ev : CmdEvent) : option (string * list string) :=
  match ev with
  | CEv e _ =>
      match e with Printf f args => Some (f, args) | _ => None end
  end.

(** A call of the tombstone step: the need check, a [DestroyTombstone] or
    the save. *)
Definition isTombstoneCall (ev : CmdEvent) : bool :=
  match coreEvent ev with
  | Some ev0 => isNeedCheck ev0 || isMutation ev0
  | None => false
  end.

(** The table a call of the command prints, if it is the print. *)
Definition cmdPrinted (ev : CmdEvent) : option (list (list string)) :=
  match coreEvent ev with
  | Some ev0 => printed ev0
  | None => None
  end.

(** The error of a failed metadata load among the calls of the command. *)
Definition cmdLoadError (ev : CmdEvent) : option error :=
  match coreEvent ev with
  | Some ev0 => loadError ev0
  | None => None
  end.

(** The small cluster with a console and a file check. *)
Module DemoCmd.

Definition clib : CmdLib := {|
  MetaFileName := "meta.yaml";
  cyanBold := fun s => s
|}.

(** [present] tells whether the metadata file of the cluster exists. *)
Definition handler (s : Demo.Script) (present : bool)
  : CmdHandler (World unit) :=
  fun X e w =>
    match e in CmdEff X0 return X0 * World unit with
    | Core e0 => Demo.handler s _ e0 w
    | Help => (None, w)
    | IsNotExist _ => (negb present, w)
    | Printf _ _ => (tt, w)
    end.

(** The SSH set-up of the tombstone step fails. *)
Definition unreachable : Demo.Script := {|
  Demo.need := true; Demo.keysErr := None;
  Demo.hosts := []; Demo.sshErr := Some (Errorf "dial tcp: i/o timeout");
  Demo.tombstones := ["10.0.1.6:20160"]; Demo.discoverErr := None;
  Demo.destroyErr := None;
  Demo.status := fun _ => "Up";
  Demo.service := fun _ => ("", None)
|}.

(** A host on which no directory can be created. *)
Definition fullDisk : Handler unit :=
  fun X e u =>
    match e in Eff X0 return X0 * unit with
    | MkdirAll _ _ => (Some (Errorf "mkdir: no space left on device"), u)
    | e0 => Demo.answers Demo.quiet ∅ _ e0 u
    end.

(** The task that initialises the configuration of a TiKV store. *)
Definition initTiKV : InitConfig.t := {|
  InitConfig.clusterName := "prod";
  InitConfig.clusterVersion := "v4.0.0-beta";
  InitConfig.instance := Demo.tikv1;
  InitConfig.deployUser := "tidb";
  InitConfig.paths := {| meta.Deploy := "/deploy/tikv-20160";
                         meta.Data := "/data/tikv-20160";
                         meta.Cache := "/tmp/tiup/cache" |}
|}.


End DemoCmd.

(** * Properties *)

(** ** Proof steps *)

Ltac answer h :=
  match goal with
  | |- context [h ?X ?e ?w] =>
      let x := fresh "x" in
      let w' := fresh "w" in
      let H := fresh "Hcall" in
      destruct (h X e w) as [x w'] eqn:H; simpl in *
  end.

Ltac three pre Hlen Hpre :=
  destruct pre as [|?a [|?b [|?c [|? ?]]]]; try discriminate Hlen;
  apply Forall_cons in Hpre as [(?Sa & ?Da & ?Ta) Hpre];
  apply Forall_cons in Hpre as [(?Sb & ?Db & ?Tb) Hpre];
  apply Forall_cons in Hpre as [(?Sc & ?Dc & ?Tc) _].

Ltac at_index i Hi :=
  first [ discriminate Hi
        | destruct i as [|i]; simpl in Hi;
          [injection Hi as <- | at_index i Hi] ].

(** ** The string functions on examples *)

Example TrimSpace_active_line :
  GoStrings.TrimSpace Demo.activeLine
  = "Active: active (running) since Mon 2020-03-09 13:56:19 CST; 1 weeks 3 days ago".
Proof. reflexivity. Qed.

(** A no-break space (C2 A0) in front, a tab and U+200A (E2 80 8A) behind;
    the bullet (E2 97 8F) is not white space. *)
Example TrimSpace_unicode :
  GoStrings.TrimSpace
    (String (ascii_of_nat 194) (String (ascii_of_nat 160) EmptyString)
     ++ Demo.bullet ++ " x"
     ++ String (ascii_of_nat 9)
          (String (ascii_of_nat 226)
             (String (ascii_of_nat 128)
                (String (ascii_of_nat 138) EmptyString))))%string
  = (Demo.bullet ++ " x")%string.
Proof. reflexivity. Qed.

Example Split_examples :
  GoStrings.Split "" " " = [""]
  /\ GoStrings.Split "a b" " " = ["a"; "b"]
  /\ GoStrings.Split "a  b " " " = ["a"; ""; "b"; ""].
Proof. repeat split. Qed.

Example formatInstanceStatus_examples (L : Lib) :
  command.formatInstanceStatus L "Up" = colorString L FgGreen "Up"
  /\ command.formatInstanceStatus L "Healthy|L" = colorString L FgHiGreen "Healthy|L"
  /\ command.formatInstanceStatus L "Tombstone" = colorString L FgYellow "Tombstone"
  /\ command.formatInstanceStatus L "Down" = colorString L FgRed "Down"
  /\ command.formatInstanceStatus L "-" = "-"
  /\ command.formatInstanceStatus L "inactive" = "inactive".
Proof. repeat split. Qed.

(** ** The InitConfig task *)

(** C6.  Rollback of an InitConfig task hands back [ErrUnsupportedRollback]
    whatever the context: it never hands back nil, the context plays no
    part, no call is made, and the error is not the one of a missing
    executor. *)
Theorem InitConfig_Rollback_unsupported (c : InitConfig.t) (ctx : Context) :
  InitConfig.Rollback c ctx = Ret (Some ErrUnsupportedRollback)
  /\ InitConfig.Rollback c ctx <> Ret None
  /\ (forall ctx' : Context,
         InitConfig.Rollback c ctx' = InitConfig.Rollback c ctx)
  /\ (forall (W : Type) (h : Handler W) (w : W),
         run h (InitConfig.Rollback c ctx) w
         = (Returned (Some ErrUnsupportedRollback), w, []))
  /\ ErrUnsupportedRollback <> ErrNoExecutor.
Proof.
  repeat split; try reflexivity; unfold InitConfig.Rollback; congruence.
Qed.

(** C7.  When the context has no executor for the host of the task's
    instance, Execute hands back [ErrNoExecutor] and has made no call: no
    directory is created and no remote configuration is initialised. *)
Theorem InitConfig_Execute_no_executor (c : InitConfig.t) (ctx : Context) :
  GetExecutor ctx (meta.GetHost (InitConfig.instance c)) = None ->
  InitConfig.Execute c ctx = Ret (Some ErrNoExecutor)
  /\ (forall (W : Type) (h : Handler W) (w : W),
         run h (InitConfig.Execute c ctx) w
         = (Returned (Some ErrNoExecutor), w, []))
  /\ ErrNoExecutor <> ErrUnsupportedRollback.
Proof.
  intros Hnone. unfold InitConfig.Execute. rewrite Hnone.
  repeat split; congruence.
Qed.

(** With an executor the directory is created first and the remote
    initialisation follows only when that went well. *)
Lemma InitConfig_Execute_found (c : InitConfig.t) (ctx : Context)
  (e : Executor) (W : Type) (h : Handler W) (w : W) :
  GetExecutor ctx (meta.GetHost (InitConfig.instance c)) = Some e ->
  exists x w1 tl,
    h _ (MkdirAll (meta.Cache (InitConfig.paths c)) 493%Z) w = (x, w1)
    /\ trace (run h (InitConfig.Execute c ctx) w)
       = Ev (MkdirAll (meta.Cache (InitConfig.paths c)) 493%Z) x :: tl
    /\ (forall err, x = Some err ->
          tl = [] /\ outcome (run h (InitConfig.Execute c ctx) w)
                     = Returned (Some err)).
Proof.
  intros Hsome. unfold InitConfig.Execute. rewrite Hsome. simpl.
  destruct (h _ (MkdirAll _ _) w) as [x w1] eqn:Hm.
  destruct x as [err|]; simpl.
  - exists (Some err), w1, []. split; [reflexivity|]. split; [reflexivity|].
    intros err' Heq. injection Heq as <-. split; reflexivity.
  - destruct (h _ (InstanceInitConfig _ _ _ _ _ _) w1) as [y w2].
    eexists None, w1, _. split; [reflexivity|]. split; [reflexivity|].
    intros err' Heq. discriminate Heq.
Qed.

(** ** The tombstone step of the display command *)

Section Tombstone.

Variable L : Lib.

Lemma destroyTombstoneIfNeed_runs (W : Type) (h : Handler W)
  (name : string) (metadata : meta.ClusterMeta) (w : W) :
  let r := run h (command.destroyTombstoneIfNeed L name metadata) w in
  TombstoneRun (outcome r) (trace r).
Proof.
  unfold command.destroyTombstoneIfNeed, outcome, trace. simpl.
  answer h. destruct x; simpl.
  2: { eapply tr_no_need; reflexivity. }
  answer h. destruct x as [c1 [e|]]; simpl.
  { eapply tr_keys_failed; reflexivity. }
  answer h. destruct x as [c2 [e|]]; simpl.
  { eapply tr_ssh_failed; reflexivity. }
  answer h. destruct x as [topo1 [nodes [e|]]]; simpl.
  { eapply tr_discovery_failed with (pre := [_; _; _]);
      [reflexivity|reflexivity| |reflexivity].
    repeat constructor. }
  destruct nodes as [|n nodes]; simpl.
  { eapply tr_nothing_found with (pre := [_; _; _]);
      [reflexivity|reflexivity| |reflexivity].
    repeat constructor. }
  answer h. destruct x. answer h. destruct x as [topo2 [nodes2 [e|]]]; simpl.
  { eapply tr_destroy_failed with (pre := [_; _; _]);
      [reflexivity|reflexivity| |reflexivity].
    repeat constructor. }
  answer h. destruct x. answer h.
  eapply tr_saved with (pre := [_; _; _]);
    [reflexivity|reflexivity| |reflexivity|reflexivity].
  repeat constructor.
Qed.

End Tombstone.

Lemma destroyed_isDestroy (b : bool) (ev : Event)
  (x : list string * option error) :
  destroyed b ev = Some x -> isDestroy b ev = true.
Proof.
  destruct ev as [X e y]; destruct e; simpl; try discriminate.
  destruct (Bool.eqb returnNodesOnly b); [reflexivity|discriminate].
Qed.

(** A run against a world with a metadata store leaves the files alone
    unless it calls [meta.SaveClusterMeta]. *)
Lemma storeHandler_disk (E R : Type)
  (save : string -> meta.ClusterMeta -> World E -> option error * World E)
  (others : gmap string meta.ClusterMeta -> Handler E) (p : Prog R) :
  forall w : World E,
    Forall (fun ev => isSave ev = false)
      (trace (run (storeHandler save others) p w)) ->
    disk (world (run (storeHandler save others) p w)) = disk w.
Proof.
  induction p as [r|q|X e k IH]; intros w; try reflexivity.
  unfold trace, world in *. simpl.
  destruct (storeHandler save others X e w) as [x w1] eqn:Hh.
  specialize (IH x w1).
  destruct (run (storeHandler save others) (k x) w1) as [[o w2] tr].
  simpl in *. intros Hall. inversion Hall as [|? ? Hev Htl]; subst.
  rewrite (IH Htl).
  destruct e; simpl in Hev; try discriminate; simpl in Hh;
    match type of Hh with
    | (let '(_, _) := ?c in _) = _ => destruct c; injection Hh as <- <-
    end; reflexivity.
Qed.

Section TombstoneClaims.

Variable L : Lib.

(** C1.  A call of SaveClusterMeta comes only after a destructive
    DestroyTombstone call that came back without error; and when the
    destructive call comes back with an error, the function hands that
    error back, no SaveClusterMeta call is made, and the metadata files
    are what they were. *)
Theorem destroyTombstoneIfNeed_saves_only_after_destroy (E : Type)
  (save : string -> meta.ClusterMeta -> World E -> option error * World E)
  (others : gmap string meta.ClusterMeta -> Handler E)
  (name : string) (metadata : meta.ClusterMeta) (w : World E)
  (i : nat) (ev : Event) :
  let r := run (storeHandler save others)
             (command.destroyTombstoneIfNeed L name metadata) w in
  trace r !! i = Some ev ->
  (isSave ev = true ->
   exists j ev' nodes,
     j < i /\ trace r !! j = Some ev'
     /\ destroyed false ev' = Some (nodes, None))
  /\ (forall nodes e,
         destroyed false ev = Some (nodes, Some e) ->
         outcome r = Returned (Some (AddStack e))
         /\ Forall (fun ev' => isSave ev' = false) (trace r)
         /\ disk (world r) = disk w).
Proof.
  intros r Hi.
  assert (Hnosave : forall nodes e,
             destroyed false ev = Some (nodes, Some e) ->
             outcome r = Returned (Some (AddStack e))
             /\ Forall (fun ev' => isSave ev' = false) (trace r)).
  { pose proof (destroyTombstoneIfNeed_runs L _ (storeHandler save others)
                  name metadata w) as Hrun.
    fold r in Hrun. simpl in Hrun.
    intros nodes e Hd.
    destruct Hrun as [? Ho Ht|? ? ? ? ? ? Ho Ht|? ? ? ? ? ? ? ? ? Ho Ht
                     |pre ? ? ? ? ? Ho Hlen Hpre Ht
                     |pre ? ? ? Ho Hlen Hpre Ht
                     |pre ? ? ? ? ? ? ? ? ? ? Ho Hlen Hpre Ht
                     |pre ? ? ? ? ? ? ? ? ? ? ? ? ? ? Ho Hlen Hpre Ht Hm];
      rewrite Ht in Hi |- *; rewrite Ho;
      try three pre Hlen Hpre; simpl in Hi;
      at_index i Hi; simpl in Hd; try discriminate Hd;
      try (apply destroyed_isDestroy in Hd; congruence).
    injection Hd as <- <-. split; [reflexivity|].
    repeat constructor; assumption. }
  split.
  - intros Hs.
    pose proof (destroyTombstoneIfNeed_runs L _ (storeHandler save others)
                  name metadata w) as Hrun.
    fold r in Hrun. simpl in Hrun.
    destruct Hrun as [? Ho Ht|? ? ? ? ? ? Ho Ht|? ? ? ? ? ? ? ? ? Ho Ht
                     |pre ? ? ? ? ? Ho Hlen Hpre Ht
                     |pre ? ? ? Ho Hlen Hpre Ht
                     |pre ? ? ? ? ? ? ? ? ? ? Ho Hlen Hpre Ht
                     |pre ? ? ? ? ? ? ? ? ? ? ? ? ? ? Ho Hlen Hpre Ht Hm];
      rewrite Ht in Hi |- *;
      try three pre Hlen Hpre; simpl in Hi;
      at_index i Hi; simpl in Hs; try discriminate Hs; try congruence.
    exists 5. eexists. eexists. split; [lia|]. split; reflexivity.
  - intros nodes e Hd. destruct (Hnosave nodes e Hd) as [Ho Hall].
    split; [exact Ho|]. split; [exact Hall|].
    apply storeHandler_disk. exact Hall.
Qed.

(** C2.  When the discovery call (DestroyTombstone with returnNodesOnly
    true) comes back without error and with no node, the function hands
    back nil; the run has no destructive DestroyTombstone call and no
    SaveClusterMeta call. *)
Theorem destroyTombstoneIfNeed_nothing_to_destroy (W : Type)
  (h : Handler W) (name : string) (metadata : meta.ClusterMeta) (w : W)
  (i : nat) (ev : Event) :
  let r := run h (command.destroyTombstoneIfNeed L name metadata) w in
  trace r !! i = Some ev ->
  destroyed true ev = Some ([], None) ->
  outcome r = Returned None
  /\ Forall (fun ev' => isSave ev' = false /\ isDestroy false ev' = false)
       (trace r).
Proof.
  intros r Hi Hd.
  pose proof (destroyTombstoneIfNeed_runs L _ h name metadata w) as Hrun.
  fold r in Hrun. simpl in Hrun.
  destruct Hrun as [? Ho Ht|? ? ? ? ? ? Ho Ht|? ? ? ? ? ? ? ? ? Ho Ht
                   |pre ? ? ? ? ? Ho Hlen Hpre Ht
                   |pre ? ? ? Ho Hlen Hpre Ht
                   |pre ? ? ? ? ? ? ? ? ? ? Ho Hlen Hpre Ht
                   |pre ? ? ? ? ? ? ? ? ? ? ? ? ? ? Ho Hlen Hpre Ht Hm];
    rewrite Ht in Hi |- *; rewrite Ho;
    try three pre Hlen Hpre; simpl in Hi;
    at_index i Hi; simpl in Hd; try discriminate Hd;
    try (apply destroyed_isDestroy in Hd; congruence).
  split; [reflexivity|]. repeat constructor; assumption.
Qed.

End TombstoneClaims.

(** The task of initialising TiKV's configuration on a context without any
    executor. *)
Lemma InitConfig_Execute_no_executor_witness :
  run (Demo.handler Demo.quiet)
    (InitConfig.Execute
       {| InitConfig.clusterName := "prod";
          InitConfig.clusterVersion := "v4.0.0-beta";
          InitConfig.instance := Demo.tikv1;
          InitConfig.deployUser := "tidb";
          InitConfig.paths := {| meta.Deploy := "/deploy/tikv-20160";
                                 meta.Data := "/data/tikv-20160";
                                 meta.Cache := "/tmp/tiup/cache" |} |}
       NewContext)
    (Demo.start [])
  = (Returned (Some ErrNoExecutor), Demo.start [], []).
Proof.
  refine (proj1 (proj2 (InitConfig_Execute_no_executor _ NewContext _)) _ _ _).
  reflexivity.
Defined.

(** Removing the tombstone store fails: the error comes back and the file
    still holds the topology with the store in it. *)
Lemma destroyTombstoneIfNeed_saves_only_after_destroy_witness :
  let r := run (Demo.handler (Demo.retiring (Some (Errorf "ssh: handshake failed"))))
             (command.destroyTombstoneIfNeed Demo.lib "prod" (Demo.clusterMeta []))
             (Demo.start []) in
  outcome r = Returned (Some (AddStack (Errorf "ssh: handshake failed")))
  /\ disk (world r) !! "prod" = Some (Demo.clusterMeta []).
Proof.
  intros r.
  destruct (destroyTombstoneIfNeed_saves_only_after_destroy Demo.lib unit
              Demo.saveFile
              (Demo.answers (Demo.retiring (Some (Errorf "ssh: handshake failed"))))
              "prod" (Demo.clusterMeta []) (Demo.start []) 5 _ eq_refl)
    as [_ Hfail].
  destruct (Hfail [] (Errorf "ssh: handshake failed") eq_refl)
    as (Hout & _ & Hdisk).
  split; [exact Hout|].
  exact (eq_trans (f_equal (fun d => d !! "prod") Hdisk) eq_refl).
Defined.

(** Discovery finds no tombstone. *)
Lemma destroyTombstoneIfNeed_nothing_to_destroy_witness :
  let r := run (Demo.handler Demo.quiet)
             (command.destroyTombstoneIfNeed Demo.lib "prod" (Demo.clusterMeta []))
             (Demo.start []) in
  outcome r = Returned None
  /\ Forall (fun ev' => isSave ev' = false /\ isDestroy false ev' = false)
       (trace r).
Proof.
  intros r.
  exact (destroyTombstoneIfNeed_nothing_to_destroy Demo.lib _
           (Demo.handler Demo.quiet) "prod" (Demo.clusterMeta [])
           (Demo.start []) 3 _ eq_refl eq_refl).
Defined.

(** The same cluster when the removal goes through: the save is the last
    call and the file no longer lists the store. *)
Example destroyTombstoneIfNeed_saved :
  let r := run (Demo.handler (Demo.retiring None))
             (command.destroyTombstoneIfNeed Demo.lib "prod" (Demo.clusterMeta []))
             (Demo.start []) in
  outcome r = Returned None
  /\ map isSave (trace r) = [false; false; false; false; false; false; false; true]
  /\ disk (world r) !! "prod"
     = Some {| meta.User := "tidb"; meta.Version := "v4.0.0-beta";
               meta.Topology :=
                 Demo.dropNodes ["10.0.1.6:20160"] (Demo.topo []) |}.
Proof. vm_compute. repeat split. Qed.

(** ** Running a sequence and a loop *)

Lemma run_bind {W A B : Type} (h : Handler W) (p : Prog A)
  (f : A -> Prog B) :
  forall w : W,
    run h (bind p f) w
    = let '(o, w1, tr1) := run h p w in
      match o with
      | Returned a =>
          let '(o2, w2, tr2) := run h (f a) w1 in (o2, w2, tr1 ++ tr2)
      | Panicked q => (Panicked q, w1, tr1)
      end.
Proof.
  induction p as [a|q|X e k IH]; intros w; simpl.
  - destruct (run h (f a) w) as [[o2 w2] tr2]. reflexivity.
  - reflexivity.
  - destruct (h X e w) as [x w1]. rewrite IH.
    destruct (run h (k x) w1) as [[o w2] tr]. destruct o as [a|q].
    + destruct (run h (f a) w2) as [[o2 w3] tr2]. reflexivity.
    + reflexivity.
Qed.

Lemma run_forRange_cons {W A S : Type} (h : Handler W) (a : A) (l : list A)
  (s : S) (body : S -> A -> Prog S) (w : W) :
  run h (forRange (a :: l) s body) w
  = let '(o, w1, tr1) := run h (body s a) w in
    match o with
    | Returned s' =>
        let '(o2, w2, tr2) := run h (forRange l s' body) w1 in
        (o2, w2, tr1 ++ tr2)
    | Panicked q => (Panicked q, w1, tr1)
    end.
Proof. simpl. apply run_bind. Qed.

Lemma run_forRange_app {W A S : Type} (h : Handler W)
  (body : S -> A -> Prog S) (l1 l2 : list A) :
  forall (s : S) (w : W),
    run h (forRange (l1 ++ l2) s body) w
    = let '(o, w1, tr1) := run h (forRange l1 s body) w in
      match o with
      | Returned s' =>
          let '(o2, w2, tr2) := run h (forRange l2 s' body) w1 in
          (o2, w2, tr1 ++ tr2)
      | Panicked q => (Panicked q, w1, tr1)
      end.
Proof.
  induction l1 as [|a l1 IH]; intros s w.
  - simpl. destruct (run h (forRange l2 s body) w) as [[o2 w2] tr2].
    reflexivity.
  - change ((a :: l1) ++ l2) with (a :: (l1 ++ l2)).
    rewrite !run_forRange_cons.
    destruct (run h (body s a) w) as [[o w1] tr1]. destruct o as [s'|q].
    + rewrite IH.
      destruct (run h (forRange l1 s' body) w1) as [[o1 w2] tr2].
      destruct o1 as [s''|q].
      * destruct (run h (forRange l2 s'' body) w2) as [[o2 w3] tr3].
        rewrite app_assoc. reflexivity.
      * reflexivity.
    + reflexivity.
Qed.

(** The two nested loops visit [flat_map inner outer]. *)
Lemma run_forRange_nested {W A B S : Type} (h : Handler W)
  (inner : A -> list B) (body : S -> B -> Prog S) (outer : list A) :
  forall (s : S) (w : W),
    run h (forRange outer s (fun s' a => forRange (inner a) s' body)) w
    = run h (forRange (flat_map inner outer) s body) w.
Proof.
  induction outer as [|a outer IH]; intros s w.
  - reflexivity.
  - rewrite run_forRange_cons. simpl flat_map. rewrite run_forRange_app.
    destruct (run h (forRange (inner a) s body) w) as [[o w1] tr1].
    destruct o as [s'|q]; [rewrite IH|]; reflexivity.
Qed.

(** ** The display loop *)

Section DisplayLoop.

Variable L : Lib.
Variable W : Type.
Variable h : Handler W.
Variable ctx : Context.
Variable pdList : list string.
Variable filterRoles filterNodes : gset string.

Local Abbreviation body :=
  (command.displayInstance L ctx pdList filterRoles filterNodes).

(** Every row of the loop has the seven columns of the header, so the
    comparison of lines 206-215 reads no index out of range. *)
Lemma RowOf_length (row : list string) (ins : meta.Instance) :
  RowOf L h ctx pdList ins row -> length row = length command.header.
Proof. intros (status & deployDir & _ & _ & ->). reflexivity. Qed.

(** One pass of the inner loop body. *)
Lemma run_displayInstance (t : list (list string)) (ins : meta.Instance)
  (w : W) :
  let r := run h (body t ins) w in
  if shown filterRoles filterNodes ins then
    match meta.UsedDirs ins with
    | [] => r = (Panicked (IndexOutOfRange 0 0), w, [])
    | _ :: _ =>
        exists row, RowOf L h ctx pdList ins row
                    /\ outcome r = Returned (t ++ [row])
    end
  else r = (Returned t, w, []).
Proof.
  unfold body, command.displayInstance, shown.
  destruct ((0 <? size filterRoles)
            && negb (bool_decide (meta.Role ins ∈ filterRoles))); simpl;
    [reflexivity|].
  destruct ((0 <? size filterNodes)
            && negb (bool_decide (meta.ID ins ∈ filterNodes))); simpl;
    [reflexivity|].
  destruct (meta.UsedDirs ins) as [|d0 ds] eqn:Hdirs; simpl; [reflexivity|].
  assert (Hrow : forall st,
             Reconciles h ctx pdList ins st ->
             RowOf L h ctx pdList ins
               (command.tableRow L ins st (default "-" (ds !! 0)) d0)).
  { intros st Hst. exists st, d0. rewrite Hdirs. auto. }
  unfold outcome.
  destruct ds as [|d1 ds]; simpl in *.
  all: destruct (h _ (InstanceStatus ins pdList) w) as [s0 w1] eqn:Hs;
    simpl;
    destruct (String.eqb s0 "-") eqn:Hdash; simpl;
    [ apply String.eqb_eq in Hdash; subst s0;
      destruct (GetExecutor ctx (meta.GetHost ins)) as [e|] eqn:He; simpl;
      [ destruct (h _ (GetServiceStatus e (meta.ServiceName ins)) w1)
          as [[active err] w2] eqn:Hq; simpl;
        eexists; split; [apply Hrow; eapply rec_live; eassumption
                        |reflexivity]
      | eexists; split; [apply Hrow; eapply rec_no_executor; eassumption
                        |reflexivity] ]
    | apply String.eqb_neq in Hdash;
      eexists; split; [apply Hrow; eapply rec_authoritative; eassumption
                      |reflexivity] ].
Qed.

(** The loop over a list of instances: it returns the table with one row
    more for each instance shown, in order, and then every one of them
    has a directory; or it panics on the index 0 of an empty directory
    list. *)
Lemma run_display_loop (l : list meta.Instance) :
  forall (t : list (list string)) (w : W),
    match outcome (run h (forRange l t body) w) with
    | Returned t' =>
        Forall (fun ins => meta.UsedDirs ins <> [])
          (List.filter (shown filterRoles filterNodes) l)
        /\ exists rows,
            t' = t ++ rows
            /\ Forall2 (RowOf L h ctx pdList)
                 (List.filter (shown filterRoles filterNodes) l) rows
    | Panicked q =>
        q = IndexOutOfRange 0 0
        /\ Exists (fun ins => meta.UsedDirs ins = [])
             (List.filter (shown filterRoles filterNodes) l)
    end.
Proof.
  induction l as [|ins l IH]; intros t w.
  - simpl. split; [constructor|]. exists []. split; [|constructor].
    symmetry. apply app_nil_r.
  - rewrite run_forRange_cons. simpl List.filter.
    pose proof (run_displayInstance t ins w) as Hone. simpl in Hone.
    destruct (shown filterRoles filterNodes ins).
    + destruct (meta.UsedDirs ins) as [|d0 ds] eqn:Hdirs.
      * rewrite Hone. simpl. split; [reflexivity|].
        apply Exists_cons_hd. exact Hdirs.
      * destruct Hone as (row & Hrow & Hout).
        unfold outcome in Hout.
        destruct (run h (body t ins) w) as [[o w1] tr1]. simpl in Hout.
        subst o. specialize (IH (t ++ [row]) w1). unfold outcome in *.
        destruct (run h (forRange l (t ++ [row]) body) w1) as [[o2 w2] tr2].
        simpl in *. destruct o2 as [t'|q].
        -- destruct IH as (Hall & rows & -> & Hrows). split.
           ++ constructor; [rewrite Hdirs; discriminate|exact Hall].
           ++ exists (row :: rows). split.
              ** rewrite <- app_assoc. reflexivity.
              ** constructor; assumption.
        -- destruct IH as (-> & Hex). split; [reflexivity|].
           apply Exists_cons_tl. exact Hex.
    + rewrite Hone. specialize (IH t w). unfold outcome in *.
      destruct (run h (forRange l t body) w) as [[o2 w2] tr2]. simpl in *.
      exact IH.
Qed.

End DisplayLoop.


(** ** The order of the rows *)

Lemma ascii_compare_N (a b : ascii) :
  Ascii.compare a b = N.compare (N_of_ascii a) (N_of_ascii b).
Proof. reflexivity. Qed.

Lemma string_compare_refl (s : string) : String.compare s s = Eq.
Proof.
  induction s as [|c s IH]; simpl; [reflexivity|].
  rewrite ascii_compare_N, N.compare_refl. exact IH.
Qed.

Lemma string_compare_lt_trans (a : string) :
  forall b c : string,
    String.compare a b = Lt -> String.compare b c = Lt ->
    String.compare a c = Lt.
Proof.
  induction a as [|x a IH]; intros [|y b] [|z c]; simpl; try discriminate;
    try reflexivity.
  rewrite !ascii_compare_N.
  destruct (N.compare_spec (N_of_ascii x) (N_of_ascii y)) as [Hxy|Hxy|Hxy];
    try discriminate;
    destruct (N.compare_spec (N_of_ascii y) (N_of_ascii z)) as [Hyz|Hyz|Hyz];
    try discriminate; intros Hab Hbc.
  - rewrite Hxy, Hyz, N.compare_refl. eapply IH; eassumption.
  - rewrite Hxy. apply N.compare_lt_iff in Hyz. rewrite Hyz. reflexivity.
  - rewrite <- Hyz. apply N.compare_lt_iff in Hxy. rewrite Hxy. reflexivity.
  - assert (Hxz : (N_of_ascii x < N_of_ascii z)%N) by lia.
    apply N.compare_lt_iff in Hxz. rewrite Hxz. reflexivity.
Qed.

Lemma string_eqb_compare (a b : string) :
  String.eqb a b = match String.compare a b with Eq => true | _ => false end.
Proof.
  destruct (String.eqb a b) eqn:He.
  - apply String.eqb_eq in He. subst b. rewrite string_compare_refl.
    reflexivity.
  - destruct (String.compare a b) eqn:Hc; try reflexivity.
    apply String.compare_eq_iff in Hc. subst b.
    rewrite String.eqb_refl in He. discriminate.
Qed.

Lemma string_TotalCompare : TotalCompare String.compare.
Proof.
  split.
  - exact string_compare_refl.
  - exact String.compare_eq_iff.
  - intros a b. apply String.compare_antisym.
  - intros a b c. apply string_compare_lt_trans.
Qed.

Lemma lex_TotalCompare {A B : Type} (cmpA : A -> A -> comparison)
  (cmpB : B -> B -> comparison) :
  TotalCompare cmpA -> TotalCompare cmpB ->
  TotalCompare (lexCompare cmpA cmpB).
Proof.
  intros HA HB. split; unfold lexCompare.
  - intros [a b]. simpl. rewrite (cmp_refl _ HA). apply (cmp_refl _ HB).
  - intros [a b] [a' b']. simpl.
    destruct (cmpA a a') eqn:Ha; try discriminate.
    intros Hb. apply (cmp_eq _ HA) in Ha. apply (cmp_eq _ HB) in Hb.
    congruence.
  - intros [a b] [a' b']. simpl. rewrite (cmp_antisym _ HA a a').
    destruct (cmpA a a'); simpl; try reflexivity. apply (cmp_antisym _ HB).
  - intros [a b] [a' b'] [a'' b'']. simpl.
    destruct (cmpA a a') eqn:H1; try discriminate;
      destruct (cmpA a' a'') eqn:H2; try discriminate; intros Hx Hy.
    + apply (cmp_eq _ HA) in H1, H2. subst a' a''.
      rewrite (cmp_refl _ HA). eapply (cmp_lt_trans _ HB); eassumption.
    + apply (cmp_eq _ HA) in H1. subst a'. rewrite H2. reflexivity.
    + apply (cmp_eq _ HA) in H2. subst a''. rewrite H1. reflexivity.
    + rewrite (cmp_lt_trans _ HA _ _ _ H1 H2). reflexivity.
Qed.

Lemma keyCompare_TotalCompare : TotalCompare keyCompare.
Proof.
  unfold keyCompare.
  repeat apply lex_TotalCompare; exact string_TotalCompare.
Qed.

(** "Less" of a total comparison is what [sort.Slice] asks for. *)
Lemma isLt_StrictWeak {A K : Type} (cmp : K -> K -> comparison)
  (k : A -> K) :
  TotalCompare cmp -> StrictWeak (fun a b => isLt (cmp (k a) (k b))).
Proof.
  intros H. split.
  - intros a b. rewrite (cmp_antisym _ H (k a) (k b)).
    destruct (cmp (k a) (k b)); simpl; congruence.
  - intros a b c Hab Hbc.
    destruct (cmp (k a) (k c)) eqn:Hac; try reflexivity. exfalso.
    destruct (cmp (k a) (k b)) eqn:Hab'; try discriminate.
    + apply (cmp_eq _ H) in Hab'. rewrite <- Hab', Hac in Hbc. discriminate.
    + pose proof (cmp_antisym _ H (k a) (k b)) as Hba. rewrite Hab' in Hba.
      simpl in Hba. rewrite (cmp_lt_trans _ H _ _ _ Hba Hac) in Hbc.
      discriminate.
Qed.

(** The comparison of lines 206-215 compares the keys. *)
Lemma less_keyCompare (lhs rhs : list string) :
  command.less lhs rhs = isLt (keyCompare (key lhs) (key rhs)).
Proof.
  unfold command.less, keyCompare, lexCompare, key. simpl.
  rewrite !string_eqb_compare. unfold String.ltb.
  destruct (String.compare (command.col lhs 1) (command.col rhs 1));
    try reflexivity.
  destruct (String.compare (command.col lhs 2) (command.col rhs 2));
    reflexivity.
Qed.

Lemma less_StrictWeak : StrictWeak command.less.
Proof.
  pose proof (isLt_StrictWeak keyCompare key keyCompare_TotalCompare)
    as [Ha Hn].
  split; intros *; rewrite !less_keyCompare; [apply Ha|apply Hn].
Qed.

(** Not less the other way round is the order of the specification. *)
Lemma less_byRoleHostPorts (a b : list string) :
  command.less b a = false -> byRoleHostPorts a b.
Proof.
  rewrite less_keyCompare.
  rewrite (cmp_antisym _ keyCompare_TotalCompare (key a) (key b)).
  unfold keyCompare, lexCompare, key, byRoleHostPorts, String.ltb. simpl.
  destruct (String.compare (command.col a 1) (command.col b 1)) eqn:H1;
    simpl; try discriminate; [|left; reflexivity].
  apply String.compare_eq_iff in H1. intros H. right. split; [exact H1|].
  destruct (String.compare (command.col a 2) (command.col b 2)) eqn:H2;
    simpl in H; try discriminate; [|left; reflexivity].
  apply String.compare_eq_iff in H2. right. split; [exact H2|].
  destruct (String.compare (command.col a 3) (command.col b 3)) eqn:H3;
    simpl in H; try discriminate; [|left; reflexivity].
  right. apply String.compare_eq_iff. exact H3.
Qed.

(** Insertion sort is a [sort.Slice]. *)
Lemma insert_perm {A : Type} (less : A -> A -> bool) (x : A) (l : list A) :
  Permutation (Demo.insert less x l) (x :: l).
Proof.
  induction l as [|y l IH]; simpl; [reflexivity|].
  destruct (less y x); [|reflexivity].
  rewrite IH. apply perm_swap.
Qed.

Lemma insert_sorted {A : Type} (less : A -> A -> bool) (x : A)
  (l : list A) :
  StrictWeak less ->
  StronglySorted (fun a b => less b a = false) l ->
  StronglySorted (fun a b => less b a = false) (Demo.insert less x l).
Proof.
  intros [Hasym Hneg] Hl. induction Hl as [|y l Hl IH Hy]; simpl.
  - repeat constructor.
  - destruct (less y x) eqn:Hyx.
    + constructor; [exact IH|].
      apply (Permutation_Forall (Permutation_sym (insert_perm less x l))).
      constructor; [apply Hasym; exact Hyx|exact Hy].
    + constructor; [constructor; assumption|].
      constructor; [exact Hyx|].
      eapply Forall_impl; [exact Hy|]. simpl. intros z Hzy.
      eapply Hneg; eassumption.
Qed.

Lemma insertionSort_contract {A : Type} :
  SortContract (@Demo.insertionSort A).
Proof.
  split.
  - intros less l. induction l as [|x l IH]; simpl; [reflexivity|].
    rewrite insert_perm, IH. reflexivity.
  - intros less l Hless. induction l as [|x l IH]; simpl; [constructor|].
    apply insert_sorted; assumption.
Qed.

Lemma Forall2_In_l {A B : Type} (R : A -> B -> Prop) (l : list A)
  (l' : list B) (x : A) :
  Forall2 R l l' -> In x l -> exists y, In y l' /\ R x y.
Proof.
  induction 1 as [|a b l l' Hab _ IH]; intros Hin; [destruct Hin|].
  destruct Hin as [->|Hin].
  - exists b. split; [left; reflexivity|exact Hab].
  - destruct (IH Hin) as (y & Hy & HR). exists y. split; [right|]; assumption.
Qed.

Lemma Forall2_In_r {A B : Type} (R : A -> B -> Prop) (l : list A)
  (l' : list B) (y : B) :
  Forall2 R l l' -> In y l' -> exists x, In x l /\ R x y.
Proof.
  induction 1 as [|a b l l' Hab _ IH]; intros Hin; [destruct Hin|].
  destruct Hin as [->|Hin].
  - exists a. split; [left; reflexivity|exact Hab].
  - destruct (IH Hin) as (x & Hx & HR). exists x. split; [right|]; assumption.
Qed.

(** Two sorted arrangements of the same elements are the same list when no
    two different elements are each before the other. *)
Lemma StronglySorted_perm_unique {A : Type} (R : A -> A -> Prop)
  (l1 : list A) :
  forall l2 : list A,
    (forall x y, In x l1 -> In y l1 -> R x y -> R y x -> x = y) ->
    StronglySorted R l1 -> StronglySorted R l2 -> Permutation l1 l2 ->
    l1 = l2.
Proof.
  induction l1 as [|x l1 IH]; intros l2 Hanti H1 H2 Hp.
  - apply Permutation_nil in Hp. congruence.
  - destruct l2 as [|y l2];
      [apply Permutation_sym, Permutation_nil in Hp; discriminate|].
    apply StronglySorted_inv in H1 as [H1 Hx].
    apply StronglySorted_inv in H2 as [H2 Hy].
    assert (Hxy : x = y).
    { assert (Hxin : In x (y :: l2))
        by (eapply Permutation_in; [exact Hp|left; reflexivity]).
      assert (Hyin : In y (x :: l1))
        by (eapply Permutation_in;
            [apply Permutation_sym; exact Hp|left; reflexivity]).
      destruct Hxin as [->|Hxin]; [reflexivity|].
      destruct Hyin as [->|Hyin]; [reflexivity|].
      rewrite Forall_forall in Hx, Hy.
      apply Hanti;
        [left; reflexivity|right; exact Hyin
        |apply Hx, list_elem_of_In; exact Hyin
        |apply Hy, list_elem_of_In; exact Hxin]. }
    subst y. f_equal. apply IH; try assumption.
    + intros a b Ha Hb. apply Hanti; right; assumption.
    + eapply Permutation_cons_inv. exact Hp.
Qed.

(** ** Splitting at a byte *)

Lemma Split_nonempty (s : string) (sep : ascii) : GoStrings.Split s sep <> [].
Proof.
  destruct s as [|c s]; simpl; [discriminate|].
  destruct (Ascii.eqb c sep); [discriminate|].
  destruct (GoStrings.Split s sep); discriminate.
Qed.

(** Putting the separator back between the pieces gives the string back. *)
Lemma Split_concat (s : string) (sep : ascii) :
  String.concat (String sep EmptyString) (GoStrings.Split s sep) = s.
Proof.
  induction s as [|c s IH]; simpl; [reflexivity|].
  pose proof (Split_nonempty s sep) as Hne.
  destruct (Ascii.eqb c sep) eqn:Hc.
  - apply Ascii.eqb_eq in Hc. subst c.
    destruct (GoStrings.Split s sep) as [|p ps]; [contradiction|].
    simpl in *. rewrite IH. reflexivity.
  - destruct (GoStrings.Split s sep) as [|p ps]; [contradiction|].
    simpl in *. destruct ps; simpl in *; rewrite <- IH; reflexivity.
Qed.

(** There is one piece more than there are separator bytes. *)
Lemma Split_length (s : string) (sep : ascii) :
  length (GoStrings.Split s sep)
  = S (count_occ ascii_dec (list_ascii_of_string s) sep).
Proof.
  induction s as [|c s IH]; simpl; [reflexivity|].
  destruct (Ascii.eqb c sep) eqn:Hc.
  - apply Ascii.eqb_eq in Hc. subst c. simpl. rewrite IH.
    destruct (ascii_dec sep sep); [reflexivity|contradiction].
  - apply Ascii.eqb_neq in Hc.
    destruct (ascii_dec c sep); [contradiction|].
    rewrite <- IH. pose proof (Split_nonempty s sep) as Hne.
    destruct (GoStrings.Split s sep); [contradiction|reflexivity].
Qed.

(** No piece holds a separator byte. *)
Lemma Split_pieces (s : string) (sep : ascii) :
  Forall (fun p => ~ In sep (list_ascii_of_string p)) (GoStrings.Split s sep).
Proof.
  induction s as [|c s IH]; simpl.
  - constructor; [intros []|constructor].
  - destruct (Ascii.eqb c sep) eqn:Hc.
    + constructor; [intros []|exact IH].
    + apply Ascii.eqb_neq in Hc.
      destruct (GoStrings.Split s sep) as [|p ps].
      * constructor; [|constructor]. simpl. intros [?|[]]. contradiction.
      * apply Forall_cons in IH as [Hp Hps]. constructor; [|exact Hps].
        simpl. intros [?|?]; [contradiction|]. apply Hp. assumption.
Qed.

(** ** A run of the display that gets past its set-up *)

Section DisplayRun.

Variable L : Lib.
Variable W : Type.
Variable h : Handler W.
Variable opt : command.displayOption.
Variable metadata : meta.ClusterMeta.
Variables c1 ctx : Context.
Variables w w1 w2 w3 : W.

Local Abbreviation name := (command.clusterName opt).
Local Abbreviation topo := (meta.Topology metadata).
Local Abbreviation filterRoles :=
  (list_to_set (command.filterRole opt) : gset string).
Local Abbreviation filterNodes :=
  (list_to_set (command.filterNode opt) : gset string).
Local Abbreviation body :=
  (command.displayInstance L ctx (meta.GetPDList topo)
     filterRoles filterNodes).
Local Abbreviation loaded := (Ev (ClusterMetadata name) (Ok metadata)).
Local Abbreviation keyed :=
  (Ev (SetSSHKeySet NewContext (ClusterPath L name ["ssh"; "id_rsa"])
         (ClusterPath L name ["ssh"; "id_rsa.pub"])) (c1, None)).
Local Abbreviation connected :=
  (Ev (SetClusterSSH c1 topo (meta.User metadata) (sshTimeout L))
     (ctx, None)).

(** The metadata loads, the key set and the SSH executors are set up. *)
Hypothesis Hmeta : h _ (ClusterMetadata name) w = (Ok metadata, w1).
Hypothesis Hkeys :
  h _ (SetSSHKeySet NewContext (ClusterPath L name ["ssh"; "id_rsa"])
         (ClusterPath L name ["ssh"; "id_rsa.pub"])) w1
  = (c1, None, w2).
Hypothesis Hssh :
  h _ (SetClusterSSH c1 topo (meta.User metadata) (sshTimeout L)) w2
  = (ctx, None, w3).

Lemma displayClusterTopology_run :
  run h (command.displayClusterTopology L opt) w
  = let '(o, w4, tr) :=
      run h (forRange (instances topo) [command.header] body) w3 in
    match o with
    | Returned (hd :: rows) =>
        let sorted := hd :: sort_Slice L command.less rows in
        (Returned None,
         snd (h _ (PrintTable sorted true) w4),
         loaded :: keyed :: connected
           :: tr ++ [Ev (PrintTable sorted true) tt])
    | Returned [] =>
        (Panicked (SliceBoundsOutOfRange 1 0), w4,
         loaded :: keyed :: connected :: tr ++ [])
    | Panicked q => (Panicked q, w4, loaded :: keyed :: connected :: tr)
    end.
Proof.
  unfold command.displayClusterTopology. simpl.
  rewrite Hmeta. simpl. rewrite Hkeys. simpl. rewrite Hssh. simpl.
  rewrite run_bind, run_forRange_nested. fold (instances topo).
  destruct (run h (forRange (instances topo) [command.header] body) w3)
    as [[o w4] tr].
  destruct o as [[|hd rows]|q]; [reflexivity| |reflexivity].
  simpl.
  destruct (h _ (PrintTable (hd :: sort_Slice L command.less rows) true) w4)
    as [[] w5].
  reflexivity.
Qed.

Local Abbreviation shownInstances :=
  (List.filter (shown filterRoles filterNodes) (instances topo)).
Local Abbreviation r := (run h (command.displayClusterTopology L opt) w).

(** The run either prints the header and the sorted rows of the
    instances shown as its last call and returns nil, or panics on the
    directory list of an instance shown. *)
Lemma displayClusterTopology_outcome :
  (outcome r = Returned None
   /\ Forall (fun ins => meta.UsedDirs ins <> []) shownInstances
   /\ exists rows0,
       Forall2 (RowOf L h ctx (meta.GetPDList topo)) shownInstances rows0
       /\ last (trace r)
          = Some (Ev (PrintTable
                        (command.header :: sort_Slice L command.less rows0)
                        true) tt))
  \/ (outcome r = Panicked (IndexOutOfRange 0 0)
      /\ Exists (fun ins => meta.UsedDirs ins = []) shownInstances).
Proof.
  rewrite (displayClusterTopology_run).
  pose proof (run_display_loop L W h ctx (meta.GetPDList topo)
                filterRoles filterNodes (instances topo)
                [command.header] w3) as Hloop.
  unfold outcome, trace in *.
  destruct (run h (forRange (instances topo) [command.header] body) w3)
    as [[o w4] tr].
  simpl in *. destruct o as [t|q].
  - left. destruct Hloop as (Hall & rows & -> & Hrows).
    split; [reflexivity|]. split; [exact Hall|].
    exists rows. split; [exact Hrows|].
    simpl. rewrite !last_cons, last_snoc. reflexivity.
  - right. destruct Hloop as (-> & Hex). split; [reflexivity|exact Hex].
Qed.

(** C9.  Line 172 reads index 0 of the directory list of every instance
    that passes the two filters, unguarded: the display returns exactly
    when each of them reports a directory, and panics with an index out
    of range as soon as one of them reports none.  Instances the filters
    skip are not read. *)
Theorem displayClusterTopology_indexes_first_dir :
  (Forall (fun ins => meta.UsedDirs ins <> []) shownInstances ->
   outcome r = Returned None)
  /\ (forall ins,
         In ins shownInstances -> meta.UsedDirs ins = [] ->
         outcome r = Panicked (IndexOutOfRange 0 0))
  /\ (outcome r = Returned None ->
      Forall (fun ins => meta.UsedDirs ins <> []) shownInstances).
Proof.
  destruct displayClusterTopology_outcome
    as [(Hout & Hall & _)|(Hout & Hex)].
  - split; [intros _; exact Hout|]. split; [|intros _; exact Hall].
    intros ins Hin Hnil. rewrite Forall_forall in Hall.
    apply list_elem_of_In in Hin. destruct (Hall ins Hin Hnil).
  - split; [|split].
    + intros Hall. apply Exists_exists in Hex as (ins & Hin & Hnil).
      rewrite Forall_forall in Hall. destruct (Hall ins Hin Hnil).
    + intros _ _ _. exact Hout.
    + rewrite Hout. discriminate.
Qed.

(** C8.  In the table printed, the row of every instance shown has the
    first element of the instance's directory list in the Deploy Dir
    column, and in the Data Dir column the second element when the list
    has more than one entry and ["-"] otherwise; and every row below the
    header is such a row. *)
Theorem displayClusterTopology_dir_columns :
  SortContract (sort_Slice L) ->
  outcome r = Returned None ->
  command.header !! 5 = Some "Data Dir"
  /\ command.header !! 6 = Some "Deploy Dir"
  /\ exists rows,
      last (trace r)
      = Some (Ev (PrintTable (command.header :: rows) true) tt)
      /\ (forall ins,
             In ins shownInstances ->
             exists status dataDir deployDir,
               In (command.tableRow L ins status dataDir deployDir) rows
               /\ meta.UsedDirs ins !! 0 = Some deployDir
               /\ (1 < length (meta.UsedDirs ins) ->
                   meta.UsedDirs ins !! 1 = Some dataDir)
               /\ (length (meta.UsedDirs ins) <= 1 -> dataDir = "-"))
      /\ (forall row,
             In row rows ->
             exists ins dataDir deployDir,
               In ins shownInstances
               /\ row !! 5 = Some dataDir /\ row !! 6 = Some deployDir
               /\ meta.UsedDirs ins !! 0 = Some deployDir
               /\ (1 < length (meta.UsedDirs ins) ->
                   meta.UsedDirs ins !! 1 = Some dataDir)
               /\ (length (meta.UsedDirs ins) <= 1 -> dataDir = "-")).
Proof.
  intros Hsort Hret.
  destruct displayClusterTopology_outcome
    as [(_ & _ & rows0 & Hrows & Hlast)|(Hout & _)];
    [|rewrite Hout in Hret; discriminate].
  split; [reflexivity|]. split; [reflexivity|].
  exists (sort_Slice L command.less rows0). split; [exact Hlast|].
  assert (Hdirs : forall (dirs : list string),
             (1 < length dirs -> dirs !! 1 = Some (default "-" (dirs !! 1)))
             /\ (length dirs <= 1 -> default "-" (dirs !! 1) = "-")).
  { intros [|d0 [|d1 ds]]; simpl; split; intros; try reflexivity; lia. }
  split.
  - intros ins Hin.
    destruct (Forall2_In_l _ _ _ _ Hrows Hin)
      as (row & Hrow & st & dd & Hd0 & _ & ->).
    exists st, (default "-" (meta.UsedDirs ins !! 1)), dd.
    split.
    + eapply Permutation_in; [|exact Hrow].
      symmetry. apply (sort_perm _ Hsort).
    + split; [exact Hd0|]. apply Hdirs.
  - intros row Hin.
    eapply Permutation_in in Hin; [|apply (sort_perm _ Hsort)].
    destruct (Forall2_In_r _ _ _ _ Hrows Hin)
      as (ins & Hins & st & dd & Hd0 & _ & ->).
    exists ins, (default "-" (meta.UsedDirs ins !! 1)), dd.
    split; [exact Hins|]. split; [reflexivity|]. split; [reflexivity|].
    split; [exact Hd0|]. apply Hdirs.
Qed.

(** C5.  The table printed has the header as its first row; the rows
    below it are the rows of the instances shown, rearranged so that they
    ascend by role, then host, then port string.  So rows with (role,
    host, ports) = (worker, h2, 4000), (worker, h1, 3000), (coord, h1,
    2000) come out as coord/h1, worker/h1, worker/h2. *)
Theorem displayClusterTopology_sorted :
  SortContract (sort_Slice L) ->
  (outcome r = Returned None ->
   exists rows rows0,
     last (trace r)
     = Some (Ev (PrintTable (command.header :: rows) true) tt)
     /\ Permutation rows rows0
     /\ Forall2 (RowOf L h ctx (meta.GetPDList topo)) shownInstances rows0
     /\ StronglySorted byRoleHostPorts rows)
  /\ (forall i1 s1 d1 p1 i2 s2 d2 p2 i3 s3 d3 p3 : string,
         command.sortBody L
           [ command.header;
             [i1; "worker"; "h2"; "4000"; s1; d1; p1];
             [i2; "worker"; "h1"; "3000"; s2; d2; p2];
             [i3; "coord"; "h1"; "2000"; s3; d3; p3] ]
         = Ret [ command.header;
                 [i3; "coord"; "h1"; "2000"; s3; d3; p3];
                 [i2; "worker"; "h1"; "3000"; s2; d2; p2];
                 [i1; "worker"; "h2"; "4000"; s1; d1; p1] ]).
Proof.
  intros Hsort.
  assert (Hsorted : forall l,
             StronglySorted byRoleHostPorts (sort_Slice L command.less l)).
  { intros l. pose proof (sort_sorted _ Hsort command.less l less_StrictWeak)
      as Hs.
    induction Hs as [|a l' _ IH Ha]; constructor; [exact IH|].
    eapply Forall_impl; [exact Ha|]. intros b. apply less_byRoleHostPorts. }
  split.
  - intros Hret.
    destruct displayClusterTopology_outcome
      as [(_ & _ & rows0 & Hrows & Hlast)|(Hout & _)];
      [|rewrite Hout in Hret; discriminate].
    exists (sort_Slice L command.less rows0), rows0.
    split; [exact Hlast|]. split; [apply (sort_perm _ Hsort)|].
    split; [exact Hrows|]. apply Hsorted.
  - intros. unfold command.sortBody. do 2 f_equal.
    apply (StronglySorted_perm_unique (fun a b => command.less b a = false)).
    + pose proof (sort_perm _ Hsort command.less
                    [ [i1; "worker"; "h2"; "4000"; s1; d1; p1];
                      [i2; "worker"; "h1"; "3000"; s2; d2; p2];
                      [i3; "coord"; "h1"; "2000"; s3; d3; p3] ]) as Hp.
      intros x y Hx Hy.
      apply (Permutation_in _ Hp) in Hx. apply (Permutation_in _ Hp) in Hy.
      simpl in Hx, Hy.
      destruct Hx as [<-|[<-|[<-|[]]]]; destruct Hy as [<-|[<-|[<-|[]]]];
        try reflexivity; intros H1 H2;
        try discriminate H1; try discriminate H2.
    + apply (sort_sorted _ Hsort). exact less_StrictWeak.
    + repeat constructor.
    + etransitivity; [apply (sort_perm _ Hsort)|].
      apply (Permutation_rev
               [ [i1; "worker"; "h2"; "4000"; s1; d1; p1];
                 [i2; "worker"; "h1"; "3000"; s2; d2; p2];
                 [i3; "coord"; "h1"; "2000"; s3; d3; p3] ]).
Qed.

(** The status in the row of an instance for which PD has no answer,
    whatever the world is like when it is asked. *)
Lemma unresolved_row (ins : meta.Instance) (row : list string) :
  (forall w', fst (h _ (InstanceStatus ins (meta.GetPDList topo)) w') = "-") ->
  RowOf L h ctx (meta.GetPDList topo) ins row ->
  exists status deployDir,
    row = command.tableRow L ins status
            (default "-" (meta.UsedDirs ins !! 1)) deployDir
    /\ match GetExecutor ctx (meta.GetHost ins) with
       | None => status = "-"
       | Some e =>
           exists w' active,
             fst (fst (h _ (GetServiceStatus e (meta.ServiceName ins)) w'))
             = active
             /\ status = command.serviceState "-" active
       end.
Proof.
  intros Hstatus (status & deployDir & _ & Hrec & ->).
  exists status, deployDir. split; [reflexivity|].
  destruct Hrec as [w0 st w0' Hs Hne|w0 w0' Hs He|w0 w0' e active err w0'' Hs He Hq].
  - specialize (Hstatus w0). rewrite Hs in Hstatus. simpl in Hstatus.
    contradiction.
  - rewrite He. reflexivity.
  - rewrite He. exists w0', active. rewrite Hq. split; reflexivity.
Qed.

(** C3, as the code has it.  For an instance shown whose PD status is
    ["-"], whose host has an executor and whose service-status answer,
    trimmed and split at single spaces, has more than two pieces, the
    status in its row is the second piece, with ["active"] shown as
    ["Up"]; so an answer like ["Active: active (running) since ..."]
    shows ["Up"]. *)
Theorem displayClusterTopology_live_status (ins : meta.Instance)
  (e : Executor) (active p0 p1 p2 : string) (rest : list string) :
  SortContract (sort_Slice L) ->
  outcome r = Returned None ->
  In ins shownInstances ->
  (forall w', fst (h _ (InstanceStatus ins (meta.GetPDList topo)) w') = "-") ->
  GetExecutor ctx (meta.GetHost ins) = Some e ->
  (forall w',
      fst (fst (h _ (GetServiceStatus e (meta.ServiceName ins)) w'))
      = active) ->
  GoStrings.Split (GoStrings.TrimSpace active) " " = p0 :: p1 :: p2 :: rest ->
  exists rows dataDir deployDir,
    last (trace r) = Some (Ev (PrintTable (command.header :: rows) true) tt)
    /\ In (command.tableRow L ins
             (if String.eqb p1 "active" then "Up" else p1)
             dataDir deployDir) rows
    /\ (p1 = "active" ->
        In (command.tableRow L ins "Up" dataDir deployDir) rows).
Proof.
  intros Hsort Hret Hin Hstatus He Hlive Hparts.
  destruct displayClusterTopology_outcome
    as [(_ & _ & rows0 & Hrows & Hlast)|(Hout & _)];
    [|rewrite Hout in Hret; discriminate].
  destruct (Forall2_In_l _ _ _ _ Hrows Hin) as (row & Hrow & HrowOf).
  destruct (unresolved_row ins row Hstatus HrowOf)
    as (status & deployDir & -> & Hst).
  rewrite He in Hst. destruct Hst as (w' & active' & Hact & ->).
  rewrite Hlive in Hact. subst active'.
  assert (Hstate : command.serviceState "-" active
                   = if String.eqb p1 "active" then "Up" else p1).
  { unfold command.serviceState. rewrite Hparts. reflexivity. }
  rewrite Hstate in Hrow.
  assert (Hprinted : In (command.tableRow L ins
                           (if String.eqb p1 "active" then "Up" else p1)
                           (default "-" (meta.UsedDirs ins !! 1)) deployDir)
                       (sort_Slice L command.less rows0)).
  { eapply Permutation_in; [|exact Hrow].
    symmetry. apply (sort_perm _ Hsort). }
  exists (sort_Slice L command.less rows0),
    (default "-" (meta.UsedDirs ins !! 1)), deployDir.
  split; [exact Hlast|]. split; [exact Hprinted|].
  intros ->. exact Hprinted.
Qed.

(** C4.  For an instance shown whose PD status is ["-"], when the host
    has no executor, or the service-status answer (with whatever error)
    has no more than two pieces, the display hands back no error; and
    when every instance shown reports a directory it prints its table,
    with ["-"] as the status in the row of that instance, and returns
    nil. *)
Theorem displayClusterTopology_status_query_fails (ins : meta.Instance) :
  SortContract (sort_Slice L) ->
  In ins shownInstances ->
  (forall w', fst (h _ (InstanceStatus ins (meta.GetPDList topo)) w') = "-") ->
  (GetExecutor ctx (meta.GetHost ins) = None
   \/ exists e,
       GetExecutor ctx (meta.GetHost ins) = Some e
       /\ forall w',
           length (GoStrings.Split
                     (GoStrings.TrimSpace
                        (fst (fst (h _ (GetServiceStatus e
                                          (meta.ServiceName ins)) w'))))
                     " ") <= 2) ->
  (forall err, outcome r <> Returned (Some err))
  /\ command.formatInstanceStatus L "-" = "-"
  /\ (Forall (fun i => meta.UsedDirs i <> []) shownInstances ->
      outcome r = Returned None
      /\ exists rows dataDir deployDir,
          last (trace r)
          = Some (Ev (PrintTable (command.header :: rows) true) tt)
          /\ In (command.tableRow L ins "-" dataDir deployDir) rows).
Proof.
  intros Hsort Hin Hstatus Hfail.
  split.
  { intros err.
    destruct displayClusterTopology_outcome as [(Hout & _)|(Hout & _)];
      rewrite Hout; discriminate. }
  split; [reflexivity|]. intros Hall.
  destruct displayClusterTopology_outcome
    as [(Hout & _ & rows0 & Hrows & Hlast)|(_ & Hex)].
  2: { apply Exists_exists in Hex as (i & Hi & Hnil).
       rewrite Forall_forall in Hall. destruct (Hall i Hi Hnil). }
  split; [exact Hout|].
  destruct (Forall2_In_l _ _ _ _ Hrows Hin) as (row & Hrow & HrowOf).
  destruct (unresolved_row ins row Hstatus HrowOf)
    as (status & deployDir & -> & Hst).
  assert (Hdash : status = "-").
  { destruct Hfail as [Hnone|(e & Hsome & Hshort)].
    - rewrite Hnone in Hst. exact Hst.
    - rewrite Hsome in Hst. destruct Hst as (w' & active & Hact & ->).
      specialize (Hshort w'). rewrite Hact in Hshort.
      unfold command.serviceState.
      destruct (Nat.ltb_spec 2
                  (length (GoStrings.Split (GoStrings.TrimSpace active) " ")));
        [lia|reflexivity]. }
  subst status.
  exists (sort_Slice L command.less rows0),
    (default "-" (meta.UsedDirs ins !! 1)), deployDir.
  split; [exact Hlast|].
  eapply Permutation_in; [|exact Hrow]. symmetry. apply (sort_perm _ Hsort).
Qed.

End DisplayRun.

(** C10.  The service-status answer is trimmed and split at every single
    space byte and nowhere else; a status is taken only when that gives
    more than two pieces, and then it is the second piece (with ["active"]
    shown as ["Up"]).  With two pieces or fewer, as for ["Active: active"],
    the status stays ["-"]; and two spaces in a row give an empty piece, so
    the status taken can be the empty string. *)
Theorem displayInstance_splits_at_single_spaces (L : Lib) (W : Type)
  (h : Handler W) (ctx : Context) (pdList : list string)
  (filterRoles filterNodes : gset string) (t : list (list string))
  (ins : meta.Instance) (w w1 w2 : W) (e : Executor) (active : string)
  (err : option error) (d0 : string) (ds : list string) :
  shown filterRoles filterNodes ins = true ->
  meta.UsedDirs ins = d0 :: ds ->
  h _ (InstanceStatus ins pdList) w = ("-", w1) ->
  GetExecutor ctx (meta.GetHost ins) = Some e ->
  h _ (GetServiceStatus e (meta.ServiceName ins)) w1 = (active, err, w2) ->
  let parts := GoStrings.Split (GoStrings.TrimSpace active) " " in
  exists status,
    run h (command.displayInstance L ctx pdList filterRoles filterNodes t ins) w
    = (Returned (t ++ [command.tableRow L ins status
                         (default "-" (ds !! 0)) d0]),
       w2,
       [Ev (InstanceStatus ins pdList) "-";
        Ev (GetServiceStatus e (meta.ServiceName ins)) (active, err)])
    /\ String.concat " " parts = GoStrings.TrimSpace active
    /\ length parts
       = S (count_occ ascii_dec
              (list_ascii_of_string (GoStrings.TrimSpace active)) " "%char)
    /\ Forall (fun p => ~ In " "%char (list_ascii_of_string p)) parts
    /\ (2 < length parts ->
        status = if String.eqb (nth 1 parts "") "active" then "Up"
                 else nth 1 parts "")
    /\ (length parts <= 2 -> status = "-")
    /\ command.serviceState "-" "Active: active" = "-"
    /\ GoStrings.Split (GoStrings.TrimSpace "Active:  failed (Result: exit-code)") " "
       = ["Active:"; ""; "failed"; "(Result:"; "exit-code)"]
    /\ command.serviceState "-" "Active:  failed (Result: exit-code)" = "".
Proof.
  intros Hshown Hdirs Hs He Hq parts.
  exists (command.serviceState "-" active). split.
  - unfold command.displayInstance. unfold shown in Hshown.
    apply andb_true_iff in Hshown as [Hr Hn].
    apply negb_true_iff in Hr, Hn. rewrite Hr, Hn, Hdirs.
    destruct ds as [|d1 ds]; simpl; rewrite Hs; simpl; rewrite He; simpl;
      rewrite Hq; reflexivity.
  - split; [apply Split_concat|]. split; [apply Split_length|].
    split; [apply Split_pieces|].
    unfold command.serviceState. fold parts.
    split; [|split; [|repeat split]].
    + intros Hlen. apply Nat.ltb_lt in Hlen. rewrite Hlen. reflexivity.
    + intros Hlen. destruct (Nat.ltb_spec 2 (length parts)); [lia|reflexivity].
Qed.

(** ** The display on the small cluster *)

(** With an instance that reports no directory the display panics; without
    it the display returns. *)
Lemma displayClusterTopology_indexes_first_dir_witness :
  outcome (run (Demo.handler Demo.quiet)
             (command.displayClusterTopology Demo.lib Demo.opt)
             (Demo.start [Demo.bare]))
  = Panicked (IndexOutOfRange 0 0)
  /\ outcome (run (Demo.handler Demo.quiet)
                (command.displayClusterTopology Demo.lib Demo.opt)
                (Demo.start []))
     = Returned None.
Proof.
  split.
  - refine (proj1 (proj2 (displayClusterTopology_indexes_first_dir
                            Demo.lib _ (Demo.handler Demo.quiet) Demo.opt
                            (Demo.clusterMeta [Demo.bare]) Demo.keyedCtx
                            (Demo.connect Demo.allHosts Demo.keyedCtx)
                            (Demo.start [Demo.bare]) (Demo.start [Demo.bare])
                            (Demo.start [Demo.bare]) (Demo.start [Demo.bare])
                            eq_refl eq_refl eq_refl))
              Demo.bare _ eq_refl).
    vm_compute. tauto.
  - refine (proj1 (displayClusterTopology_indexes_first_dir
                     Demo.lib _ (Demo.handler Demo.quiet) Demo.opt
                     (Demo.clusterMeta []) Demo.keyedCtx
                     (Demo.connect Demo.allHosts Demo.keyedCtx)
                     (Demo.start []) (Demo.start []) (Demo.start [])
                     (Demo.start []) eq_refl eq_refl eq_refl) _).
    vm_compute. repeat constructor; discriminate.
Defined.

(** The TiDB server has a deploy directory only: its row shows ["-"] as
    data directory. *)
Lemma displayClusterTopology_dir_columns_witness :
  exists rows status,
    last (trace (run (Demo.handler Demo.quiet)
                   (command.displayClusterTopology Demo.lib Demo.opt)
                   (Demo.start [])))
    = Some (Ev (PrintTable (command.header :: rows) true) tt)
    /\ In (command.tableRow Demo.lib Demo.tidb1 status "-" "/deploy/tidb-4000")
         rows.
Proof.
  destruct (displayClusterTopology_dir_columns
              Demo.lib _ (Demo.handler Demo.quiet) Demo.opt
              (Demo.clusterMeta []) Demo.keyedCtx
              (Demo.connect Demo.allHosts Demo.keyedCtx)
              (Demo.start []) (Demo.start []) (Demo.start []) (Demo.start [])
              eq_refl eq_refl eq_refl insertionSort_contract eq_refl)
    as (_ & _ & rows & Hlast & Hshown & _).
  assert (Hin : In Demo.tidb1
                  (List.filter
                     (shown (list_to_set (command.filterRole Demo.opt))
                        (list_to_set (command.filterNode Demo.opt)))
                     (instances (meta.Topology (Demo.clusterMeta [])))))
    by (vm_compute; tauto).
  destruct (Hshown Demo.tidb1 Hin)
    as (status & dataDir & deployDir & Hrow & Hd0 & _ & Hshort).
  exists rows, status. split; [exact Hlast|].
  injection Hd0 as <-. rewrite (Hshort (le_n 1)) in Hrow. exact Hrow.
Defined.

(** The rows of the small cluster come out in order. *)
Lemma displayClusterTopology_sorted_witness :
  exists rows,
    last (trace (run (Demo.handler Demo.quiet)
                   (command.displayClusterTopology Demo.lib Demo.opt)
                   (Demo.start [])))
    = Some (Ev (PrintTable (command.header :: rows) true) tt)
    /\ StronglySorted byRoleHostPorts rows
    /\ length rows = 4.
Proof.
  destruct (displayClusterTopology_sorted
              Demo.lib _ (Demo.handler Demo.quiet) Demo.opt
              (Demo.clusterMeta []) Demo.keyedCtx
              (Demo.connect Demo.allHosts Demo.keyedCtx)
              (Demo.start []) (Demo.start []) (Demo.start []) (Demo.start [])
              eq_refl eq_refl eq_refl insertionSort_contract)
    as [Hrun _].
  destruct (Hrun eq_refl) as (rows & rows0 & Hlast & Hperm & Hrows & Hsorted).
  exists rows. split; [exact Hlast|]. split; [exact Hsorted|].
  rewrite (Permutation_length Hperm), <- (Forall2_length _ _ _ Hrows).
  reflexivity.
Defined.

(** PD has no answer and systemd answers with its Active line: the row of
    the PD server shows ["Up"]. *)
Lemma displayClusterTopology_live_status_witness :
  exists rows dataDir deployDir,
    last (trace (run (Demo.handler
                        (Demo.unresolved Demo.allHosts (Demo.activeLine, None)))
                   (command.displayClusterTopology Demo.lib Demo.opt)
                   (Demo.start [])))
    = Some (Ev (PrintTable (command.header :: rows) true) tt)
    /\ In (command.tableRow Demo.lib Demo.pd1 "Up" dataDir deployDir) rows.
Proof.
  assert (Hin : In Demo.pd1
                  (List.filter
                     (shown (list_to_set (command.filterRole Demo.opt))
                        (list_to_set (command.filterNode Demo.opt)))
                     (instances (meta.Topology (Demo.clusterMeta [])))))
    by (vm_compute; tauto).
  destruct (displayClusterTopology_live_status
              Demo.lib _
              (Demo.handler (Demo.unresolved Demo.allHosts (Demo.activeLine, None)))
              Demo.opt (Demo.clusterMeta []) Demo.keyedCtx
              (Demo.connect Demo.allHosts Demo.keyedCtx)
              (Demo.start []) (Demo.start []) (Demo.start []) (Demo.start [])
              eq_refl eq_refl eq_refl
              Demo.pd1 (TiOpsExecutor "10.0.1.4") Demo.activeLine
              "Active:" "active" "(running)"
              ["since"; "Mon"; "2020-03-09"; "13:56:19"; "CST;"; "1"; "weeks";
               "3"; "days"; "ago"]
              insertionSort_contract eq_refl Hin
              (fun _ => eq_refl) eq_refl (fun _ => eq_refl) eq_refl)
    as (rows & dataDir & deployDir & Hlast & _ & Hup).
  exists rows, dataDir, deployDir. split; [exact Hlast|exact (Hup eq_refl)].
Defined.

(** PD has no answer and the systemd query comes back empty with an error:
    the display returns and the row of the PD server shows ["-"]. *)
Lemma displayClusterTopology_status_query_fails_witness :
  let r := run (Demo.handler
                  (Demo.unresolved Demo.allHosts
                     ("", Some (Errorf "ssh: connection timed out"))))
             (command.displayClusterTopology Demo.lib Demo.opt)
             (Demo.start []) in
  outcome r = Returned None
  /\ exists rows dataDir deployDir,
      last (trace r) = Some (Ev (PrintTable (command.header :: rows) true) tt)
      /\ In (command.tableRow Demo.lib Demo.pd1 "-" dataDir deployDir) rows.
Proof.
  intros r.
  assert (Hin : In Demo.pd1
                  (List.filter
                     (shown (list_to_set (command.filterRole Demo.opt))
                        (list_to_set (command.filterNode Demo.opt)))
                     (instances (meta.Topology (Demo.clusterMeta [])))))
    by (vm_compute; tauto).
  assert (Hall : Forall (fun i => meta.UsedDirs i <> [])
                   (List.filter
                      (shown (list_to_set (command.filterRole Demo.opt))
                         (list_to_set (command.filterNode Demo.opt)))
                      (instances (meta.Topology (Demo.clusterMeta [])))))
    by (vm_compute; repeat constructor; discriminate).
  destruct (displayClusterTopology_status_query_fails
              Demo.lib _
              (Demo.handler
                 (Demo.unresolved Demo.allHosts
                    ("", Some (Errorf "ssh: connection timed out"))))
              Demo.opt (Demo.clusterMeta []) Demo.keyedCtx
              (Demo.connect Demo.allHosts Demo.keyedCtx)
              (Demo.start []) (Demo.start []) (Demo.start []) (Demo.start [])
              eq_refl eq_refl eq_refl
              Demo.pd1 insertionSort_contract Hin (fun _ => eq_refl)
              (or_intror
                 (ex_intro _ (TiOpsExecutor "10.0.1.4")
                    (conj eq_refl (fun _ => le_S 1 1 (le_n 1))))))
    as (_ & _ & Hrows).
  exact (Hrows Hall).
Defined.

(** One pass of the loop body over the PD server with systemd's Active
    line. *)
Lemma displayInstance_splits_at_single_spaces_witness :
  exists status,
    run (Demo.handler (Demo.unresolved Demo.allHosts (Demo.activeLine, None)))
      (command.displayInstance Demo.lib
         (Demo.connect Demo.allHosts Demo.keyedCtx) ["10.0.1.4:2379"] ∅ ∅
         [command.header] Demo.pd1)
      (Demo.start [])
    = (Returned [command.header;
                 command.tableRow Demo.lib Demo.pd1 status
                   "/data/pd-2379" "/deploy/pd-2379"],
       Demo.start [],
       [Ev (InstanceStatus Demo.pd1 ["10.0.1.4:2379"]) "-";
        Ev (GetServiceStatus (TiOpsExecutor "10.0.1.4") "pd-2379.service")
          (Demo.activeLine, None)])
    /\ status = "Up".
Proof.
  assert (Hshown : shown (∅ : gset string) (∅ : gset string) Demo.pd1 = true)
    by (vm_compute; reflexivity).
  destruct (displayInstance_splits_at_single_spaces
              Demo.lib _
              (Demo.handler (Demo.unresolved Demo.allHosts (Demo.activeLine, None)))
              (Demo.connect Demo.allHosts Demo.keyedCtx) ["10.0.1.4:2379"] ∅ ∅
              [command.header] Demo.pd1
              (Demo.start []) (Demo.start []) (Demo.start [])
              (TiOpsExecutor "10.0.1.4") Demo.activeLine None
              "/deploy/pd-2379" ["/data/pd-2379"]
              Hshown eq_refl eq_refl eq_refl eq_refl)
    as (status & Hrun & _ & _ & _ & Hlong & _).
  exists status. split; [exact Hrun|]. apply Hlong. vm_compute. lia.
Defined.

(** C3 as stated fails.  On the text of the specification's example the
    status shown is the unit name, not ["Up"]; with two spaces before the
    state word the second white-space-separated token is ["active"] and the
    status shown is empty; with two tokens only it is ["active"] again and
    the status shown stays ["-"]. *)
Lemma displayClusterTopology_second_token_counterexample :
  let shownFor active :=
    statusColumn
      (trace (run (Demo.handler (Demo.unresolved Demo.allHosts (active, None)))
                (command.displayClusterTopology Demo.lib Demo.opt)
                (Demo.start []))) in
  command.formatInstanceStatus Demo.lib "Up" = "Up"
  /\ shownFor Demo.bulletLine
     = [Some "foo.service"; Some "foo.service"; Some "foo.service";
        Some "foo.service"]
  /\ shownFor Demo.bulletLine <> [Some "Up"; Some "Up"; Some "Up"; Some "Up"]
  /\ nth 1 (whitespaceTokens "Active:  active (running)") "" = "active"
  /\ shownFor "Active:  active (running)" = [Some ""; Some ""; Some ""; Some ""]
  /\ nth 1 (whitespaceTokens "Active: active") "" = "active"
  /\ shownFor "Active: active" = [Some "-"; Some "-"; Some "-"; Some "-"].
Proof. vm_compute. repeat split. discriminate. Qed.

(** * More of the two files *)

(** ** The tombstone step, call by call *)

Lemma destroyTombstoneIfNeed_trace (L : Lib) (W : Type) (h : Handler W)
  (name : string) (metadata : meta.ClusterMeta) (w : W) :
  TombstoneTrace L name metadata
    (outcome (run h (command.destroyTombstoneIfNeed L name metadata) w))
    (trace (run h (command.destroyTombstoneIfNeed L name metadata) w)).
Proof.
  unfold command.destroyTombstoneIfNeed, outcome, trace. simpl.
  answer h. destruct x; simpl; [|constructor].
  answer h. destruct x as [c1 [e|]]; simpl; [constructor|].
  answer h. destruct x as [c2 [e|]]; simpl; [constructor|].
  answer h. destruct x as [topo1 [nodes [e|]]]; simpl; [constructor|].
  destruct nodes as [|n nodes]; simpl; [constructor|].
  answer h. destruct x. answer h. destruct x as [topo2 [nodes2 [e|]]]; simpl;
    [constructor|].
  answer h. destruct x. answer h. constructor.
Qed.

Ltac tombstone_cases L h name metadata w :=
  let H := fresh "Hrun" in
  let o := fresh "o" in
  let tr := fresh "tr" in
  pose proof (destroyTombstoneIfNeed_trace L _ h name metadata w) as H;
  remember (outcome (run h (command.destroyTombstoneIfNeed L name metadata) w))
    as o;
  remember (trace (run h (command.destroyTombstoneIfNeed L name metadata) w))
    as tr;
  destruct H.

(** X1.  A destructive [DestroyTombstone] call is made only after a
    discovery call that came back without error and with at least one node;
    it is made with the context the SSH set-up handed back and with the
    topology as the discovery left it. *)
Theorem destroyTombstoneIfNeed_destroys_after_discovery (L : Lib)
  (W : Type) (h : Handler W) (name : string) (metadata : meta.ClusterMeta)
  (w : W) (i : nat) (ev : Event) (c : Context)
  (t : meta.TopologySpecification)
  (x : meta.TopologySpecification * (list string * option error)) :
  trace (run h (command.destroyTombstoneIfNeed L name metadata) w) !! i
  = Some ev ->
  destroyCall ev = Some (c, t, false, x) ->
  exists j k evd evs n nodes,
    k < j /\ j < i
    /\ trace (run h (command.destroyTombstoneIfNeed L name metadata) w) !! j
       = Some evd
    /\ destroyCall evd
       = Some (c, meta.Topology metadata, true, (t, (n :: nodes, None)))
    /\ trace (run h (command.destroyTombstoneIfNeed L name metadata) w) !! k
       = Some evs
    /\ connectedContext evs = Some c.
Proof.
  intros Hi Hd.
  tombstone_cases L h name metadata w; at_index i Hi; simpl in Hd;
    try discriminate Hd; injection Hd as <- <- <-.
  - exists 3, 2. do 4 eexists. repeat split; try reflexivity; lia.
  - exists 3, 2. do 4 eexists. repeat split; try reflexivity; lia.
Qed.

(** X2.  The save is the last call of the run and its result is the
    function's result.  It is made under the cluster name given, with the
    user and version of the metadata given and the topology as the
    destructive call, which came back without error, left it. *)
Theorem destroyTombstoneIfNeed_saves_destroyed_topology (L : Lib)
  (W : Type) (h : Handler W) (name : string) (metadata : meta.ClusterMeta)
  (w : W) (i : nat) (ev : Event) (n : string) (m : meta.ClusterMeta)
  (res : option error) :
  trace (run h (command.destroyTombstoneIfNeed L name metadata) w) !! i
  = Some ev ->
  saved ev = Some (n, m, res) ->
  n = name
  /\ meta.User m = meta.User metadata
  /\ meta.Version m = meta.Version metadata
  /\ outcome (run h (command.destroyTombstoneIfNeed L name metadata) w)
     = Returned res
  /\ length (trace (run h (command.destroyTombstoneIfNeed L name metadata) w))
     = S i
  /\ exists j evd c t nodes,
      j < i
      /\ trace (run h (command.destroyTombstoneIfNeed L name metadata) w) !! j
         = Some evd
      /\ destroyCall evd = Some (c, t, false, (meta.Topology m, (nodes, None))).
Proof.
  intros Hi Hs.
  tombstone_cases L h name metadata w; at_index i Hi; simpl in Hs;
    try discriminate Hs; injection Hs as <- <- <-.
  repeat split; try reflexivity.
  exists 5. do 4 eexists. repeat split; try reflexivity; lia.
Qed.

(** X3.  When the key set, the SSH set-up or the discovery comes back with
    an error, that call is the last of the run, the function hands the
    error back with a stack, and the run has neither a destructive call nor
    a save. *)
Theorem destroyTombstoneIfNeed_setup_error (L : Lib) (W : Type)
  (h : Handler W) (name : string) (metadata : meta.ClusterMeta) (w : W)
  (i : nat) (ev : Event) (e : error) :
  trace (run h (command.destroyTombstoneIfNeed L name metadata) w) !! i
  = Some ev ->
  setupError ev = Some e ->
  outcome (run h (command.destroyTombstoneIfNeed L name metadata) w)
  = Returned (Some (AddStack e))
  /\ length (trace (run h (command.destroyTombstoneIfNeed L name metadata) w))
     = S i
  /\ Forall (fun ev' => isSave ev' = false /\ isDestroy false ev' = false)
       (trace (run h (command.destroyTombstoneIfNeed L name metadata) w)).
Proof.
  intros Hi He.
  tombstone_cases L h name metadata w; at_index i Hi; simpl in He;
    try discriminate He; injection He as <-;
    repeat split; repeat constructor.
Qed.

(** X4.  The function never panics and makes at most eight calls, the
    first of which is the need check; when that answers false nothing else
    is called and nil is handed back.  No run has more than one save, more
    than one destructive call or more than one discovery. *)
Theorem destroyTombstoneIfNeed_calls (L : Lib) (W : Type) (h : Handler W)
  (name : string) (metadata : meta.ClusterMeta) (w : W) :
  let r := run h (command.destroyTombstoneIfNeed L name metadata) w in
  (exists res, outcome r = Returned res)
  /\ length (trace r) <= 8
  /\ (exists ev b,
         trace r !! 0 = Some ev /\ needChecked ev = Some b
         /\ (b = false -> outcome r = Returned None /\ length (trace r) = 1))
  /\ length (List.filter isSave (trace r)) <= 1
  /\ length (List.filter (isDestroy false) (trace r)) <= 1
  /\ length (List.filter (isDestroy true) (trace r)) <= 1.
Proof.
  intros r. unfold r.
  tombstone_cases L h name metadata w; simpl;
    (split; [eexists; reflexivity|]); (split; [lia|]);
    (split; [do 2 eexists; split; [reflexivity|];
             split; [reflexivity|];
             try (intros Hb; discriminate Hb);
             intros _; split; reflexivity|]);
    repeat split; lia.
Qed.

(** Removing the tombstone store on the small cluster. *)
Lemma destroyTombstoneIfNeed_destroys_after_discovery_witness :
  exists j evd n nodes,
    j < 5
    /\ trace (run (Demo.handler (Demo.retiring None))
                (command.destroyTombstoneIfNeed Demo.lib "prod"
                   (Demo.clusterMeta []))
                (Demo.start [])) !! j = Some evd
    /\ destroyCall evd
       = Some (Demo.connect Demo.allHosts Demo.keyedCtx, Demo.topo [], true,
               (Demo.topo [], (n :: nodes, None))).
Proof.
  destruct (destroyTombstoneIfNeed_destroys_after_discovery Demo.lib _
              (Demo.handler (Demo.retiring None)) "prod" (Demo.clusterMeta [])
              (Demo.start []) 5 _
              (Demo.connect Demo.allHosts Demo.keyedCtx) (Demo.topo [])
              (Demo.dropNodes ["10.0.1.6:20160"] (Demo.topo []),
               (["10.0.1.6:20160"], None))
              eq_refl eq_refl)
    as (j & k & evd & evs & n & nodes & _ & Hj & Hevd & Hd & _).
  exists j, evd, n, nodes. split; [exact Hj|]. split; [exact Hevd|exact Hd].
Defined.

Lemma destroyTombstoneIfNeed_saves_destroyed_topology_witness :
  outcome (run (Demo.handler (Demo.retiring None))
             (command.destroyTombstoneIfNeed Demo.lib "prod"
                (Demo.clusterMeta []))
             (Demo.start []))
  = Returned None
  /\ length (trace (run (Demo.handler (Demo.retiring None))
                      (command.destroyTombstoneIfNeed Demo.lib "prod"
                         (Demo.clusterMeta []))
                      (Demo.start [])))
     = 8.
Proof.
  destruct (destroyTombstoneIfNeed_saves_destroyed_topology Demo.lib _
              (Demo.handler (Demo.retiring None)) "prod" (Demo.clusterMeta [])
              (Demo.start []) 7 _ "prod"
              {| meta.User := "tidb"; meta.Version := "v4.0.0-beta";
                 meta.Topology :=
                   Demo.dropNodes ["10.0.1.6:20160"] (Demo.topo []) |}
              None eq_refl eq_refl)
    as (_ & _ & _ & Hout & Hlen & _).
  split; [exact Hout|exact Hlen].
Defined.

(** The SSH set-up fails on the small cluster. *)
Lemma destroyTombstoneIfNeed_setup_error_witness :
  outcome (run (Demo.handler DemoCmd.unreachable)
             (command.destroyTombstoneIfNeed Demo.lib "prod"
                (Demo.clusterMeta []))
             (Demo.start []))
  = Returned (Some (AddStack (Errorf "dial tcp: i/o timeout"))).
Proof.
  exact (proj1 (destroyTombstoneIfNeed_setup_error Demo.lib _
                  (Demo.handler DemoCmd.unreachable) "prod"
                  (Demo.clusterMeta []) (Demo.start []) 2 _
                  (Errorf "dial tcp: i/o timeout") eq_refl eq_refl)).
Defined.

(** ** The InitConfig task, call by call *)

(** X5.  The remote initialisation is the second call of Execute, made
    only after the cache directory was created (mode 0755) without error,
    with the executor registered for the host of the task's instance and
    with the task's own fields; what it hands back is what Execute hands
    back. *)
Theorem InitConfig_Execute_init_after_mkdir (c : InitConfig.t)
  (ctx : Context) (W : Type) (h : Handler W) (w : W) (i : nat) (ev : Event)
  (ins : meta.Instance) (e : Executor) (n v u : string)
  (p : meta.DirPaths) (res : option error) :
  trace (run h (InitConfig.Execute c ctx) w) !! i = Some ev ->
  initConfigCall ev = Some (ins, e, (n, v, u), p, res) ->
  i = 1
  /\ GetExecutor ctx (meta.GetHost (InitConfig.instance c)) = Some e
  /\ ins = InitConfig.instance c
  /\ n = InitConfig.clusterName c
  /\ v = InitConfig.clusterVersion c
  /\ u = InitConfig.deployUser c
  /\ p = InitConfig.paths c
  /\ outcome (run h (InitConfig.Execute c ctx) w) = Returned res
  /\ length (trace (run h (InitConfig.Execute c ctx) w)) = 2
  /\ exists evm,
      trace (run h (InitConfig.Execute c ctx) w) !! 0 = Some evm
      /\ mkdirCall evm
         = Some (meta.Cache (InitConfig.paths c), 493%Z, None).
Proof.
  unfold InitConfig.Execute.
  destruct (GetExecutor ctx (meta.GetHost (InitConfig.instance c)))
    as [e0|]; simpl; [|intros Hi; at_index i Hi].
  unfold outcome, trace.
  destruct (h _ (MkdirAll _ _) w) as [[err|] w1]; simpl.
  - intros Hi Hc. at_index i Hi. discriminate Hc.
  - destruct (h _ (InstanceInitConfig _ _ _ _ _ _) w1) as [res0 w2]. simpl.
    intros Hi Hc. at_index i Hi; simpl in Hc; [discriminate Hc|].
    injection Hc as <- <- <- <- <- <- <-.
    repeat split. eexists. split; reflexivity.
Qed.

(** X6.  When creating the cache directory fails, Execute hands that
    error back as it is and the directory call is the only call of the
    run: the instance's configuration is not initialised. *)
Theorem InitConfig_Execute_mkdir_fails (c : InitConfig.t) (ctx : Context)
  (W : Type) (h : Handler W) (w : W) (i : nat) (ev : Event)
  (path : string) (perm : Z) (err : error) :
  trace (run h (InitConfig.Execute c ctx) w) !! i = Some ev ->
  mkdirCall ev = Some (path, perm, Some err) ->
  outcome (run h (InitConfig.Execute c ctx) w) = Returned (Some err)
  /\ trace (run h (InitConfig.Execute c ctx) w) = [ev]
  /\ path = meta.Cache (InitConfig.paths c) /\ perm = 493%Z.
Proof.
  unfold InitConfig.Execute.
  destruct (GetExecutor ctx (meta.GetHost (InitConfig.instance c)))
    as [e0|]; simpl; [|intros Hi; at_index i Hi].
  unfold outcome, trace.
  destruct (h _ (MkdirAll _ _) w) as [[err0|] w1]; simpl.
  - intros Hi Hc. at_index i Hi. simpl in Hc. injection Hc as <- <- <-.
    repeat split.
  - destruct (h _ (InstanceInitConfig _ _ _ _ _ _) w1) as [res0 w2]. simpl.
    intros Hi Hc. at_index i Hi; simpl in Hc; discriminate Hc.
Qed.

Lemma InitConfig_Execute_init_after_mkdir_witness :
  outcome (run (Demo.handler Demo.quiet)
             (InitConfig.Execute DemoCmd.initTiKV
                (Demo.connect Demo.allHosts NewContext))
             (Demo.start []))
  = Returned None
  /\ GetExecutor (Demo.connect Demo.allHosts NewContext) "10.0.1.5"
     = Some (TiOpsExecutor "10.0.1.5").
Proof.
  destruct (InitConfig_Execute_init_after_mkdir DemoCmd.initTiKV
              (Demo.connect Demo.allHosts NewContext) _
              (Demo.handler Demo.quiet) (Demo.start []) 1 _
              Demo.tikv1 (TiOpsExecutor "10.0.1.5")
              "prod" "v4.0.0-beta" "tidb" (InitConfig.paths DemoCmd.initTiKV)
              None eq_refl eq_refl)
    as (_ & He & _ & _ & _ & _ & _ & Hout & _).
  split; [exact Hout|exact He].
Defined.

Lemma InitConfig_Execute_mkdir_fails_witness :
  outcome (run DemoCmd.fullDisk
             (InitConfig.Execute DemoCmd.initTiKV
                (Demo.connect Demo.allHosts NewContext)) tt)
  = Returned (Some (Errorf "mkdir: no space left on device")).
Proof.
  exact (proj1 (InitConfig_Execute_mkdir_fails DemoCmd.initTiKV
                  (Demo.connect Demo.allHosts NewContext) _
                  DemoCmd.fullDisk tt 0 _ "/tmp/tiup/cache" 493%Z
                  (Errorf "mkdir: no space left on device")
                  eq_refl eq_refl)).
Defined.

(** ** The colour of a status *)

Lemma lowerASCII_isASCII_ToLower (L : Lib) (s : string) :
  GoStrings.isASCII s = true -> command.ToLower L s = GoStrings.lowerASCII s.
Proof. intros H. unfold command.ToLower. rewrite H. reflexivity. Qed.

(** X7.  On ASCII statuses [formatInstanceStatus] is blind to case and
    keeps the text: two statuses that differ in case only are both handed
    back as they are, or both wrapped, as they are, in the same colour. *)
Theorem formatInstanceStatus_case_blind (L : Lib) (s s' : string) :
  GoStrings.isASCII s = true ->
  GoStrings.isASCII s' = true ->
  GoStrings.lowerASCII s = GoStrings.lowerASCII s' ->
  (command.formatInstanceStatus L s = s
   /\ command.formatInstanceStatus L s' = s')
  \/ exists c,
      command.formatInstanceStatus L s = colorString L c s
      /\ command.formatInstanceStatus L s' = colorString L c s'.
Proof.
  intros Hs Hs' Heq. unfold command.formatInstanceStatus.
  rewrite (lowerASCII_isASCII_ToLower L s Hs).
  rewrite (lowerASCII_isASCII_ToLower L s' Hs'). rewrite <- Heq.
  repeat match goal with
         | |- context [if ?b then _ else _] =>
             destruct b; [right; eexists; split; reflexivity|]
         end.
  left. split; reflexivity.
Qed.

Lemma formatInstanceStatus_case_blind_witness :
  exists c,
    command.formatInstanceStatus Demo.lib "TOMBSTONE"
    = colorString Demo.lib c "TOMBSTONE"
    /\ command.formatInstanceStatus Demo.lib "Tombstone"
       = colorString Demo.lib c "Tombstone".
Proof.
  destruct (formatInstanceStatus_case_blind Demo.lib "TOMBSTONE" "Tombstone"
              eq_refl eq_refl eq_refl) as [[_ _]|Hc].
  - exists FgYellow. split; reflexivity.
  - exact Hc.
Defined.

(** ** The comparison and the order of the rows *)

Lemma less_unordered_same_key (a b : list string) :
  command.less b a = false -> command.less a b = false -> key a = key b.
Proof.
  pose proof keyCompare_TotalCompare as T.
  rewrite !less_keyCompare. intros Hba Hab.
  rewrite (cmp_antisym _ T (key a) (key b)) in Hba.
  destruct (keyCompare (key a) (key b)) eqn:H1; try discriminate.
  apply (cmp_eq _ T). exact H1.
Qed.

(** X15.  The comparison of lines 206-215 is a strict order on the rows
    that looks at role, host and port string only: no row is less than
    itself, it never holds both ways, it is transitive, and two rows are
    unordered exactly when the three columns agree. *)
Theorem less_orders_by_key (a b c : list string) :
  command.less a a = false
  /\ (command.less a b = true -> command.less b a = false)
  /\ (command.less a b = true -> command.less b c = true ->
      command.less a c = true)
  /\ (command.less a b = false /\ command.less b a = false <-> key a = key b).
Proof.
  pose proof keyCompare_TotalCompare as T.
  rewrite !less_keyCompare. split; [|split; [|split]].
  - rewrite (cmp_refl _ T). reflexivity.
  - rewrite (cmp_antisym _ T (key a) (key b)).
    destruct (keyCompare (key a) (key b)); simpl; congruence.
  - intros Hab Hbc.
    destruct (keyCompare (key a) (key b)) eqn:H1; try discriminate.
    destruct (keyCompare (key b) (key c)) eqn:H2; try discriminate.
    rewrite (cmp_lt_trans _ T _ _ _ H1 H2). reflexivity.
  - split.
    + intros [Hab Hba]. rewrite (cmp_antisym _ T (key a) (key b)) in Hba.
      destruct (keyCompare (key a) (key b)) eqn:H1; try discriminate.
      apply (cmp_eq _ T). exact H1.
    + intros ->. rewrite (cmp_refl _ T). split; reflexivity.
Qed.

Lemma NoDup_map_inj {A B : Type} (f : A -> B) (l : list A) (x y : A) :
  NoDup (map f l) -> In x l -> In y l -> f x = f y -> x = y.
Proof.
  induction l as [|a l IH]; intros Hnd Hx Hy Hf; [destruct Hx|].
  simpl in Hnd. apply NoDup_cons in Hnd as [Hnotin Hnd].
  rewrite list_elem_of_In in Hnotin.
  destruct Hx as [->|Hx], Hy as [->|Hy]; try reflexivity.
  - exfalso. apply Hnotin. rewrite Hf. apply in_map. exact Hy.
  - exfalso. apply Hnotin. rewrite <- Hf. apply in_map. exact Hx.
  - apply IH; assumption.
Qed.

(** X14.  When no two rows agree in role, host and port string, the
    sorted table does not depend on the order in which the rows were
    appended, nor on which [sort.Slice] does the sorting. *)
Theorem sortBody_order_independent (L L' : Lib)
  (hd : list string) (rows rows' : list (list string)) :
  SortContract (sort_Slice L) ->
  SortContract (sort_Slice L') ->
  Permutation rows rows' ->
  NoDup (map key rows) ->
  command.sortBody L (hd :: rows) = command.sortBody L' (hd :: rows').
Proof.
  intros HL HL' Hperm Hnd. unfold command.sortBody. do 2 f_equal.
  apply (StronglySorted_perm_unique (fun a b => command.less b a = false)).
  - intros x y Hx Hy Hxy Hyx.
    apply (Permutation_in _ (sort_perm _ HL command.less rows)) in Hx, Hy.
    apply (NoDup_map_inj key rows x y Hnd Hx Hy).
    apply (less_unordered_same_key x y); assumption.
  - apply (sort_sorted _ HL). exact less_StrictWeak.
  - apply (sort_sorted _ HL'). exact less_StrictWeak.
  - rewrite (sort_perm _ HL), (sort_perm _ HL'). exact Hperm.
Qed.

Lemma sortBody_order_independent_witness :
  command.sortBody Demo.lib
    [ command.header;
      ["b"; "tikv"; "10.0.1.6"; "20160/20180"; "Up"; "/data"; "/deploy"];
      ["a"; "pd"; "10.0.1.4"; "2379/2380"; "Healthy"; "/data"; "/deploy"] ]
  = command.sortBody Demo.lib
      [ command.header;
        ["a"; "pd"; "10.0.1.4"; "2379/2380"; "Healthy"; "/data"; "/deploy"];
        ["b"; "tikv"; "10.0.1.6"; "20160/20180"; "Up"; "/data"; "/deploy"] ].
Proof.
  apply (sortBody_order_independent Demo.lib Demo.lib).
  - exact insertionSort_contract.
  - exact insertionSort_contract.
  - apply perm_swap.
  - simpl. constructor.
    + intros H. apply list_elem_of_In in H. destruct H as [H|[]].
      discriminate H.
    + constructor; [intros H; apply list_elem_of_In in H; destruct H
                   |constructor].
Defined.

(** ** The state word of a service-status answer *)

Lemma nth_In_lt {A : Type} (l : list A) (i : nat) (d : A) :
  i < length l -> In (nth i l d) l.
Proof. apply nth_In. Qed.

(** X16.  Whatever systemd answers, the status lines 183-189 arrive at
    from ["-"] holds no space and is never ["active"]: that word is always
    shown as ["Up"]. *)
Theorem serviceState_word (active : string) :
  command.serviceState "-" active <> "active"
  /\ ~ In " "%char (list_ascii_of_string (command.serviceState "-" active)).
Proof.
  unfold command.serviceState.
  set (parts := GoStrings.Split (GoStrings.TrimSpace active) " ").
  destruct (Nat.ltb_spec 2 (length parts)) as [Hlen|Hlen].
  - destruct (String.eqb (nth 1 parts "") "active") eqn:Heq.
    + split; [discriminate|]. simpl. intros [H|[H|[]]]; discriminate H.
    + split; [apply String.eqb_neq; exact Heq|].
      pose proof (Split_pieces (GoStrings.TrimSpace active) " ") as Hp.
      fold parts in Hp. rewrite Forall_forall in Hp.
      apply Hp. apply list_elem_of_In. apply nth_In_lt. lia.
  - split; [discriminate|]. simpl. intros [H|[]]. discriminate H.
Qed.

(** ** The calls of the display loop *)

Lemma ServiceAfterDash_app (ctx : Context) (t1 t2 : list Event) :
  ServiceAfterDash ctx t1 -> ServiceAfterDash ctx t2 ->
  ServiceAfterDash ctx (t1 ++ t2).
Proof.
  intros H1 H2 i ev e n Hi Hs.
  destruct (Nat.lt_ge_cases i (length t1)) as [Hlt|Hge].
  - rewrite lookup_app_l in Hi by exact Hlt.
    destruct (H1 i ev e n Hi Hs) as (i' & evp & ins & pdl & -> & Hp & Hrest).
    exists i', evp, ins, pdl. split; [reflexivity|].
    split; [|exact Hrest]. rewrite lookup_app_l by lia. exact Hp.
  - rewrite lookup_app_r in Hi by exact Hge.
    destruct (H2 _ ev e n Hi Hs) as (i' & evp & ins & pdl & Heq & Hp & Hrest).
    exists (length t1 + i'), evp, ins, pdl. split; [lia|].
    split; [|exact Hrest]. rewrite lookup_app_r by lia.
    replace (length t1 + i' - length t1) with i' by lia. exact Hp.
Qed.

Lemma ServiceAfterDash_quiet (ctx : Context) (tr : list Event) :
  Forall (fun ev => serviceQueried ev = None) tr -> ServiceAfterDash ctx tr.
Proof.
  intros Hq i ev e n Hi Hs. rewrite Forall_forall in Hq.
  apply list_elem_of_lookup_2 in Hi. rewrite (Hq ev Hi) in Hs. discriminate.
Qed.

Lemma PassCalls_facts (ctx : Context) (pdList : list string)
  (ins : meta.Instance) (tr : list Event) :
  PassCalls ctx pdList ins tr ->
  omap queried tr = [ins]
  /\ Forall (fun ev => isStatusCall ev = true) tr
  /\ ServiceAfterDash ctx tr.
Proof.
  intros [st Hst|Hnone|e active err Hsome].
  - split; [reflexivity|]. split; [repeat constructor|].
    apply ServiceAfterDash_quiet. repeat constructor.
  - split; [reflexivity|]. split; [repeat constructor|].
    apply ServiceAfterDash_quiet. repeat constructor.
  - split; [reflexivity|]. split; [repeat constructor|].
    intros i ev e' n Hi Hs. at_index i Hi; simpl in Hs; [discriminate Hs|].
    injection Hs as <- <-.
    exists 0. do 3 eexists. split; [reflexivity|]. split; [reflexivity|].
    split; [reflexivity|]. split; [exact Hsome|reflexivity].
Qed.

Lemma PassCalls_concat (ctx : Context) (pdList : list string)
  (l : list meta.Instance) (chunks : list (list Event)) :
  Forall2 (PassCalls ctx pdList) l chunks ->
  omap queried (concat chunks) = l
  /\ Forall (fun ev => isStatusCall ev = true) (concat chunks)
  /\ ServiceAfterDash ctx (concat chunks).
Proof.
  induction 1 as [|ins tr l chunks Hone _ IH]; simpl.
  - split; [reflexivity|]. split; [constructor|].
    apply ServiceAfterDash_quiet. constructor.
  - destruct (PassCalls_facts _ _ _ _ Hone) as (Hq & Hf & Hs).
    destruct IH as (IHq & IHf & IHs).
    split; [rewrite omap_app, Hq, IHq; reflexivity|].
    split; [apply Forall_app; split; assumption|].
    apply ServiceAfterDash_app; assumption.
Qed.

Section DisplayLoopCalls.

Variable L : Lib.
Variable W : Type.
Variable h : Handler W.
Variable ctx : Context.
Variable pdList : list string.
Variable filterRoles filterNodes : gset string.

Local Abbreviation body :=
  (command.displayInstance L ctx pdList filterRoles filterNodes).

Lemma run_displayInstance_calls (t : list (list string))
  (ins : meta.Instance) (w : W) :
  if shown filterRoles filterNodes ins then
    match meta.UsedDirs ins with
    | [] => trace (run h (body t ins) w) = []
    | _ :: _ => PassCalls ctx pdList ins (trace (run h (body t ins) w))
    end
  else trace (run h (body t ins) w) = [].
Proof.
  unfold command.displayInstance, shown, trace.
  destruct ((0 <? size filterRoles)
            && negb (bool_decide (meta.Role ins ∈ filterRoles))); simpl;
    [reflexivity|].
  destruct ((0 <? size filterNodes)
            && negb (bool_decide (meta.ID ins ∈ filterNodes))); simpl;
    [reflexivity|].
  destruct (meta.UsedDirs ins) as [|d0 ds]; simpl; [reflexivity|].
  destruct ds as [|d1 ds]; simpl.
  all: destruct (h _ (InstanceStatus ins pdList) w) as [s0 w1]; simpl;
    destruct (String.eqb s0 "-") eqn:Hdash; simpl;
    [ apply String.eqb_eq in Hdash; subst s0;
      destruct (GetExecutor ctx (meta.GetHost ins)) as [e|] eqn:He; simpl;
      [ destruct (h _ (GetServiceStatus e (meta.ServiceName ins)) w1)
          as [[active err] w2]; simpl;
        apply pass_live; exact He
      | apply pass_no_executor; exact He ]
    | apply String.eqb_neq in Hdash; apply pass_authoritative; exact Hdash ].
Qed.

(** The calls of the loop are those of its passes, one after the other:
    over all the instances shown when it returns, over those before the
    first without a directory when it panics. *)
Lemma run_display_loop_calls (l : list meta.Instance) :
  forall (t : list (list string)) (w : W),
    exists l1 chunks,
      Forall2 (PassCalls ctx pdList) l1 chunks
      /\ trace (run h (forRange l t body) w) = concat chunks
      /\ match outcome (run h (forRange l t body) w) with
         | Returned _ =>
             l1 = List.filter (shown filterRoles filterNodes) l
         | Panicked _ =>
             exists bad l2,
               List.filter (shown filterRoles filterNodes) l
               = l1 ++ bad :: l2
               /\ meta.UsedDirs bad = []
         end.
Proof.
  induction l as [|ins l IH]; intros t w.
  - exists [], []. split; [constructor|]. split; reflexivity.
  - rewrite run_forRange_cons. simpl List.filter.
    pose proof (run_displayInstance_calls t ins w) as Hcalls.
    pose proof (run_displayInstance L W h ctx pdList filterRoles filterNodes
                  t ins w) as Hone.
    simpl in Hone.
    destruct (shown filterRoles filterNodes ins).
    + destruct (meta.UsedDirs ins) as [|d0 ds] eqn:Hdirs.
      * rewrite Hone. exists [], []. split; [constructor|].
        split; [reflexivity|]. simpl.
        exists ins, (List.filter (shown filterRoles filterNodes) l).
        split; [reflexivity|exact Hdirs].
      * destruct Hone as (row & _ & Hout). unfold outcome, trace in *.
        destruct (run h (body t ins) w) as [[o w1] tr1]. simpl in *.
        subst o. destruct (IH (t ++ [row]) w1)
          as (l1 & chunks & Hch & Htr & Hres).
        destruct (run h (forRange l (t ++ [row]) body) w1) as [[o2 w2] tr2].
        simpl in *. exists (ins :: l1), (tr1 :: chunks).
        split; [constructor; assumption|].
        split; [simpl; rewrite Htr; reflexivity|].
        destruct o2 as [t'|q].
        -- rewrite Hres. reflexivity.
        -- destruct Hres as (bad & l2 & Heq & Hbad).
           exists bad, l2. rewrite Heq. split; [reflexivity|exact Hbad].
    + rewrite Hone. destruct (IH t w) as (l1 & chunks & Hch & Htr & Hres).
      unfold outcome, trace in *.
      destruct (run h (forRange l t body) w) as [[o2 w2] tr2]. simpl in *.
      exists l1, chunks. split; [exact Hch|]. split; [exact Htr|exact Hres].
Qed.

End DisplayLoopCalls.

(** ** The filters in terms of the option's lists *)

Lemma filter_test (l : list string) (x : string) :
  negb (Nat.ltb 0 (size (list_to_set l : gset string))
        && negb (bool_decide (x ∈ (list_to_set l : gset string))))
  = match l with
    | [] => true
    | _ => existsb (String.eqb x) l
    end.
Proof.
  destruct l as [|a l].
  - reflexivity.
  - assert (Hpos : Nat.ltb 0 (size (list_to_set (a :: l) : gset string))
                   = true).
    { apply Nat.ltb_lt.
      assert (Hne : size (list_to_set (a :: l) : gset string) <> 0);
        [|lia].
      apply size_non_empty_iff. intros Hemp.
      assert (Ha : a ∈ (list_to_set (a :: l) : gset string))
        by (apply elem_of_list_to_set; left).
      rewrite Hemp in Ha. exact (not_elem_of_empty a Ha). }
    rewrite Hpos, andb_true_l, negb_involutive.
    destruct (existsb (String.eqb x) (a :: l)) eqn:Hex.
    + apply bool_decide_eq_true_2.
      apply (proj2 (elem_of_list_to_set (C := gset string) x (a :: l))).
      apply existsb_exists in Hex as (y & Hy & Heq).
      apply String.eqb_eq in Heq. subst y. apply list_elem_of_In. exact Hy.
    + apply bool_decide_eq_false_2. intros Hin.
      apply (proj1 (elem_of_list_to_set (C := gset string) x (a :: l))) in Hin.
      apply list_elem_of_In in Hin.
      assert (Htrue : existsb (String.eqb x) (a :: l) = true).
      { apply existsb_exists. exists x. split; [exact Hin|].
        apply String.eqb_refl. }
      congruence.
Qed.

Lemma shown_passesFilters (opt : command.displayOption)
  (ins : meta.Instance) :
  shown (list_to_set (command.filterRole opt))
    (list_to_set (command.filterNode opt)) ins
  = passesFilters opt ins.
Proof.
  unfold shown, passesFilters. rewrite !filter_test. reflexivity.
Qed.

Lemma filter_shown_passesFilters (opt : command.displayOption)
  (l : list meta.Instance) :
  List.filter (shown (list_to_set (command.filterRole opt))
                 (list_to_set (command.filterNode opt))) l
  = List.filter (passesFilters opt) l.
Proof.
  induction l as [|ins l IH]; simpl; [reflexivity|].
  rewrite shown_passesFilters, IH. reflexivity.
Qed.

(** ** The calls of the display *)

Lemma isStatusCall_quiet (ev : Event) :
  isStatusCall ev = true ->
  isMutation ev = false /\ isNeedCheck ev = false /\ printed ev = None
  /\ loadedName ev = None /\ loadError ev = None /\ setupError ev = None.
Proof.
  destruct ev as [X e x]; destruct e; simpl; try discriminate;
    intros _; repeat split.
Qed.

Section DisplayCalls.

Variable L : Lib.
Variable W : Type.
Variable h : Handler W.
Variable opt : command.displayOption.
Variable metadata : meta.ClusterMeta.
Variables c1 ctx : Context.
Variables w w1 w2 w3 : W.

Local Abbreviation name := (command.clusterName opt).
Local Abbreviation topo := (meta.Topology metadata).
Local Abbreviation loaded := (Ev (ClusterMetadata name) (Ok metadata)).
Local Abbreviation keyed :=
  (Ev (SetSSHKeySet NewContext (ClusterPath L name ["ssh"; "id_rsa"])
         (ClusterPath L name ["ssh"; "id_rsa.pub"])) (c1, None)).
Local Abbreviation connected :=
  (Ev (SetClusterSSH c1 topo (meta.User metadata) (sshTimeout L))
     (ctx, None)).
Local Abbreviation r := (run h (command.displayClusterTopology L opt) w).
Local Abbreviation passing :=
  (List.filter (passesFilters opt) (instances topo)).

Hypothesis Hmeta : h _ (ClusterMetadata name) w = (Ok metadata, w1).
Hypothesis Hkeys :
  h _ (SetSSHKeySet NewContext (ClusterPath L name ["ssh"; "id_rsa"])
         (ClusterPath L name ["ssh"; "id_rsa.pub"])) w1
  = (c1, None, w2).
Hypothesis Hssh :
  h _ (SetClusterSSH c1 topo (meta.User metadata) (sshTimeout L)) w2
  = (ctx, None, w3).

(** After the set-up the calls are those of the passes and, when the loop
    returns, the one print. *)
Lemma displayClusterTopology_calls :
  exists l1 chunks,
    Forall2 (PassCalls ctx (meta.GetPDList topo)) l1 chunks
    /\ ((outcome r = Returned None
         /\ l1 = passing
         /\ exists rows0,
             Forall2 (RowOf L h ctx (meta.GetPDList topo)) passing rows0
             /\ trace r
                = loaded :: keyed :: connected :: concat chunks
                  ++ [Ev (PrintTable
                            (command.header
                               :: sort_Slice L command.less rows0) true) tt])
        \/ (outcome r = Panicked (IndexOutOfRange 0 0)
            /\ trace r = loaded :: keyed :: connected :: concat chunks
            /\ exists bad l2,
                passing = l1 ++ bad :: l2 /\ meta.UsedDirs bad = [])).
Proof.
  rewrite (displayClusterTopology_run L W h opt metadata c1 ctx w w1 w2 w3
             Hmeta Hkeys Hssh).
  rewrite <- filter_shown_passesFilters.
  pose proof (run_display_loop L W h ctx (meta.GetPDList topo)
                (list_to_set (command.filterRole opt))
                (list_to_set (command.filterNode opt)) (instances topo)
                [command.header] w3) as Hloop.
  destruct (run_display_loop_calls L W h ctx (meta.GetPDList topo)
              (list_to_set (command.filterRole opt))
              (list_to_set (command.filterNode opt)) (instances topo)
              [command.header] w3) as (l1 & chunks & Hch & Htr & Hres).
  exists l1, chunks. split; [exact Hch|].
  unfold outcome, trace in *.
  destruct (run h (forRange (instances topo) [command.header] _) w3)
    as [[o w4] tr].
  simpl in *. subst tr. destruct o as [t|q].
  - left. destruct Hloop as (_ & rows & -> & Hrows). simpl.
    split; [reflexivity|]. split; [exact Hres|].
    exists rows. split; [exact Hrows|reflexivity].
  - right. destruct Hloop as (-> & _). simpl.
    split; [reflexivity|]. split; [reflexivity|exact Hres].
Qed.


(** X11.  systemd is asked only right after PD answered ["-"] for an
    instance, and then through the executor registered for that instance's
    host and about that instance's service. *)
Theorem displayClusterTopology_service_after_dash (i : nat) (ev : Event)
  (e : Executor) (n : string) :
  trace r !! i = Some ev ->
  serviceQueried ev = Some (e, n) ->
  exists i' evp ins pdl,
    i = S i' /\ trace r !! i' = Some evp
    /\ pdAnswered evp = Some (ins, pdl, "-")
    /\ GetExecutor ctx (meta.GetHost ins) = Some e
    /\ n = meta.ServiceName ins.
Proof.
  assert (Hall : ServiceAfterDash ctx (trace r)); [|exact (Hall i ev e n)].
  destruct displayClusterTopology_calls
    as (l1 & chunks & Hch & [(_ & _ & rows0 & _ & Htr)|(_ & Htr & _)]);
    destruct (PassCalls_concat _ _ _ _ Hch) as (_ & _ & Hs); rewrite Htr.
  - apply (ServiceAfterDash_app ctx [_; _; _]);
      [apply ServiceAfterDash_quiet; repeat constructor|].
    apply ServiceAfterDash_app; [exact Hs|].
    apply ServiceAfterDash_quiet. repeat constructor.
  - apply (ServiceAfterDash_app ctx [_; _; _]);
      [apply ServiceAfterDash_quiet; repeat constructor|exact Hs].
Qed.

(** X12.  A display that returns prints once, as its last call, with the
    header flag set: the header row followed by one row for each instance
    that passes the filters, every row as wide as the header.  A display
    that panics prints nothing. *)
Theorem displayClusterTopology_prints_once :
  SortContract (sort_Slice L) ->
  (outcome r = Returned None ->
   exists init rows,
     trace r = init ++ [Ev (PrintTable (command.header :: rows) true) tt]
     /\ Forall (fun ev => printed ev = None) init
     /\ length rows = length passing
     /\ Forall (fun row => length row = length command.header) rows)
  /\ (outcome r <> Returned None ->
      Forall (fun ev => printed ev = None) (trace r)).
Proof.
  intros Hsort.
  destruct displayClusterTopology_calls
    as (l1 & chunks & Hch & [(Hout & -> & rows0 & Hrows & Htr)
                            |(Hout & Htr & _)]);
    destruct (PassCalls_concat _ _ _ _ Hch) as (_ & Hq & _).
  - split; [|intros Hne; contradiction].
    intros _. exists (loaded :: keyed :: connected :: concat chunks),
                (sort_Slice L command.less rows0).
    split; [exact Htr|]. split.
    + repeat (constructor; [reflexivity|]).
      eapply Forall_impl; [exact Hq|]. intros ev Hev.
      apply isStatusCall_quiet in Hev. tauto.
    + split.
      * rewrite (Permutation_length (sort_perm _ Hsort command.less rows0)).
        symmetry. exact (Forall2_length _ _ _ Hrows).
      * apply (Permutation_Forall
                 (Permutation_sym (sort_perm _ Hsort command.less rows0))).
        apply Forall_forall. intros row Hin. apply list_elem_of_In in Hin.
        destruct (Forall2_In_r _ _ _ _ Hrows Hin) as (ins & _ & Hrow).
        exact (RowOf_length L W h ctx _ row ins Hrow).
  - split; [rewrite Hout; discriminate|].
    intros _. rewrite Htr. repeat (constructor; [reflexivity|]).
    eapply Forall_impl; [exact Hq|]. intros ev Hev.
    apply isStatusCall_quiet in Hev. tauto.
Qed.

(** X13.  For an instance that passes the filters and for which PD has an
    answer other than ["-"], the row printed shows that answer, coloured by
    [formatInstanceStatus], whatever systemd would say. *)
Theorem displayClusterTopology_authoritative_status (ins : meta.Instance)
  (status : string) :
  SortContract (sort_Slice L) ->
  outcome r = Returned None ->
  In ins passing ->
  (forall w',
      fst (h _ (InstanceStatus ins (meta.GetPDList topo)) w') = status) ->
  status <> "-" ->
  exists init rows dataDir deployDir,
    trace r = init ++ [Ev (PrintTable (command.header :: rows) true) tt]
    /\ In (command.tableRow L ins status dataDir deployDir) rows.
Proof.
  intros Hsort Hret Hin Hstatus Hne.
  destruct displayClusterTopology_calls
    as (l1 & chunks & _ & [(_ & _ & rows0 & Hrows & Htr)|(Hout & _)]);
    [|rewrite Hout in Hret; discriminate].
  destruct (Forall2_In_l _ _ _ _ Hrows Hin)
    as (row & Hrow & st & deployDir & _ & Hrec & ->).
  assert (Hst : st = status).
  { destruct Hrec as [w0 st w0' Hs _|w0 w0' Hs _|w0 w0' e a err w0'' Hs _ _].
    - specialize (Hstatus w0). rewrite Hs in Hstatus. exact Hstatus.
    - specialize (Hstatus w0). rewrite Hs in Hstatus. simpl in Hstatus.
      congruence.
    - specialize (Hstatus w0). rewrite Hs in Hstatus. simpl in Hstatus.
      congruence. }
  subst st.
  exists (loaded :: keyed :: connected :: concat chunks),
    (sort_Slice L command.less rows0),
    (default "-" (meta.UsedDirs ins !! 1)), deployDir.
  split; [exact Htr|].
  eapply Permutation_in; [|exact Hrow]. symmetry. apply (sort_perm _ Hsort).
Qed.

End DisplayCalls.

(** ** The display from its first call *)

(** A run fails in its set-up, at the first call that comes back with an
    error, or gets past it. *)
Lemma displayClusterTopology_setup_cases (L : Lib) (W : Type)
  (h : Handler W) (opt : command.displayOption) (w : W) :
  let r := run h (command.displayClusterTopology L opt) w in
  (exists e,
      outcome r = Returned (Some e)
      /\ trace r = [Ev (ClusterMetadata (command.clusterName opt)) (Err e)])
  \/ (exists m p q c1 e,
         outcome r = Returned (Some (AddStack e))
         /\ trace r = [Ev (ClusterMetadata (command.clusterName opt)) (Ok m);
                       Ev (SetSSHKeySet NewContext p q) (c1, Some e)])
  \/ (exists m p q c1 t u s c2 e,
         outcome r = Returned (Some (AddStack e))
         /\ trace r = [Ev (ClusterMetadata (command.clusterName opt)) (Ok m);
                       Ev (SetSSHKeySet NewContext p q) (c1, None);
                       Ev (SetClusterSSH c1 t u s) (c2, Some e)])
  \/ (exists metadata c1 ctx w1 w2 w3,
         h _ (ClusterMetadata (command.clusterName opt)) w = (Ok metadata, w1)
         /\ h _ (SetSSHKeySet NewContext
                   (ClusterPath L (command.clusterName opt) ["ssh"; "id_rsa"])
                   (ClusterPath L (command.clusterName opt)
                      ["ssh"; "id_rsa.pub"])) w1
            = (c1, None, w2)
         /\ h _ (SetClusterSSH c1 (meta.Topology metadata)
                   (meta.User metadata) (sshTimeout L)) w2
            = (ctx, None, w3)).
Proof.
  intros r. unfold r, command.displayClusterTopology, outcome, trace. simpl.
  destruct (h _ (ClusterMetadata (command.clusterName opt)) w)
    as [[m|e] w1] eqn:Hm; simpl.
  2: { left. exists e. split; reflexivity. }
  right.
  destruct (h _ (SetSSHKeySet NewContext _ _) w1) as [[c1 [e|]] w2] eqn:Hk;
    simpl.
  { left. do 5 eexists. split; reflexivity. }
  right.
  destruct (h _ (SetClusterSSH c1 _ _ _) w2) as [[c2 [e|]] w3] eqn:Hs; simpl.
  { left. do 9 eexists. split; reflexivity. }
  right. exists m, c1, c2, w1, w2, w3. repeat split; assumption.
Qed.

(** What every call of a run that got past the set-up is like. *)
Lemma displayClusterTopology_calls_quiet (L : Lib) (W : Type)
  (h : Handler W) (opt : command.displayOption)
  (metadata : meta.ClusterMeta) (c1 ctx : Context) (w w1 w2 w3 : W) :
  h _ (ClusterMetadata (command.clusterName opt)) w = (Ok metadata, w1) ->
  h _ (SetSSHKeySet NewContext
         (ClusterPath L (command.clusterName opt) ["ssh"; "id_rsa"])
         (ClusterPath L (command.clusterName opt) ["ssh"; "id_rsa.pub"])) w1
  = (c1, None, w2) ->
  h _ (SetClusterSSH c1 (meta.Topology metadata) (meta.User metadata)
         (sshTimeout L)) w2
  = (ctx, None, w3) ->
  Forall (fun ev => isMutation ev = false /\ isNeedCheck ev = false
                    /\ loadError ev = None /\ setupError ev = None)
    (trace (run h (command.displayClusterTopology L opt) w)).
Proof.
  intros Hm Hk Hs.
  assert (Hloop : forall chunks l1,
             Forall2 (PassCalls ctx (meta.GetPDList (meta.Topology metadata)))
               l1 chunks ->
             Forall (fun ev => isMutation ev = false /\ isNeedCheck ev = false
                               /\ loadError ev = None /\ setupError ev = None)
               (concat chunks)).
  { intros chunks l1 Hch.
    destruct (PassCalls_concat _ _ _ _ Hch) as (_ & Hq & _).
    eapply Forall_impl; [exact Hq|]. intros ev Hev.
    apply isStatusCall_quiet in Hev. tauto. }
  destruct (displayClusterTopology_calls L W h opt metadata c1 ctx w w1 w2 w3
              Hm Hk Hs)
    as (l1 & chunks & Hch & [(_ & _ & rows0 & _ & Htr)|(_ & Htr & _)]);
    rewrite Htr; repeat (constructor; [repeat split|]).
  - apply Forall_app. split; [exact (Hloop _ _ Hch)|].
    repeat constructor.
  - exact (Hloop _ _ Hch).
Qed.

(** X8.  The display is read-only: no run of it, whatever its outcome,
    asks for a tombstone check, calls [DestroyTombstone] or saves the
    metadata, and against a world with a metadata store the files are
    afterwards what they were. *)
Theorem displayClusterTopology_read_only (L : Lib) (E : Type)
  (save : string -> meta.ClusterMeta -> World E -> option error * World E)
  (others : gmap string meta.ClusterMeta -> Handler E)
  (opt : command.displayOption) (w : World E) :
  let r := run (storeHandler save others)
             (command.displayClusterTopology L opt) w in
  Forall (fun ev => isMutation ev = false /\ isNeedCheck ev = false) (trace r)
  /\ disk (world r) = disk w.
Proof.
  intros r.
  assert (Hquiet : Forall (fun ev => isMutation ev = false
                                     /\ isNeedCheck ev = false) (trace r)).
  { destruct (displayClusterTopology_setup_cases L _
                (storeHandler save others) opt w)
      as [(e & _ & Htr)|[(m & p & q & c1 & e & _ & Htr)
         |[(m & p & q & c1 & t & u & s & c2 & e & _ & Htr)
          |(metadata & c1 & ctx & w1 & w2 & w3 & Hm & Hk & Hs)]]].
    - unfold r. rewrite Htr. repeat constructor.
    - unfold r. rewrite Htr. repeat constructor.
    - unfold r. rewrite Htr. repeat constructor.
    - eapply Forall_impl;
        [exact (displayClusterTopology_calls_quiet L _ _ opt metadata c1 ctx
                  w w1 w2 w3 Hm Hk Hs)|].
      intros ev (Hmut & Hneed & _). split; assumption. }
  split; [exact Hquiet|].
  apply storeHandler_disk. eapply Forall_impl; [exact Hquiet|].
  intros ev [Hmut _]. unfold isMutation in Hmut.
  destruct (isSave ev); [discriminate Hmut|reflexivity].
Qed.

(** X9.  When the metadata does not load the display hands the error back
    as it is, after that one call; when the key set or the SSH set-up
    fails it hands the error back with a stack, and that call is the last.
    In both cases no status is queried and nothing is printed. *)
Theorem displayClusterTopology_setup_error (L : Lib) (W : Type)
  (h : Handler W) (opt : command.displayOption) (w : W) (i : nat)
  (ev : Event) (e : error) :
  let r := run h (command.displayClusterTopology L opt) w in
  trace r !! i = Some ev ->
  loadError ev = Some e \/ setupError ev = Some e ->
  (loadError ev = Some e -> outcome r = Returned (Some e) /\ i = 0)
  /\ (setupError ev = Some e -> outcome r = Returned (Some (AddStack e)))
  /\ length (trace r) = S i
  /\ Forall (fun ev' => isStatusCall ev' = false /\ printed ev' = None)
       (trace r).
Proof.
  intros r Hi Herr. unfold r in *. clear r.
  destruct (displayClusterTopology_setup_cases L _ h opt w)
    as [(e0 & Hout & Htr)|[(m & p & q & c1 & e0 & Hout & Htr)
       |[(m & p & q & c1 & t & u & s & c2 & e0 & Hout & Htr)
        |(metadata & c1 & ctx & w1 & w2 & w3 & Hm & Hk & Hs)]]].
  - rewrite Htr in Hi |- *. rewrite Hout. at_index i Hi.
    simpl in Herr |- *. destruct Herr as [He|He]; [|discriminate He].
    injection He as <-.
    split; [intros _; split; reflexivity|]. split; [discriminate|].
    split; [reflexivity|repeat constructor].
  - rewrite Htr in Hi |- *. rewrite Hout. at_index i Hi;
      simpl in Herr |- *; destruct Herr as [He|He]; try discriminate He.
    injection He as <-.
    split; [discriminate|]. split; [reflexivity|].
    split; [reflexivity|repeat constructor].
  - rewrite Htr in Hi |- *. rewrite Hout. at_index i Hi;
      simpl in Herr |- *; destruct Herr as [He|He]; try discriminate He.
    injection He as <-.
    split; [discriminate|]. split; [reflexivity|].
    split; [reflexivity|repeat constructor].
  - exfalso.
    pose proof (displayClusterTopology_calls_quiet L _ h opt metadata c1 ctx
                  w w1 w2 w3 Hm Hk Hs) as Hq.
    rewrite Forall_forall in Hq.
    apply list_elem_of_lookup_2 in Hi.
    destruct (Hq ev Hi) as (_ & _ & Hl & Hse).
    destruct Herr; congruence.
Qed.

(** ** The calls of the display on the small cluster *)

Lemma displayClusterTopology_setup_error_witness :
  outcome (run (Demo.handler DemoCmd.unreachable)
             (command.displayClusterTopology Demo.lib Demo.opt)
             (Demo.start []))
  = Returned (Some (AddStack (Errorf "dial tcp: i/o timeout"))).
Proof.
  exact (proj1 (proj2 (displayClusterTopology_setup_error Demo.lib _
                         (Demo.handler DemoCmd.unreachable) Demo.opt
                         (Demo.start []) 2 _ (Errorf "dial tcp: i/o timeout")
                         eq_refl (or_intror eq_refl)))
           eq_refl).
Defined.


Lemma displayClusterTopology_service_after_dash_witness :
  exists evp ins pdl,
    trace (run (Demo.handler
                  (Demo.unresolved Demo.allHosts (Demo.activeLine, None)))
             (command.displayClusterTopology Demo.lib Demo.opt)
             (Demo.start [])) !! 3 = Some evp
    /\ pdAnswered evp = Some (ins, pdl, "-")
    /\ "pd-2379.service" = meta.ServiceName ins.
Proof.
  destruct (displayClusterTopology_service_after_dash Demo.lib _
              (Demo.handler
                 (Demo.unresolved Demo.allHosts (Demo.activeLine, None)))
              Demo.opt (Demo.clusterMeta []) Demo.keyedCtx
              (Demo.connect Demo.allHosts Demo.keyedCtx)
              (Demo.start []) (Demo.start []) (Demo.start []) (Demo.start [])
              eq_refl eq_refl eq_refl
              4 _ (TiOpsExecutor "10.0.1.4") "pd-2379.service"
              eq_refl eq_refl)
    as (i' & evp & ins & pdl & Hi & Hevp & Hpd & _ & Hn).
  injection Hi as <-. exists evp, ins, pdl.
  split; [exact Hevp|]. split; [exact Hpd|exact Hn].
Defined.

Lemma displayClusterTopology_prints_once_witness :
  exists init rows,
    trace (run (Demo.handler Demo.quiet)
             (command.displayClusterTopology Demo.lib Demo.opt)
             (Demo.start []))
    = init ++ [Ev (PrintTable (command.header :: rows) true) tt]
    /\ length rows = 4.
Proof.
  destruct (proj1 (displayClusterTopology_prints_once Demo.lib _
                     (Demo.handler Demo.quiet) Demo.opt
                     (Demo.clusterMeta []) Demo.keyedCtx
                     (Demo.connect Demo.allHosts Demo.keyedCtx)
                     (Demo.start []) (Demo.start []) (Demo.start [])
                     (Demo.start [])
                     eq_refl eq_refl eq_refl insertionSort_contract) eq_refl)
    as (init & rows & Htr & _ & Hlen & _).
  exists init, rows. split; [exact Htr|exact Hlen].
Defined.

Lemma displayClusterTopology_authoritative_status_witness :
  exists init rows dataDir deployDir,
    trace (run (Demo.handler Demo.quiet)
             (command.displayClusterTopology Demo.lib Demo.opt)
             (Demo.start []))
    = init ++ [Ev (PrintTable (command.header :: rows) true) tt]
    /\ In (command.tableRow Demo.lib Demo.pd1 "Up" dataDir deployDir) rows.
Proof.
  apply (displayClusterTopology_authoritative_status Demo.lib _
           (Demo.handler Demo.quiet) Demo.opt
           (Demo.clusterMeta []) Demo.keyedCtx
           (Demo.connect Demo.allHosts Demo.keyedCtx)
           (Demo.start []) (Demo.start []) (Demo.start []) (Demo.start [])
           eq_refl eq_refl eq_refl Demo.pd1 "Up" insertionSort_contract
           eq_refl).
  - left. reflexivity.
  - intros w'. reflexivity.
  - discriminate.
Defined.

(** ** Running the command *)

Lemma runCmd_bind {W A B : Type} (h : CmdHandler W) (p : Cmd A)
  (f : A -> Cmd B) :
  forall w : W,
    runCmd h (cbind p f) w
    = let '(o, w1, tr1) := runCmd h p w in
      match o with
      | Returned a =>
          let '(o2, w2, tr2) := runCmd h (f a) w1 in (o2, w2, tr1 ++ tr2)
      | Panicked q => (Panicked q, w1, tr1)
      end.
Proof.
  induction p as [a|q|X e k IH]; intros w; simpl.
  - destruct (runCmd h (f a) w) as [[o2 w2] tr2]. reflexivity.
  - reflexivity.
  - destruct (h X e w) as [x w1]. rewrite IH.
    destruct (runCmd h (k x) w1) as [[o w2] tr]. destruct o as [a|q].
    + destruct (runCmd h (f a) w2) as [[o2 w3] tr2]. reflexivity.
    + reflexivity.
Qed.

Lemma cbind_ret {A B : Type} (a : A) (f : A -> Cmd B) :
  cbind (CRet a) f = f a.
Proof. reflexivity. Qed.

(** A program of the display file runs inside the command as it runs on
    its own against the command's answers. *)
Lemma runCmd_lift {W R : Type} (h : CmdHandler W) (p : Prog R) :
  forall w : W,
    runCmd h (lift p) w
    = let '(o, w1, tr) := run (coreHandler h) p w in
      (o, w1, map liftEvent tr).
Proof.
  induction p as [a|q|X e k IH]; intros w; simpl; try reflexivity.
  unfold coreHandler at 1. destruct (h X (Core e) w) as [x w1].
  rewrite IH. destruct (run (coreHandler h) (k x) w1) as [[o w2] tr].
  reflexivity.
Qed.

(** ** What a run of the display and of the tombstone step is like *)

Lemma lookup_map_Some {A B : Type} (f : A -> B) (l : list A) (i : nat)
  (y : B) :
  map f l !! i = Some y -> exists x, l !! i = Some x /\ y = f x.
Proof.
  revert i. induction l as [|a l IH]; intros [|i] H; simpl in H;
    try discriminate H.
  - injection H as <-. exists a. split; reflexivity.
  - exact (IH i H).
Qed.

Lemma Forall_map_lift {A B : Type} (f : A -> B) (P : B -> Prop)
  (l : list A) :
  Forall (fun x => P (f x)) l -> Forall P (map f l).
Proof. induction 1; simpl; constructor; assumption. Qed.

Lemma display_run_facts (L : Lib) (W : Type) (h : Handler W)
  (opt : command.displayOption) (w : W) :
  let r := run h (command.displayClusterTopology L opt) w in
  Forall (fun ev => isMutation ev = false /\ isNeedCheck ev = false)
    (trace r)
  /\ (outcome r = Returned None ->
      Forall (fun ev => loadError ev = None) (trace r)
      /\ exists init tbl,
          trace r = init ++ [Ev (PrintTable tbl true) tt])
  /\ (outcome r <> Returned None ->
      Forall (fun ev => printed ev = None) (trace r)
      /\ forall i ev e,
          trace r !! i = Some ev -> loadError ev = Some e ->
          outcome r = Returned (Some e) /\ trace r = [ev]).
Proof.
  intros r. unfold r.
  destruct (displayClusterTopology_setup_cases L _ h opt w)
    as [(e0 & Hout & Htr)|[(m & p & q & c1 & e0 & Hout & Htr)
       |[(m & p & q & c1 & t & u & s & c2 & e0 & Hout & Htr)
        |(metadata & c1 & ctx & w1 & w2 & w3 & Hm & Hk & Hs)]]].
  - rewrite Htr, Hout. split; [repeat constructor|].
    split; [discriminate|]. intros _. split; [repeat constructor|].
    intros i ev e Hi He. at_index i Hi. simpl in He. injection He as <-.
    split; reflexivity.
  - rewrite Htr, Hout. split; [repeat constructor|].
    split; [discriminate|]. intros _. split; [repeat constructor|].
    intros i ev e Hi He. at_index i Hi; simpl in He; discriminate He.
  - rewrite Htr, Hout. split; [repeat constructor|].
    split; [discriminate|]. intros _. split; [repeat constructor|].
    intros i ev e Hi He. at_index i Hi; simpl in He; discriminate He.
  - pose proof (displayClusterTopology_calls_quiet L _ h opt metadata c1 ctx
                  w w1 w2 w3 Hm Hk Hs) as Hq.
    split; [eapply Forall_impl; [exact Hq|];
            intros ev (H1 & H2 & _); split; assumption|].
    destruct (displayClusterTopology_calls L W h opt metadata c1 ctx
                w w1 w2 w3 Hm Hk Hs)
      as (l1 & chunks & Hch & [(Hout & _ & rows0 & _ & Htr)
                              |(Hout & Htr & _)]).
    + split; [|intros Hne; contradiction].
      intros _. split.
      * eapply Forall_impl; [exact Hq|]. intros ev (_ & _ & H3 & _).
        exact H3.
      * rewrite Htr. eexists (_ :: _ :: _ :: concat chunks), _. reflexivity.
    + split; [rewrite Hout; discriminate|]. intros _. split.
      * rewrite Htr. repeat (constructor; [reflexivity|]).
        destruct (PassCalls_concat _ _ _ _ Hch) as (_ & Hst & _).
        eapply Forall_impl; [exact Hst|]. intros ev Hev.
        apply isStatusCall_quiet in Hev. tauto.
      * intros i ev e Hi He. exfalso. rewrite Forall_forall in Hq.
        apply list_elem_of_lookup_2 in Hi.
        destruct (Hq ev Hi) as (_ & _ & Hl & _). congruence.
Qed.

Lemma TombstoneTrace_no_load (L : Lib) (name : string)
  (metadata : meta.ClusterMeta) (o : Outcome (option error))
  (tr : list Event) :
  TombstoneTrace L name metadata o tr ->
  Forall (fun ev => loadError ev = None /\ printed ev = None) tr.
Proof. intros []; repeat constructor. Qed.

Section Command.

Variable L : Lib.
Variable C : CmdLib.
Variable W : Type.
Variable h : CmdHandler W.

(** The three ways through [displayClusterMeta]. *)
Lemma displayClusterMeta_run (opt : command.displayOption) (w : W) :
  let r := runCmd h (cmd.displayClusterMeta L C opt) w in
  let path := ClusterPath L (command.clusterName opt) [MetaFileName C] in
  (cmdOutcome r
   = Returned (Some (Errorf ("cannot display non-exists cluster "
                             ++ command.clusterName opt)%string))
   /\ cmdTrace r = [CEv (IsNotExist path) true])
  \/ (exists e,
         cmdOutcome r = Returned (Some e)
         /\ cmdTrace r = [CEv (IsNotExist path) false;
                       CEv (Core (ClusterMetadata (command.clusterName opt)))
                         (Err e)])
  \/ (exists m,
         cmdOutcome r = Returned None
         /\ cmdTrace r
            = [CEv (IsNotExist path) false;
               CEv (Core (ClusterMetadata (command.clusterName opt))) (Ok m);
               CEv (Printf ("TiDB Cluster: %s" ++ cmd.newline)%string
                      [cyanBold C (command.clusterName opt)]) tt;
               CEv (Printf ("TiDB Version: %s" ++ cmd.newline)%string
                      [cyanBold C (meta.Version m)]) tt]).
Proof.
  unfold cmd.displayClusterMeta, cmdOutcome, cmdTrace. simpl.
  destruct (h _ (IsNotExist _) w) as [[|] w1]; simpl.
  - left. split; reflexivity.
  - right. destruct (h _ (Core (ClusterMetadata _)) w1) as [[m|e] w2]; simpl.
    + right. exists m.
      destruct (h _ (Printf _ [cyanBold C (command.clusterName opt)]) w2)
        as [[] w3]; simpl.
      destruct (h _ (Printf _ [cyanBold C (meta.Version m)]) w3)
        as [[] w4]; simpl.
      split; reflexivity.
    + left. exists e. split; reflexivity.
Qed.

(** [RunE] with one argument: the three steps one after the other, each
    started only when the one before handed back nil. *)
Lemma RunE_run (opt : command.displayOption) (a : string) (w : W) :
  let opt' := {| command.clusterName := a;
                 command.filterRole := command.filterRole opt;
                 command.filterNode := command.filterNode opt |} in
  runCmd h (cmd.RunE L C opt [a]) w
  = let '(o1, w1, t1) := runCmd h (cmd.displayClusterMeta L C opt') w in
    match o1 with
    | Returned None =>
        let '(o2, w2, t2) :=
          run (coreHandler h) (command.displayClusterTopology L opt') w1 in
        match o2 with
        | Returned None =>
            let '(x, w3) := h _ (Core (ClusterMetadata a)) w2 in
            match x with
            | Err e =>
                (Returned (Some (AddStack e)), w3,
                 t1 ++ map liftEvent t2
                 ++ [CEv (Core (ClusterMetadata a)) (Err e)])
            | Ok m =>
                let '(o3, w4, t3) :=
                  run (coreHandler h)
                    (command.destroyTombstoneIfNeed L a m) w3 in
                (o3, w4,
                 t1 ++ map liftEvent t2
                 ++ CEv (Core (ClusterMetadata a)) (Ok m) :: map liftEvent t3)
            end
        | Returned (Some e) => (Returned (Some e), w2, t1 ++ map liftEvent t2)
        | Panicked q => (Panicked q, w2, t1 ++ map liftEvent t2)
        end
    | Returned (Some e) => (Returned (Some e), w1, t1)
    | Panicked q => (Panicked q, w1, t1)
    end.
Proof.
  intros opt'. unfold cmd.RunE. simpl negb. cbv iota.
  change (lift (index [a] 0)) with (@CRet string a). rewrite cbind_ret.
  fold opt'. rewrite runCmd_bind.
  destruct (runCmd h (cmd.displayClusterMeta L C opt') w) as [[o1 w1] t1].
  destruct o1 as [[e|]|q]; cbv beta iota.
  - simpl. rewrite app_nil_r. reflexivity.
  - rewrite runCmd_bind, runCmd_lift.
    destruct (run (coreHandler h) (command.displayClusterTopology L opt') w1)
      as [[o2 w2] t2].
    destruct o2 as [[e|]|q]; cbv beta iota.
    + simpl. rewrite app_nil_r. reflexivity.
    + rewrite runCmd_bind. simpl runCmd at 1.
      destruct (h _ (Core (ClusterMetadata a)) w2) as [[m|e] w3];
        cbv beta iota.
      * rewrite runCmd_lift. change (command.clusterName opt') with a.
        destruct (run (coreHandler h)
                    (command.destroyTombstoneIfNeed L a m) w3)
          as [[o3 w4] t3].
        reflexivity.
      * reflexivity.
    + reflexivity.
  - reflexivity.
Qed.

(** The ways through [RunE] with one argument. *)
Lemma RunE_cases (opt : command.displayOption) (a : string) (w : W) :
  let opt' := {| command.clusterName := a;
                 command.filterRole := command.filterRole opt;
                 command.filterNode := command.filterNode opt |} in
  let r := runCmd h (cmd.RunE L C opt [a]) w in
  let path := ClusterPath L a [MetaFileName C] in
  let printedMeta m :=
    [CEv (IsNotExist path) false;
     CEv (Core (ClusterMetadata a)) (Ok m);
     CEv (Printf ("TiDB Cluster: %s" ++ cmd.newline)%string [cyanBold C a]) tt;
     CEv (Printf ("TiDB Version: %s" ++ cmd.newline)%string
            [cyanBold C (meta.Version m)]) tt] in
  (cmdOutcome r
   = Returned (Some (Errorf ("cannot display non-exists cluster " ++ a)%string))
   /\ cmdTrace r = [CEv (IsNotExist path) true])
  \/ (exists e,
         cmdOutcome r = Returned (Some e)
         /\ cmdTrace r = [CEv (IsNotExist path) false;
                          CEv (Core (ClusterMetadata a)) (Err e)])
  \/ (exists m w1,
         let d := run (coreHandler h)
                    (command.displayClusterTopology L opt') w1 in
         (outcome d <> Returned None
          /\ cmdOutcome r = outcome d
          /\ cmdTrace r = printedMeta m ++ map liftEvent (trace d))
         \/ (outcome d = Returned None
             /\ ((exists e,
                     cmdOutcome r = Returned (Some (AddStack e))
                     /\ cmdTrace r
                        = printedMeta m ++ map liftEvent (trace d)
                          ++ [CEv (Core (ClusterMetadata a)) (Err e)])
                 \/ (exists m' t3,
                        TombstoneTrace L a m' (cmdOutcome r) t3
                        /\ cmdTrace r
                           = printedMeta m ++ map liftEvent (trace d)
                             ++ CEv (Core (ClusterMetadata a)) (Ok m')
                                :: map liftEvent t3)))).
Proof.
  intros opt' r path printedMeta. unfold r. clear r. rewrite RunE_run.
  fold opt'.
  pose proof (displayClusterMeta_run opt' w) as Hmeta. cbv zeta in Hmeta.
  change (command.clusterName opt') with a in Hmeta.
  fold path in Hmeta. unfold cmdOutcome, cmdTrace in *.
  destruct (runCmd h (cmd.displayClusterMeta L C opt') w) as [[o1 w1] t1].
  simpl in Hmeta.
  destruct Hmeta as [(-> & ->)|[(e & -> & ->)|(m & -> & ->)]].
  - left. split; reflexivity.
  - right. left. exists e. split; reflexivity.
  - right. right. exists m, w1. unfold outcome, trace.
    pose proof (fun m' =>
                  destroyTombstoneIfNeed_trace L W (coreHandler h) a m')
      as Htomb.
    destruct (run (coreHandler h) (command.displayClusterTopology L opt') w1)
      as [[o2 w2] t2].
    cbn [fst snd]. destruct o2 as [[e|]|q].
    + left. split; [discriminate|]. split; reflexivity.
    + right. split; [reflexivity|].
      destruct (h _ (Core (ClusterMetadata a)) w2) as [[m'|e] w3].
      * right. specialize (Htomb m' w3). unfold outcome, trace in Htomb.
        destruct (run (coreHandler h)
                    (command.destroyTombstoneIfNeed L a m') w3)
          as [[o3 w4] t3].
        cbn [fst snd] in *. exists m', t3. split; [exact Htomb|reflexivity].
      * left. exists e. split; reflexivity.
    + left. split; [discriminate|]. split; reflexivity.
Qed.

End Command.

(** ** The command, call by call *)

Lemma liftEvent_core (t : list Event) :
  Forall (fun ev => fileChecked ev = None /\ printfCall ev = None)
    (map liftEvent t).
Proof.
  induction t as [|[X e x] t IH]; simpl; constructor; try exact IH.
  split; reflexivity.
Qed.

Lemma liftEvent_core_then {X : Type} (t t3 : list Event) (e : Eff X)
  (x : X) :
  Forall (fun ev => fileChecked ev = None /\ printfCall ev = None)
    (map liftEvent t ++ CEv (Core e) x :: map liftEvent t3).
Proof.
  apply Forall_app. split; [apply liftEvent_core|].
  constructor; [split; reflexivity|apply liftEvent_core].
Qed.

Lemma lookup_Forall {A : Type} (P : A -> Prop) (l : list A) (i : nat)
  (x : A) :
  Forall P l -> l !! i = Some x -> P x.
Proof.
  intros H Hi. rewrite Forall_forall in H. apply H.
  eapply list_elem_of_lookup_2. exact Hi.
Qed.

Section CommandCalls.

Variable L : Lib.
Variable C : CmdLib.
Variable W : Type.
Variable h : CmdHandler W.

(** X17.  Unless it is given exactly one argument the command shows its
    help and hands back what the help hands back: no file is checked, no
    metadata loaded, nothing displayed or destroyed. *)
Theorem RunE_wrong_arity (opt : command.displayOption)
  (args : list string) (w : W) :
  length args <> 1 ->
  exists res,
    cmdOutcome (runCmd h (cmd.RunE L C opt args) w) = Returned res
    /\ cmdTrace (runCmd h (cmd.RunE L C opt args) w) = [CEv Help res].
Proof.
  intros Hlen. unfold cmd.RunE.
  destruct (Nat.eqb_spec (length args) 1) as [Heq|_]; [contradiction|].
  simpl. destruct (h _ Help w) as [res w1]. exists res. split; reflexivity.
Qed.

(** X18.  When the metadata file of the cluster named by the argument
    does not exist, the command hands back the error "cannot display
    non-exists cluster" followed by the name, and the file check is its
    only call: the metadata is not loaded and nothing is printed. *)
Theorem RunE_missing_cluster (opt : command.displayOption) (a : string)
  (w : W) (i : nat) (ev : CmdEvent) (path : string) :
  cmdTrace (runCmd h (cmd.RunE L C opt [a]) w) !! i = Some ev ->
  fileChecked ev = Some (path, true) ->
  cmdOutcome (runCmd h (cmd.RunE L C opt [a]) w)
  = Returned (Some (Errorf ("cannot display non-exists cluster " ++ a)%string))
  /\ cmdTrace (runCmd h (cmd.RunE L C opt [a]) w) = [ev]
  /\ path = ClusterPath L a [MetaFileName C].
Proof.
  intros Hi Hf.
  assert (Hrest : forall m rest,
             Forall (fun ev => fileChecked ev = None /\ printfCall ev = None)
               rest ->
             ([CEv (IsNotExist (ClusterPath L a [MetaFileName C])) false;
               CEv (Core (ClusterMetadata a)) (Ok m);
               CEv (Printf ("TiDB Cluster: %s" ++ cmd.newline)%string
                      [cyanBold C a]) tt;
               CEv (Printf ("TiDB Version: %s" ++ cmd.newline)%string
                      [cyanBold C (meta.Version m)]) tt] ++ rest) !! i
             = Some ev -> False).
  { intros m rest Hq Hl. apply lookup_app_Some in Hl as [Hl|[_ Hl]].
    - at_index i Hl; simpl in Hf; discriminate Hf.
    - destruct (lookup_Forall _ _ _ _ Hq Hl) as [Hn _]. congruence. }
  destruct (RunE_cases L C W h opt a w)
    as [(Hout & Htr)|[(e & Hout & Htr)
       |(m & w1 & [(_ & _ & Htr)|(_ & [(e & _ & Htr)
                                      |(m' & t3 & _ & Htr)])])]];
    rewrite Htr in Hi.
  - rewrite Hout, Htr. at_index i Hi. simpl in Hf. injection Hf as <-.
    repeat split.
  - at_index i Hi; simpl in Hf; discriminate Hf.
  - exfalso. apply (Hrest m _ (liftEvent_core _) Hi).
  - exfalso. apply (Hrest m _ (liftEvent_core_then _ [] _ _) Hi).
  - exfalso.
    apply (Hrest m _ (liftEvent_core_then _ t3 _ _) Hi).
Qed.

(** X21.  The command prints two lines and only after the metadata file
    exists and loads: first the cluster name from the argument, then the
    version of the metadata loaded, both through the cyan printer. *)
Theorem RunE_prints_name_then_version (opt : command.displayOption)
  (a : string) (w : W) (i : nat) (ev : CmdEvent) (f : string)
  (args : list string) :
  cmdTrace (runCmd h (cmd.RunE L C opt [a]) w) !! i = Some ev ->
  printfCall ev = Some (f, args) ->
  exists m,
    cmdTrace (runCmd h (cmd.RunE L C opt [a]) w) !! 0
    = Some (CEv (IsNotExist (ClusterPath L a [MetaFileName C])) false)
    /\ cmdTrace (runCmd h (cmd.RunE L C opt [a]) w) !! 1
       = Some (CEv (Core (ClusterMetadata a)) (Ok m))
    /\ ((i = 2 /\ f = ("TiDB Cluster: %s" ++ cmd.newline)%string
         /\ args = [cyanBold C a])
        \/ (i = 3 /\ f = ("TiDB Version: %s" ++ cmd.newline)%string
            /\ args = [cyanBold C (meta.Version m)])).
Proof.
  intros Hi Hf.
  assert (Hrest : forall m rest,
             Forall (fun ev => fileChecked ev = None /\ printfCall ev = None)
               rest ->
             ([CEv (IsNotExist (ClusterPath L a [MetaFileName C])) false;
               CEv (Core (ClusterMetadata a)) (Ok m);
               CEv (Printf ("TiDB Cluster: %s" ++ cmd.newline)%string
                      [cyanBold C a]) tt;
               CEv (Printf ("TiDB Version: %s" ++ cmd.newline)%string
                      [cyanBold C (meta.Version m)]) tt] ++ rest) !! i
             = Some ev ->
             (i = 2 /\ f = ("TiDB Cluster: %s" ++ cmd.newline)%string
              /\ args = [cyanBold C a])
             \/ (i = 3 /\ f = ("TiDB Version: %s" ++ cmd.newline)%string
                 /\ args = [cyanBold C (meta.Version m)])).
  { intros m rest Hq Hl. apply lookup_app_Some in Hl as [Hl|[_ Hl]].
    - at_index i Hl; simpl in Hf; try discriminate Hf;
        injection Hf as <- <-; [left|right]; repeat split.
    - destruct (lookup_Forall _ _ _ _ Hq Hl) as [_ Hn]. congruence. }
  destruct (RunE_cases L C W h opt a w)
    as [(Hout & Htr)|[(e & Hout & Htr)
       |(m & w1 & [(_ & _ & Htr)|(_ & [(e & _ & Htr)
                                      |(m' & t3 & _ & Htr)])])]];
    rewrite Htr in Hi |- *.
  - at_index i Hi; simpl in Hf; discriminate Hf.
  - at_index i Hi; simpl in Hf; discriminate Hf.
  - exists m. split; [reflexivity|]. split; [reflexivity|].
    apply (Hrest m _ (liftEvent_core _) Hi).
  - exists m. split; [reflexivity|]. split; [reflexivity|].
    apply (Hrest m _ (liftEvent_core_then _ [] _ _) Hi).
  - exists m. split; [reflexivity|]. split; [reflexivity|].
    apply (Hrest m _ (liftEvent_core_then _ t3 _ _) Hi).
Qed.

End CommandCalls.

(** ** The order of the three steps of the command *)

Lemma lift_calm (t : list Event) :
  Forall (fun ev => isMutation ev = false /\ isNeedCheck ev = false) t ->
  Forall (fun ev => isTombstoneCall ev = false) (map liftEvent t).
Proof.
  intros H. apply Forall_map_lift. eapply Forall_impl; [exact H|].
  intros [X e x] [Hm Hn].
  change (isTombstoneCall (liftEvent (Ev e x)))
    with (isNeedCheck (Ev e x) || isMutation (Ev e x)).
  rewrite Hm, Hn. reflexivity.
Qed.

Lemma lift_no_print (t : list Event) :
  Forall (fun ev => printed ev = None) t ->
  Forall (fun ev => cmdPrinted ev = None) (map liftEvent t).
Proof.
  intros H. apply Forall_map_lift. eapply Forall_impl; [exact H|].
  intros [X e x] Hp. exact Hp.
Qed.

Lemma lift_no_load_error (t : list Event) :
  Forall (fun ev => loadError ev = None) t ->
  Forall (fun ev => cmdLoadError ev = None) (map liftEvent t).
Proof.
  intros H. apply Forall_map_lift. eapply Forall_impl; [exact H|].
  intros [X e x] Hp. exact Hp.
Qed.

Section CommandOrder.

Variable L : Lib.
Variable C : CmdLib.
Variable W : Type.
Variable h : CmdHandler W.

Local Abbreviation printedMeta a m :=
  [CEv (IsNotExist (ClusterPath L a [MetaFileName C])) false;
   CEv (Core (ClusterMetadata a)) (Ok m);
   CEv (Printf ("TiDB Cluster: %s" ++ cmd.newline)%string [cyanBold C a]) tt;
   CEv (Printf ("TiDB Version: %s" ++ cmd.newline)%string
          [cyanBold C (meta.Version m)]) tt].

Local Abbreviation named opt a :=
  {| command.clusterName := a;
     command.filterRole := command.filterRole opt;
     command.filterNode := command.filterNode opt |}.

(** When the display handed back nil, the calls up to its print are no
    calls of the tombstone step and no failed loads, and the print is
    there. *)
Lemma printed_prefix (a : string) (m : meta.ClusterMeta)
  (opt' : command.displayOption) (w1 : W) (rest : list CmdEvent) :
  outcome (run (coreHandler h) (command.displayClusterTopology L opt') w1)
  = Returned None ->
  exists pre pe tbl,
    printedMeta a m
    ++ map liftEvent
         (trace (run (coreHandler h)
                   (command.displayClusterTopology L opt') w1))
    ++ rest
    = pre ++ pe :: rest
    /\ cmdPrinted pe = Some tbl
    /\ Forall (fun ev => isTombstoneCall ev = false /\ cmdLoadError ev = None)
         (pre ++ [pe]).
Proof.
  intros Hout.
  destruct (display_run_facts L W (coreHandler h) opt' w1)
    as (Hcalm & Hok & _).
  destruct (Hok Hout) as (Hload & init & tbl & Htr).
  apply lift_calm in Hcalm. apply lift_no_load_error in Hload.
  rewrite Htr in *. rewrite map_app in *. simpl map in *.
  exists (printedMeta a m ++ map liftEvent init),
    (CEv (Core (PrintTable tbl true)) tt), tbl.
  split; [rewrite <- !app_assoc; reflexivity|]. split; [reflexivity|].
  rewrite <- app_assoc. apply Forall_app. split.
  - repeat constructor.
  - apply Forall_forall. intros ev Hev.
    split; [exact (proj1 (Forall_forall _ _) Hcalm ev Hev)
           |exact (proj1 (Forall_forall _ _) Hload ev Hev)].
Qed.

(** X19.  The tombstone step starts only after the table was printed: a
    need check, a [DestroyTombstone] call or a save among the calls of the
    command comes after the print of the display.  A command whose display
    failed or panicked never destroys or saves anything. *)
Theorem RunE_tombstone_after_print (opt : command.displayOption)
  (args : list string) (w : W) (i : nat) (ev : CmdEvent) :
  cmdTrace (runCmd h (cmd.RunE L C opt args) w) !! i = Some ev ->
  isTombstoneCall ev = true ->
  exists j evp tbl,
    j < i
    /\ cmdTrace (runCmd h (cmd.RunE L C opt args) w) !! j = Some evp
    /\ cmdPrinted evp = Some tbl.
Proof.
  intros Hi Ht.
  destruct (Nat.eq_dec (length args) 1) as [Hlen|Hlen].
  2: { unfold cmd.RunE in Hi.
       destruct (Nat.eqb_spec (length args) 1) as [Heq|_]; [contradiction|].
       simpl in Hi. destruct (h _ Help w) as [res w1]. simpl in Hi.
       at_index i Hi. discriminate Ht. }
  destruct args as [|a [|b args]]; try discriminate Hlen. clear Hlen.
  destruct (RunE_cases L C W h opt a w)
    as [(Hout & Htr)|[(e & Hout & Htr)
       |(m & w1 & [(Hne & _ & Htr)|(Hok & [(e & _ & Htr)
                                          |(m' & t3 & _ & Htr)])])]];
    rewrite Htr in Hi |- *.
  - at_index i Hi. discriminate Ht.
  - at_index i Hi; discriminate Ht.
  - exfalso. destruct (display_run_facts L W (coreHandler h) (named opt a) w1)
      as (Hcalm & _ & _).
    apply lift_calm in Hcalm.
    apply lookup_app_Some in Hi as [Hi|[_ Hi]].
    + at_index i Hi; discriminate Ht.
    + pose proof (lookup_Forall _ _ _ _ Hcalm Hi) as Hc. simpl in Hc.
      congruence.
  - exfalso.
    destruct (printed_prefix a m (named opt a) w1
                [CEv (Core (ClusterMetadata a)) (Err e)] Hok)
      as (pre & pe & tbl & Heq & _ & Hcalm).
    rewrite Heq in Hi.
    change (pre ++ pe :: [CEv (Core (ClusterMetadata a)) (Err e)])
      with (pre ++ [pe] ++ [CEv (Core (ClusterMetadata a)) (Err e)]) in Hi.
    rewrite app_assoc in Hi.
    apply lookup_app_Some in Hi as [Hi|[_ Hi]].
    + destruct (lookup_Forall _ _ _ _ Hcalm Hi) as [Hc _]. congruence.
    + destruct (i - length (pre ++ [pe])) as [|k]; simpl in Hi;
        [injection Hi as <-|]; discriminate.
  - destruct (printed_prefix a m (named opt a) w1
                (CEv (Core (ClusterMetadata a)) (Ok m') :: map liftEvent t3)
                Hok)
      as (pre & pe & tbl & Heq & Hpe & Hcalm).
    rewrite Heq in Hi |- *.
    exists (length pre), pe, tbl.
    split; [|split; [apply list_lookup_middle; reflexivity|exact Hpe]].
    destruct (Nat.lt_ge_cases (length pre) i) as [Hlt|Hge]; [exact Hlt|].
    exfalso.
    change (pre ++ pe :: ?x) with (pre ++ [pe] ++ x) in Hi.
    rewrite app_assoc in Hi.
    rewrite lookup_app_l in Hi by (rewrite length_app; simpl; lia).
    destruct (lookup_Forall _ _ _ _ Hcalm Hi) as [Hc _]. congruence.
Qed.

(** X20.  A metadata load that fails ends the command.  Before the table
    is printed (the loads of the two displays) the error is handed back as
    it is; after it (the load for the tombstone step) it is handed back
    with a stack. *)
Theorem RunE_load_error (opt : command.displayOption) (a : string) (w : W)
  (i : nat) (ev : CmdEvent) (e : error) :
  cmdTrace (runCmd h (cmd.RunE L C opt [a]) w) !! i = Some ev ->
  cmdLoadError ev = Some e ->
  length (cmdTrace (runCmd h (cmd.RunE L C opt [a]) w)) = S i
  /\ ((Forall (fun ev' => cmdPrinted ev' = None)
         (cmdTrace (runCmd h (cmd.RunE L C opt [a]) w))
       /\ cmdOutcome (runCmd h (cmd.RunE L C opt [a]) w)
          = Returned (Some e))
      \/ ((exists j evp tbl,
              j < i
              /\ cmdTrace (runCmd h (cmd.RunE L C opt [a]) w) !! j = Some evp
              /\ cmdPrinted evp = Some tbl)
          /\ cmdOutcome (runCmd h (cmd.RunE L C opt [a]) w)
             = Returned (Some (AddStack e)))).
Proof.
  intros Hi He.
  destruct (RunE_cases L C W h opt a w)
    as [(Hout & Htr)|[(e0 & Hout & Htr)
       |(m & w1 & [(Hne & Hout & Htr)|(Hok & [(e0 & Hout & Htr)
                                             |(m' & t3 & Htomb & Htr)])])]];
    rewrite Htr in Hi |- *.
  - at_index i Hi. discriminate He.
  - rewrite Hout. at_index i Hi; simpl in He; [discriminate He|].
    injection He as <-. split; [reflexivity|]. left.
    split; [repeat constructor|reflexivity].
  - destruct (display_run_facts L W (coreHandler h) (named opt a) w1)
      as (_ & _ & Hbad).
    destruct (Hbad Hne) as (Hnp & Hload).
    apply lookup_app_Some in Hi as [Hi|[Hge Hi]].
    { at_index i Hi; discriminate He. }
    apply lookup_map_Some in Hi as (ev2 & Hi2 & ->).
    destruct ev2 as [X e2 x2].
    destruct (Hload _ _ e Hi2 He) as (Hout2 & Htr2).
    pose proof (lookup_lt_Some _ _ _ Hi2) as Hlt.
    rewrite Htr2 in Hlt |- *. rewrite Hout, Hout2.
    simpl in Hge, Hlt.
    split; [simpl; lia|]. left. split; [|reflexivity].
    repeat constructor. rewrite Htr2 in Hnp.
    apply Forall_cons in Hnp as [Hp _]. exact Hp.
  - destruct (printed_prefix a m (named opt a) w1
                [CEv (Core (ClusterMetadata a)) (Err e0)] Hok)
      as (pre & pe & tbl & Heq & Hpe & Hcalm).
    rewrite Heq in Hi |- *. rewrite Hout.
    change (pre ++ pe :: [CEv (Core (ClusterMetadata a)) (Err e0)])
      with (pre ++ [pe] ++ [CEv (Core (ClusterMetadata a)) (Err e0)])
      in Hi |- *.
    rewrite app_assoc in Hi |- *.
    apply lookup_app_Some in Hi as [Hi|[Hge Hi]].
    { destruct (lookup_Forall _ _ _ _ Hcalm Hi) as [_ Hc]. congruence. }
    destruct (i - length (pre ++ [pe])) as [|k] eqn:Hk; simpl in Hi;
      [injection Hi as <-|discriminate Hi].
    simpl in He. injection He as <-.
    assert (Hieq : i = length (pre ++ [pe])) by lia.
    assert (Hlen : length (pre ++ [pe]) = S (length pre))
      by (rewrite length_app; simpl; lia).
    split; [rewrite length_app; simpl; lia|]. right. split; [|reflexivity].
    exists (length pre), pe, tbl. split; [lia|]. split; [|exact Hpe].
    rewrite <- app_assoc. apply list_lookup_middle. reflexivity.
  - exfalso.
    destruct (printed_prefix a m (named opt a) w1
                (CEv (Core (ClusterMetadata a)) (Ok m') :: map liftEvent t3)
                Hok)
      as (pre & pe & tbl & Heq & Hpe & Hcalm).
    rewrite Heq in Hi.
    change (pre ++ pe :: ?x) with (pre ++ [pe] ++ x) in Hi.
    rewrite app_assoc in Hi.
    apply lookup_app_Some in Hi as [Hi|[Hge Hi]].
    { destruct (lookup_Forall _ _ _ _ Hcalm Hi) as [_ Hc]. congruence. }
    destruct (i - length (pre ++ [pe])) as [|k]; simpl in Hi.
    { injection Hi as <-. discriminate He. }
    apply lookup_map_Some in Hi as (ev3 & Hi3 & ->).
    destruct (lookup_Forall _ _ _ _
                (TombstoneTrace_no_load _ _ _ _ _ Htomb) Hi3) as [Hc _].
    destruct ev3 as [X e3 x3]. change (loadError (Ev e3 x3) = Some e) in He.
    congruence.
Qed.

End CommandOrder.

(** ** The command on the small cluster *)

Lemma RunE_wrong_arity_witness :
  exists res,
    cmdTrace (runCmd (DemoCmd.handler Demo.quiet true)
                (cmd.RunE Demo.lib DemoCmd.clib Demo.opt []) (Demo.start []))
    = [CEv Help res].
Proof.
  destruct (RunE_wrong_arity Demo.lib DemoCmd.clib _
              (DemoCmd.handler Demo.quiet true) Demo.opt []
              (Demo.start []) (O_S 0))
    as (res & _ & Htr).
  exists res. exact Htr.
Defined.

Lemma RunE_missing_cluster_witness :
  cmdOutcome (runCmd (DemoCmd.handler Demo.quiet false)
                (cmd.RunE Demo.lib DemoCmd.clib Demo.opt ["staging"])
                (Demo.start []))
  = Returned (Some (Errorf "cannot display non-exists cluster staging")).
Proof.
  exact (proj1 (RunE_missing_cluster Demo.lib DemoCmd.clib _
                  (DemoCmd.handler Demo.quiet false) Demo.opt "staging"
                  (Demo.start []) 0 _
                  "/home/tidb/.tiup/storage/cluster/clusters/staging/meta.yaml"
                  eq_refl eq_refl)).
Defined.

Lemma RunE_prints_name_then_version_witness :
  exists m,
    cmdTrace (runCmd (DemoCmd.handler Demo.quiet true)
                (cmd.RunE Demo.lib DemoCmd.clib Demo.opt ["prod"])
                (Demo.start [])) !! 1
    = Some (CEv (Core (ClusterMetadata "prod")) (Ok m))
    /\ meta.Version m = "v4.0.0-beta".
Proof.
  destruct (RunE_prints_name_then_version Demo.lib DemoCmd.clib _
              (DemoCmd.handler Demo.quiet true) Demo.opt "prod"
              (Demo.start []) 3 _ _ ["v4.0.0-beta"] eq_refl eq_refl)
    as (m & _ & Hload & [(Hi & _)|(_ & _ & Hargs)]).
  - discriminate Hi.
  - exists m. split; [exact Hload|]. injection Hargs as Hv. symmetry.
    exact Hv.
Defined.

(** The need check of the tombstone step is the fourteenth call; the
    table was printed before it. *)
Lemma RunE_tombstone_after_print_witness :
  exists j evp tbl,
    j < 13
    /\ cmdTrace (runCmd (DemoCmd.handler (Demo.retiring None) true)
                   (cmd.RunE Demo.lib DemoCmd.clib Demo.opt ["prod"])
                   (Demo.start [])) !! j = Some evp
    /\ cmdPrinted evp = Some tbl.
Proof.
  exact (RunE_tombstone_after_print Demo.lib DemoCmd.clib _
           (DemoCmd.handler (Demo.retiring None) true) Demo.opt ["prod"]
           (Demo.start []) 13 _ eq_refl eq_refl).
Defined.

(** The file check passes for a cluster the store has no metadata of. *)
Lemma RunE_load_error_witness :
  cmdOutcome (runCmd (DemoCmd.handler Demo.quiet true)
                (cmd.RunE Demo.lib DemoCmd.clib Demo.opt ["staging"])
                (Demo.start []))
  = Returned (Some (Errorf "open meta.yaml: no such file or directory")).
Proof.
  destruct (RunE_load_error Demo.lib DemoCmd.clib _
              (DemoCmd.handler Demo.quiet true) Demo.opt "staging"
              (Demo.start []) 1 _
              (Errorf "open meta.yaml: no such file or directory")
              eq_refl eq_refl)
    as (_ & [(_ & Hout)|((j & evp & tbl & Hj & Hevp & Hp) & _)]).
  - exact Hout.
  - exfalso. destruct j as [|[|j]]; [| |lia];
      simpl in Hevp; injection Hevp as <-; discriminate Hp.
Defined.
